(** * GridControl: the peer coordination engine of src/gridcontrol.js

    A shallow embedding of [GridControl] (discovery, readiness barrier,
    self-healing timer, synchronisation protocol, trigger dispatch) as
    state-passing handlers over an explicit object store, with every call
    to a collaborator recorded in a trace of effects. *)

From Stdlib Require Import ZArith NArith String Ascii List Bool Lia.
From Stdlib Require Import Strings.Byte.
From stdpp Require Import base list.
Import ListNotations.

Local Open Scope string_scope.
Local Open Scope list_scope.

(** ** JavaScript values *)

(** The values that cross the engine without being inspected (task ids,
    task data, results, errors).  Objects are kept as their JSON text. *)
Inductive JsValue :=
| JsUndefined
| JsNull
| JsBool (b : bool)
| JsNumber (z : Z)
| JsString (s : string)
| JsObject (json : string).

(** [if (v)]: ToBoolean of the language. *)
Definition truthy (v : JsValue) : bool :=
  match v with
  | JsUndefined | JsNull => false
  | JsBool b => b
  | JsNumber z => negb (z =? 0)%Z
  | JsString s => negb (s =? "")
  | JsObject _ => true
  end.

(** [v.p] raises a TypeError exactly when [v] is undefined or null. *)
Definition nullish (v : JsValue) : bool :=
  match v with
  | JsUndefined | JsNull => true
  | _ => false
  end.

(** ** Strings handed to a Buffer

    A string of the language is a sequence of UTF-16 code units, numbers
    below 65536.  The names, addresses, fingerprints and printed texts,
    which the engine only stores, compares and passes on, are kept as
    [string]; the namespace, which [startDiscovery] hands to [new Buffer],
    is kept as its code units. *)
Definition JsStr := list N.

(** A literal: one code unit per character. *)
Definition js_of_string (s : string) : JsStr :=
  map N_of_ascii (list_ascii_of_string s).
Coercion js_of_string : string >-> JsStr.

(** A content fingerprint is an MD5 digest in text form; [==] between two
    strings is plain string equality. *)
Definition Fingerprint := string.
Definition md5_eq (a b : Fingerprint) : bool := (a =? b).

Definition Buffer := list byte.

(** ** Data model *)

(** The object built by [getLocalIdentity], plus the [synchronized]
    property the engine writes on the copy held by a router (absent, hence
    falsy, on the wire). *)
Module Identity.
Record t := mk {
  public_ip    : option string;
  private_ip   : string;
  api_port     : Z;
  name         : string;
  hostname     : string;
  platform     : string;
  ns           : JsStr;
  files_master : bool;
  user         : option string;
  grid_version : string;
  uptime       : Z;
  synchronized : bool
}.
Definition set_synchronized (b : bool) (i : t) : t :=
  mk (public_ip i) (private_ip i) (api_port i) (name i) (hostname i)
     (platform i) (ns i) (files_master i) (user i) (grid_version i)
     (uptime i) b.
End Identity.

(** opts.task_meta: what the task manager needs to run the tasks. *)
Module TaskMeta.
Record t := mk {
  instances   : Z;
  json_conf   : string;
  task_folder : string;
  env         : string;
  base_folder : option string
}.
Definition set_base_folder (f : string) (m : t) : t :=
  mk (instances m) (json_conf m) (task_folder m) (env m) (Some f).
End TaskMeta.

(** The payload of a [sync] message, as [askPeerToSync] builds it. *)
Module SyncData.
Record t := mk {
  public_ip  : option string;
  private_ip : string;
  meta       : TaskMeta.t;
  curr_md5   : Fingerprint
}.
Definition set_meta (m : TaskMeta.t) (d : t) : t :=
  mk (public_ip d) (private_ip d) m (curr_md5 d).
End SyncData.

(** The second argument of the callback of [file_manager.synchronize]. *)
Record FileMeta := { dest_folder : string }.

(** The packet of a [trigger] message. *)
Record Packet := { task_id : JsValue; data : JsValue; opts : JsValue }.

(** The request handed to [task_manager.triggerTask]. *)
Record TaskRequest := {
  req_task_id   : JsValue;
  req_task_data : JsValue;
  req_task_opts : JsValue
}.

(** Named messages exchanged over a router. *)
Inductive Message :=
| msg_identity (id : Identity.t)
| msg_clear
| msg_trigger (packet : Packet)
| msg_sync (data : SyncData.t) (file : Buffer)
| msg_sync_done (synced_md5 : Fingerprint).

(** Modelled from the spec: the state of the payload collaborator of
    files/file_manager.js, whose source is missing, as it is read through
    [isFileMaster], [hasFileToSync], [getCurrentMD5], [getFilePath] and the
    [current_file_buff] property. *)
Record FilesManagement := {
  is_file_master    : bool;
  has_file_to_sync  : bool;
  current_md5       : Fingerprint;
  current_file_buff : Buffer;
  file_path         : string
}.

(** Modelled from the spec: the state of the task collaborator of
    tasks_manager/task_manager.js, whose source is missing: a cell written
    by [setTaskMeta] and read by [getTaskMeta]. *)
Record TaskManager := { task_meta : TaskMeta.t }.

(** Modelled from the spec: a Router of network/socket-pool.js, whose
    source is missing, one per connection; the remote identity is unset
    until the peer's [identity] message has been received. *)
Record Router := {
  sock     : nat;
  identity : option Identity.t
}.

(** The function passed to [startDiscovery] as [cb]. *)
Inductive Callback :=
| cb_discovery_ready      (* the arrow function written in [start] *)
| cb_caller (k : nat).    (* a function of the caller, number [k] *)

(** Modelled from the spec: an instance of network/interplanetary.js, the
    discovery transport, whose source is missing: topics joined, port asked
    for, port bound once the TCP listener is up, whether it was closed;
    [on_cb] is the [cb] captured by the handlers [startDiscovery] attaches
    to it. *)
Record Swarm := {
  topics      : list string;
  listen_port : option Z;
  tcp_port    : option Z;
  closed      : bool;
  on_cb       : option Callback
}.

(** Modelled from the spec: the barrier returned by lib/wait.js, whose
    source is missing: the names it waits for, those already seen, and
    whether its promise is fulfilled. *)
Record Barrier := {
  awaited  : list string;
  received : list string;
  resolved : bool
}.

(** The fields of [this]. *)
Record GridControl := {
  peer_name      : string;
  namespace      : JsStr;
  public_ip      : option string;
  private_ip     : string;
  peer_api_port  : Z;
  network_port   : option Z;
  Interplanetary : option nat;
  SocketPool     : list nat;
  file_manager   : FilesManagement;
  task_manager   : TaskManager
}.

(** The object store: [this], the routers and swarms it refers to by
    number, and the barrier listening on [this]. *)
Record World := {
  this    : GridControl;
  routers : list Router;
  swarms  : list Swarm;
  waiting : option Barrier
}.

(** What the process gives: environment variables and [os] / [pkg] facts. *)
Record Process := {
  NODE_ENV    : option string;
  USER        : option string;
  os_hostname : string;
  os_platform : string;
  pkg_version : string;
  proc_uptime : Z
}.

(** process.env.NODE_ENV == 'test' *)
Definition test_mode (p : Process) : bool :=
  match NODE_ENV p with
  | Some v => (v =? "test")
  | None => false
  end.

(** ** Effects *)

(** The functions the engine hands to a collaborator or a timer, to be
    called back later; each closes over the variables listed. *)
Inductive Kont :=
| K_public_ip                       (* ip => { ... } after publicIp.v4() *)
| K_api_started                     (* () => { ... } after api.start() *)
| K_interval_discovery              (* the arrow given to setInterval *)
| K_timeout_sync (router : nat)     (* the function given to setTimeout *)
| K_trigger (cb : nat)              (* function(err, res) of triggerTask *)
| K_synchronize (data : SyncData.t) (* function(err, meta) of synchronize *)
| K_initTaskGroup (data : SyncData.t). (* function() of initTaskGroup *)

Inductive EventArg :=
| no_arg
| arg_sock (sock : nat)
| arg_file (path : string).

(** One entry per call that leaves the engine. *)
Inductive Effect :=
| Debug (fmt : string)
| ConsoleLog (fmt : string)
| ConsoleError (fmt : string) (args : list JsValue)
| Emit (ev : string) (a : EventArg)
| RouterSend (router : nat) (m : Message)
| SwarmListen (s : nat) (port : Z)
| SwarmJoin (s : nat) (key : string)
| SwarmClose (s : nat)
| FmSynchronize (data : SyncData.t) (file : Buffer) (k : Kont)
| FmClear
| TmInitTaskGroup (meta : TaskMeta.t) (k : Kont)
| TmTriggerTask (req : TaskRequest) (k : Kont)
| SetTimeout (k : Kont) (ms : Z)
| SetInterval (k : Kont) (ms : Z)
| PublicIpV4 (k : Kont)
| ApiStart (k : Kont)
| WriteConf (conf : string * JsStr * Z)
| Fmt (label : string)
| ApiClose
| PoolClose
| TmTerminate
| Reply (cb : nat) (args : list JsValue)
| Call (k : nat) (args : list JsValue).

(** What a handler can throw.  [DanglingReference] stands for a number that
    names no object of the store; no handler produces such a number. *)
Inductive JsError :=
| TypeError (what : string)
| DanglingReference (r : nat).

(** ** The monad of handlers: state, trace and exceptions

    A thrown exception keeps the writes and the calls made before it. *)
Inductive Outcome (A : Type) :=
| Return (a : A)
| Throw (e : JsError).
Arguments Return {A} a.
Arguments Throw {A} e.

Definition Js (A : Type) : Type := World -> Outcome A * World * list Effect.

Definition Js_ret {A} (a : A) : Js A := fun w => (Return a, w, []).

Definition Js_bind {A B} (m : Js A) (f : A -> Js B) : Js B :=
  fun w =>
    let '(o, w1, t1) := m w in
    match o with
    | Return a => let '(o2, w2, t2) := f a w1 in (o2, w2, t1 ++ t2)
    | Throw e => (Throw e, w1, t1)
    end.

Declare Scope js_scope.
Delimit Scope js_scope with js.
Notation "'let*' x ':=' m 'in' k" := (Js_bind m (fun x => k))
  (at level 10, x name, m at level 100, k at level 200) : js_scope.
Notation "m '>>' k" := (Js_bind m (fun _ => k))
  (at level 90, right associativity) : js_scope.
Local Open Scope js_scope.

Definition throw {A} (e : JsError) : Js A := fun w => (Throw e, w, []).
Definition tell (e : Effect) : Js unit := fun w => (Return tt, w, [e]).
Definition get_world : Js World := fun w => (Return w, w, []).
Definition get_this : Js GridControl := fun w => (Return (this w), w, []).
Definition put_world (w : World) : Js unit := fun _ => (Return tt, w, []).

Definition outcome {A} (r : Outcome A * World * list Effect) : Outcome A :=
  fst (fst r).
Definition world_of {A} (r : Outcome A * World * list Effect) : World :=
  snd (fst r).
Definition trace {A} (r : Outcome A * World * list Effect) : list Effect :=
  snd r.

(** forEach *)
Fixpoint forEach {A} (l : list A) (f : A -> Js unit) : Js unit :=
  match l with
  | [] => Js_ret tt
  | x :: l' => f x >> forEach l' f
  end.

(** ** Field updates *)

Definition with_this (g : GridControl) (w : World) : World :=
  {| this := g; routers := routers w; swarms := swarms w;
     waiting := waiting w |}.
Definition with_routers (rs : list Router) (w : World) : World :=
  {| this := this w; routers := rs; swarms := swarms w;
     waiting := waiting w |}.
Definition with_swarms (ss : list Swarm) (w : World) : World :=
  {| this := this w; routers := routers w; swarms := ss;
     waiting := waiting w |}.
Definition with_waiting (b : option Barrier) (w : World) : World :=
  {| this := this w; routers := routers w; swarms := swarms w;
     waiting := b |}.

Definition set_namespace (v : JsStr) (g : GridControl) : GridControl :=
  {| peer_name := peer_name g; namespace := v; public_ip := public_ip g;
     private_ip := private_ip g; peer_api_port := peer_api_port g;
     network_port := network_port g; Interplanetary := Interplanetary g;
     SocketPool := SocketPool g; file_manager := file_manager g;
     task_manager := task_manager g |}.
Definition set_public_ip (v : option string) (g : GridControl) : GridControl :=
  {| peer_name := peer_name g; namespace := namespace g; public_ip := v;
     private_ip := private_ip g; peer_api_port := peer_api_port g;
     network_port := network_port g; Interplanetary := Interplanetary g;
     SocketPool := SocketPool g; file_manager := file_manager g;
     task_manager := task_manager g |}.
Definition set_network_port (v : option Z) (g : GridControl) : GridControl :=
  {| peer_name := peer_name g; namespace := namespace g;
     public_ip := public_ip g; private_ip := private_ip g;
     peer_api_port := peer_api_port g; network_port := v;
     Interplanetary := Interplanetary g; SocketPool := SocketPool g;
     file_manager := file_manager g; task_manager := task_manager g |}.
Definition set_Interplanetary (v : option nat) (g : GridControl) : GridControl :=
  {| peer_name := peer_name g; namespace := namespace g;
     public_ip := public_ip g; private_ip := private_ip g;
     peer_api_port := peer_api_port g; network_port := network_port g;
     Interplanetary := v; SocketPool := SocketPool g;
     file_manager := file_manager g; task_manager := task_manager g |}.
Definition set_SocketPool (v : list nat) (g : GridControl) : GridControl :=
  {| peer_name := peer_name g; namespace := namespace g;
     public_ip := public_ip g; private_ip := private_ip g;
     peer_api_port := peer_api_port g; network_port := network_port g;
     Interplanetary := Interplanetary g; SocketPool := v;
     file_manager := file_manager g; task_manager := task_manager g |}.
Definition set_task_manager (v : TaskManager) (g : GridControl) : GridControl :=
  {| peer_name := peer_name g; namespace := namespace g;
     public_ip := public_ip g; private_ip := private_ip g;
     peer_api_port := peer_api_port g; network_port := network_port g;
     Interplanetary := Interplanetary g; SocketPool := SocketPool g;
     file_manager := file_manager g; task_manager := v |}.

Definition modify_this (f : GridControl -> GridControl) : Js unit :=
  fun w => (Return tt, with_this (f (this w)) w, []).

(** ** The rendezvous key *)

Definition key_suffix : JsStr := ":square-node:unik".

(** The first and the second half of a surrogate pair. *)
Definition is_high (u : N) : bool := ((0xD800 <=? u) && (u <? 0xDC00))%N.
Definition is_low (u : N) : bool := ((0xDC00 <=? u) && (u <? 0xE000))%N.

(** The UTF-8 bytes of the code point [c]. *)
Definition utf8_point (c : N) : list N :=
  (if c <? 0x80 then [c]
   else if c <? 0x800 then [0xC0 + c / 64; 0x80 + c mod 64]
   else if c <? 0x10000 then
     [0xE0 + c / 4096; 0x80 + (c / 64) mod 64; 0x80 + c mod 64]
   else [0xF0 + c / 262144; 0x80 + (c / 4096) mod 64;
         0x80 + (c / 64) mod 64; 0x80 + c mod 64])%N.

(** The bytes of U+FFFD, written for a surrogate that has no partner. *)
Definition replacement : list N := [0xEF; 0xBF; 0xBD]%N.

(** The code point a surrogate pair stands for. *)
Definition pair_point (h l : N) : N :=
  (0x10000 + (h - 0xD800) * 1024 + (l - 0xDC00))%N.

(** The UTF-8 encoding [new Buffer(str)] makes of a string: a pair of
    surrogates gives the four bytes of its code point, a surrogate without
    partner the bytes of U+FFFD, any other code unit its own bytes. *)
Fixpoint utf8 (s : JsStr) : list N :=
  match s with
  | [] => []
  | u :: rest =>
      if is_high u then
        match rest with
        | l :: rest' =>
            if is_low l then utf8_point (pair_point u l) ++ utf8 rest'
            else replacement ++ utf8 rest
        | [] => replacement
        end
      else if is_low u then replacement ++ utf8 rest
      else utf8_point u ++ utf8 rest
  end.

Definition byte_of_N (n : N) : byte :=
  match Byte.of_N n with
  | Some b => b
  | None => x00
  end.

(** new Buffer(str) *)
Definition new_Buffer (s : JsStr) : Buffer := map byte_of_N (utf8 s).

Definition hex_digit (n : N) : ascii :=
  if (n <? 10)%N then ascii_of_N (48 + n) else ascii_of_N (87 + n).

Definition hex_of_byte (b : byte) : string :=
  let n := Byte.to_N b in
  String (hex_digit (n / 16)) (String (hex_digit (n mod 16)) EmptyString).

(** buf.toString('hex'): two lower-case digits per byte. *)
Fixpoint toString_hex (buf : Buffer) : string :=
  match buf with
  | [] => EmptyString
  | b :: rest => hex_of_byte b ++ toString_hex rest
  end.

(** The topic [startDiscovery] joins for a namespace. *)
Definition discovery_key (ns : JsStr) : string :=
  toString_hex (new_Buffer (ns ++ key_suffix)).

(** ** The engine *)

Section Engine.

Variable P : Process.

(** *** Socket pool and routers *)

(** Modelled from the spec: SocketPool.getRouters of
    network/socket-pool.js, the routers registered at call time, in the
    order they were added. *)
Definition getRouters : Js (list nat) :=
  fun w => (Return (SocketPool (this w)), w, []).

(** Modelled from the spec: SocketPool.add of network/socket-pool.js, which
    wraps the connection in a new Router (no identity yet) and registers
    it. *)
Definition SocketPool_add (sock : nat) : Js nat :=
  fun w =>
    let r := length (routers w) in
    let fresh := {| sock := sock; identity := None |} in
    (Return r,
     with_this (set_SocketPool (SocketPool (this w) ++ [r]) (this w))
       (with_routers (routers w ++ [fresh]) w),
     []).

(** router.send(name, payload[, blob]) *)
Definition router_send (r : nat) (m : Message) : Js unit :=
  tell (RouterSend r m).

(** Modelled from the spec: SocketPool.broadcast of
    network/socket-pool.js, a send to every router registered at call
    time. *)
Definition SocketPool_broadcast (m : Message) : Js unit :=
  let* rs := getRouters in
  forEach rs (fun r => router_send r m).

Definition read_router (r : nat) : Js Router :=
  fun w =>
    match routers w !! r with
    | Some R => (Return R, w, [])
    | None => (Throw (DanglingReference r), w, [])
    end.

(** Reading [router.identity.x]: a TypeError while the identity is unset. *)
Definition router_identity (r : nat) : Js Identity.t :=
  let* R := read_router r in
  match identity R with
  | Some i => Js_ret i
  | None => throw (TypeError "router.identity is undefined")
  end.

Definition write_router (r : nat) (R : Router) : Js unit :=
  fun w => (Return tt, with_routers (<[r := R]> (routers w)) w, []).

(** router.identity.synchronized = b *)
Definition set_synchronized (r : nat) (b : bool) : Js unit :=
  let* R := read_router r in
  let* i := router_identity r in
  write_router r {| sock := sock R;
                    identity := Some (Identity.set_synchronized b i) |}.

(** *** Readiness barrier *)

(** Modelled from the spec: Wait(emitter, events) of lib/wait.js, whose
    source is missing: a promise fulfilled once every named event has been
    seen on the emitter. *)
Definition Wait (events : list string) : Barrier :=
  {| awaited := events; received := []; resolved := false |}.

Definition heard (ev : string) (l : list string) : bool :=
  existsb (String.eqb ev) l.

(** Modelled from the spec: what the barrier of lib/wait.js, whose source
    is missing, does when the emitter emits [ev]; the boolean tells whether
    the promise becomes fulfilled now.  The names seen form a set, and
    nothing happens once fulfilled. *)
Definition Barrier_signal (ev : string) (b : Barrier) : Barrier * bool :=
  if resolved b then (b, false)
  else if heard ev (awaited b) then
    let seen := if heard ev (received b) then received b
                else ev :: received b in
    let full := forallb (fun a => heard a seen) (awaited b) in
    ({| awaited := awaited b; received := seen; resolved := full |}, full)
  else (b, false).

(** The listeners the barrier attached to [this]. *)
Definition listeners (ev : string) : Js bool :=
  fun w =>
    match waiting w with
    | None => (Return false, w, [])
    | Some b =>
        let '(b', fired) := Barrier_signal ev b in
        (Return fired, with_waiting (Some b') w, [])
    end.

(** this.emit(ev, a), with [on_fulfilled] the function given to [then] on
    the barrier's promise. *)
Definition emit_then (on_fulfilled : Js unit) (ev : string) (a : EventArg)
  : Js unit :=
  tell (Emit ev a) >>
  let* fired := listeners ev in
  if fired : bool then on_fulfilled else Js_ret tt.

(** GridControl.prototype.serialize; the file manager and the task manager
    add their own part. *)
Definition serialize (g : GridControl) : string * JsStr * Z :=
  (peer_name g, namespace g, peer_api_port g).

Definition ready_fields : list string :=
  ["Name"; "Public IP"; "Private IP"; "Local API port"; "Network port";
   "DSS port"; "Joined Namespace"; "Created at"].

(** The function given to [then] in [start]. *)
Definition then_ready : Js unit :=
  emit_then (Js_ret tt) "ready" no_arg >>
  tell (SetInterval K_interval_discovery 10000) >>
  (if negb (test_mode P)
   then let* g := get_this in tell (WriteConf (serialize g))
   else Js_ret tt) >>
  tell (Fmt "Peer ready") >>
  forEach ready_fields (fun l => tell (Fmt l)) >>
  tell (Fmt "sep").

Definition emit (ev : string) (a : EventArg) : Js unit :=
  emit_then then_ready ev a.

(** *** Discovery *)

(** Calling [cb] with [args]. *)
Definition invoke (cb : Callback) (args : list JsValue) : Js unit :=
  match cb with
  | cb_caller k => tell (Call k args)
  | cb_discovery_ready =>
      let err := hd JsUndefined args in
      (if truthy err then tell (ConsoleError "%s" [err]) else Js_ret tt) >>
      emit "discovery:ready" no_arg
  end.

(** Interplanetary({dht: {interval: 15000}}) *)
Definition new_Interplanetary (cb : option Callback) : Js nat :=
  fun w =>
    let s := length (swarms w) in
    let fresh := {| topics := []; listen_port := None; tcp_port := None;
                    closed := false; on_cb := cb |} in
    (Return s, with_swarms (swarms w ++ [fresh]) w, []).

Definition modify_swarm (s : nat) (f : Swarm -> Swarm) : Js unit :=
  fun w =>
    match swarms w !! s with
    | Some sw => (Return tt, with_swarms (<[s := f sw]> (swarms w)) w, [])
    | None => (Throw (DanglingReference s), w, [])
    end.

Definition swarm_listen (s : nat) (port : Z) : Js unit :=
  tell (SwarmListen s port) >>
  modify_swarm s (fun sw =>
    {| topics := topics sw; listen_port := Some port; tcp_port := tcp_port sw;
       closed := closed sw; on_cb := on_cb sw |}).

Definition swarm_join (s : nat) (key : string) : Js unit :=
  tell (SwarmJoin s key) >>
  modify_swarm s (fun sw =>
    {| topics := topics sw ++ [key]; listen_port := listen_port sw;
       tcp_port := tcp_port sw; closed := closed sw; on_cb := on_cb sw |}).

(** this.Interplanetary.close() *)
Definition Interplanetary_close : Js unit :=
  let* g := get_this in
  match Interplanetary g with
  | None => throw (TypeError "Cannot read property 'close' of undefined")
  | Some s =>
      tell (SwarmClose s) >>
      modify_swarm s (fun sw =>
        {| topics := topics sw; listen_port := listen_port sw;
           tcp_port := tcp_port sw; closed := true; on_cb := on_cb sw |})
  end.

(** GridControl.prototype.startDiscovery *)
Definition startDiscovery (ns : JsStr) (cb : option Callback) : Js unit :=
  modify_this (set_namespace ns) >>
  let* g := get_this in
  let key := new_Buffer (namespace g ++ key_suffix) in
  let* s := new_Interplanetary cb in
  modify_this (set_Interplanetary (Some s)) >>
  swarm_listen s 0 >>
  swarm_join s (toString_hex key).

(** GridControl.prototype.stopDiscovery *)
Definition stopDiscovery : Js unit := Interplanetary_close.

(** Modelled from the spec: SocketPool.close of network/socket-pool.js,
    which releases the connections and empties the pool. *)
Definition SocketPool_close : Js unit :=
  tell PoolClose >> modify_this (set_SocketPool []).

(** GridControl.prototype.close *)
Definition close : Js unit :=
  tell (Debug "[SHUTDOWN][%s] Closing whole server") >>
  tell ApiClose >>
  Interplanetary_close >>
  SocketPool_close >>
  tell TmTerminate >>
  tell FmClear.

(** What a swarm reports. *)
Inductive SwarmEvent :=
| ev_error (e : JsValue)
| ev_listening (port : Z)
| ev_connection (sock : nat).

(** console.error(e.message): reading [e.message] raises a TypeError when
    [e] is undefined or null; what is printed is recorded by the value the
    message is read from. *)
Definition print_message (e : JsValue) : Js unit :=
  match e with
  | JsUndefined =>
      throw (TypeError "Cannot read property 'message' of undefined")
  | JsNull => throw (TypeError "Cannot read property 'message' of null")
  | _ => tell (ConsoleError "%s" [e])
  end.

(** The 'error' handler attached to swarm [s]. *)
Definition on_error (s : nat) (e : JsValue) : Js unit :=
  let* w := get_world in
  tell (ConsoleError "Interplanetary got error" []) >>
  print_message e >>
  match swarms w !! s with
  | None => throw (DanglingReference s)
  | Some sw =>
      match on_cb sw with
      | Some cb => invoke cb [e]
      | None => throw (TypeError "cb is not a function")
      end
  end.

(** The 'listening' handler attached to swarm [s]; it reads the port of
    the swarm [this.Interplanetary] names at that time. *)
Definition on_listening (s : nat) : Js unit :=
  let* w := get_world in
  match Interplanetary (this w) with
  | None => throw (TypeError "Cannot read property '_tcp' of undefined")
  | Some cur =>
      match swarms w !! cur with
      | None => throw (DanglingReference cur)
      | Some C =>
          match tcp_port C with
          | None => throw (TypeError "Cannot read property 'port' of null")
          | Some p =>
              modify_this (set_network_port (Some p)) >>
              match swarms w !! s with
              | None => throw (DanglingReference s)
              | Some sw =>
                  match on_cb sw with
                  | Some cb => invoke cb []
                  | None => Js_ret tt
                  end
              end
          end
      end
  end.

(** The setInterval function of [start]. *)
Definition interval_discovery : Js unit :=
  let* rs := getRouters in
  if (length rs =? 0)%nat then
    tell (Debug "Retrying discovery") >>
    Interplanetary_close >>
    let* g := get_this in
    startDiscovery (namespace g) None
  else Js_ret tt.

(** *** Synchronisation protocol *)

(** GridControl.prototype.getLocalIdentity *)
Definition getLocalIdentity : Js Identity.t :=
  let* g := get_this in
  Js_ret (Identity.mk (public_ip g) (private_ip g) (peer_api_port g)
            (peer_name g) (os_hostname P) (os_platform P) (namespace g)
            (is_file_master (file_manager g)) (USER P) (pkg_version P)
            (proc_uptime P) false).

(** GridControl.prototype.askPeerToSync *)
Definition askPeerToSync (router : nat) : Js unit :=
  emit "peer:synchronize" no_arg >>
  let* _ := router_identity router in
  tell (Debug "Asking %s[%s] to sync") >>
  let* g := get_this in
  router_send router
    (msg_sync
       (SyncData.mk (public_ip g) (private_ip g)
          (task_meta (task_manager g)) (current_md5 (file_manager g)))
       (current_file_buff (file_manager g))).

(** GridControl.prototype.askAllPeersToSync *)
Definition askAllPeersToSync : Js unit :=
  let* rs := getRouters in
  forEach rs (fun router =>
    set_synchronized router false >>
    askPeerToSync router).

(** router.on('clear', ...) *)
Definition on_clear : Js unit := tell FmClear.

(** router.on('trigger', ...) *)
Definition on_trigger (packet : Packet) (cb : nat) : Js unit :=
  if test_mode P then tell (Reply cb [])
  else
    tell (Debug "Received a trigger action: %s") >>
    tell (TmTriggerTask
            {| req_task_id := task_id packet;
               req_task_data := data packet;
               req_task_opts := opts packet |}
            (K_trigger cb)).

(** function(err, res) { return cb(err, res); } *)
Definition trigger_done (cb : nat) (err res : JsValue) : Js unit :=
  tell (Reply cb [err; res]).

(** router.on('sync:done', ...) *)
Definition on_sync_done (router : nat) (synced_md5 : Fingerprint) : Js unit :=
  let* g := get_this in
  if md5_eq synced_md5 (current_md5 (file_manager g)) then
    let* _ := router_identity router in
    tell (Debug
      "Peer [%s] successfully synchronized with up-to-date sync file") >>
    set_synchronized router true
  else Js_ret tt.

(** router.on('sync', ...) *)
Definition on_sync (data : SyncData.t) (file : Buffer) : Js unit :=
  tell (ConsoleLog
    "[%s] Incoming sync req from priv_ip=%s pub_ip=%s for MD5 [%s]") >>
  tell (FmSynchronize data file (K_synchronize data)).

(** function(err, meta) given to file_manager.synchronize *)
Definition synchronize_done (data : SyncData.t) (err : JsValue)
    (meta : FileMeta) : Js unit :=
  if truthy err then
    tell (ConsoleError "Error while synchronizing file" [err])
  else
    let data' :=
      SyncData.set_meta
        (TaskMeta.set_base_folder (dest_folder meta) (SyncData.meta data))
        data in
    modify_this (set_task_manager {| task_meta := SyncData.meta data' |}) >>
    let* g := get_this in
    emit "files:synchronized" (arg_file (file_path (file_manager g))) >>
    if test_mode P then
      SocketPool_broadcast (msg_sync_done (SyncData.curr_md5 data'))
    else
      tell (TmInitTaskGroup (SyncData.meta data') (K_initTaskGroup data')).

(** function() given to task_manager.initTaskGroup *)
Definition initTaskGroup_done (data : SyncData.t) : Js unit :=
  SocketPool_broadcast (msg_sync_done (SyncData.curr_md5 data)).

(** GridControl.prototype.onNewPeer *)
Definition onNewPeer (sock : nat) : Js unit :=
  let* router := SocketPool_add sock in
  emit "new:peer" (arg_sock sock) >>
  let* me := getLocalIdentity in
  router_send router (msg_identity me) >>
  let* g := get_this in
  if is_file_master (file_manager g) && has_file_to_sync (file_manager g)
  then tell (SetTimeout (K_timeout_sync router) 1500)
  else Js_ret tt.

(** Modelled from the spec: the Router of network/socket-pool.js stores
    the identity a peer announces. *)
Definition on_identity (router : nat) (id : Identity.t) : Js unit :=
  let* R := read_router router in
  write_router router {| sock := sock R; identity := Some id |}.

(** The handler a router runs for a message; [cb] answers a request. *)
Definition on_message (router : nat) (m : Message) (cb : nat) : Js unit :=
  match m with
  | msg_identity id => on_identity router id
  | msg_clear => on_clear
  | msg_trigger packet => on_trigger packet cb
  | msg_sync_done synced_md5 => on_sync_done router synced_md5
  | msg_sync data file => on_sync data file
  end.

(** *** Start *)

Definition ready_signals : list string :=
  ["ip:ready"; "discovery:ready"; "api:ready"].

(** GridControl.prototype.start *)
Definition start : Js unit :=
  (fun w => (Return tt, with_waiting (Some (Wait ready_signals)) w, [])) >>
  tell (PublicIpV4 K_public_ip) >>
  tell (ApiStart K_api_started).

(** ip => { ... } *)
Definition public_ip_resolved (ip : string) : Js unit :=
  modify_this (set_public_ip (Some ip)) >>
  emit "ip:ready" no_arg >>
  let* g := get_this in
  startDiscovery (namespace g) (Some cb_discovery_ready).

(** () => { console.log('api ready'); this.emit('api:ready'); } *)
Definition api_started : Js unit :=
  tell (ConsoleLog "api ready") >>
  emit "api:ready" no_arg.

(** *** The event loop *)

Definition set_file_manager (v : FilesManagement) (g : GridControl)
  : GridControl :=
  {| peer_name := peer_name g; namespace := namespace g;
     public_ip := public_ip g; private_ip := private_ip g;
     peer_api_port := peer_api_port g; network_port := network_port g;
     Interplanetary := Interplanetary g; SocketPool := SocketPool g;
     file_manager := v; task_manager := task_manager g |}.

(** What the outside can make happen.  A swarm that reports 'listening'
    has bound its port; the payload collaborator has written its own state
    [fm] by the time it calls back. *)
Inductive Event :=
| E_public_ip (ip : string)
| E_api_started
| E_swarm (s : nat) (e : SwarmEvent)
| E_message (router : nat) (m : Message) (cb : nat)
| E_timeout_sync (router : nat)
| E_interval
| E_synchronized (fm : FilesManagement) (data : SyncData.t)
    (err : JsValue) (meta : FileMeta)
| E_task_group_ready (data : SyncData.t)
| E_task_done (cb : nat) (err res : JsValue).

Definition on_swarm (s : nat) (e : SwarmEvent) : Js unit :=
  match e with
  | ev_error err => on_error s err
  | ev_listening port =>
      modify_swarm s (fun sw =>
        {| topics := topics sw; listen_port := listen_port sw;
           tcp_port := Some port; closed := closed sw;
           on_cb := on_cb sw |}) >>
      on_listening s
  | ev_connection sock => onNewPeer sock
  end.

Definition handle (e : Event) : Js unit :=
  match e with
  | E_public_ip ip => public_ip_resolved ip
  | E_api_started => api_started
  | E_swarm s ev => on_swarm s ev
  | E_message router m cb => on_message router m cb
  | E_timeout_sync router => askPeerToSync router
  | E_interval => interval_discovery
  | E_synchronized fm data err meta =>
      modify_this (set_file_manager fm) >> synchronize_done data err meta
  | E_task_group_ready data => initTaskGroup_done data
  | E_task_done cb err res => trigger_done cb err res
  end.

(** Events handled one after the other, each to completion; an exception
    no handler catches ends the run. *)
Definition run (es : list Event) : Js unit := forEach es handle.

End Engine.

(** ** Sample objects *)

Definition sample_files : FilesManagement :=
  {| is_file_master := true; has_file_to_sync := true;
     current_md5 := "abc123"; current_file_buff := [x61%byte; x62%byte];
     file_path := "/tmp/sync.tar.gz" |}.

Definition sample_tasks : TaskManager :=
  {| task_meta := TaskMeta.mk 2 "{}" "tasks" "{}" None |}.

Definition sample_node : GridControl :=
  {| peer_name := "alpha"; namespace := "pm2:fs"; public_ip := None;
     private_ip := "10.0.0.1"; peer_api_port := 10000;
     network_port := None; Interplanetary := None; SocketPool := [];
     file_manager := sample_files; task_manager := sample_tasks |}.

(** A node right after its constructor ran. *)
Definition fresh_world : World :=
  {| this := sample_node; routers := []; swarms := []; waiting := None |}.

Definition test_process : Process :=
  {| NODE_ENV := Some "test"; USER := Some "grid"; os_hostname := "host-a";
     os_platform := "linux"; pkg_version := "0.1.0"; proc_uptime := 12 |}.

Definition live_process : Process :=
  {| NODE_ENV := None; USER := Some "grid"; os_hostname := "host-a";
     os_platform := "linux"; pkg_version := "0.1.0"; proc_uptime := 12 |}.

Definition peer_identity (n : string) (flag : bool) : Identity.t :=
  Identity.mk (Some "1.2.3.4") "10.0.0.2" 10000 n "host-b" "linux" "pm2:fs"
    false (Some "grid") "0.1.0" 3 flag.

(** ** Reading the objects and the trace *)

(** Reads one hexadecimal digit back. *)
Definition unhex_digit (a : ascii) : option N :=
  let n := N_of_ascii a in
  if ((48 <=? n) && (n <=? 57))%N then Some (n - 48)%N
  else if ((97 <=? n) && (n <=? 102))%N then Some (n - 87)%N
  else None.

(** Reads back the two digits [hex_of_byte] writes. *)
Definition byte_of_hex (s : string) : option byte :=
  match s with
  | String hi (String lo _) =>
      match unhex_digit hi, unhex_digit lo with
      | Some h, Some l => Byte.of_N (h * 16 + l)
      | _, _ => None
      end
  | _ => None
  end.

(** The swarm [startDiscovery] leaves behind. *)
Definition started_swarm (ns : JsStr) (cb : option Callback) : Swarm :=
  {| topics := [discovery_key ns]; listen_port := Some 0%Z;
     tcp_port := None; closed := false; on_cb := cb |}.

Definition started_world (ns : JsStr) (cb : option Callback) (w : World)
  : World :=
  {| this := set_Interplanetary (Some (length (swarms w)))
               (set_namespace ns (this w));
     routers := routers w;
     swarms := swarms w ++ [started_swarm ns cb];
     waiting := waiting w |}.

(** The messages handed to routers, in order. *)
Fixpoint sent (t : list Effect) : list (nat * Message) :=
  match t with
  | [] => []
  | RouterSend r m :: t' => (r, m) :: sent t'
  | _ :: t' => sent t'
  end.

(** The calls made to functions of the caller, in order. *)
Fixpoint calls (t : list Effect) : list (nat * list JsValue) :=
  match t with
  | [] => []
  | Call k args :: t' => (k, args) :: calls t'
  | _ :: t' => calls t'
  end.

(** The topics joined, in order. *)
Fixpoint joined_topics (t : list Effect) : list string :=
  match t with
  | [] => []
  | SwarmJoin _ key :: t' => key :: joined_topics t'
  | _ :: t' => joined_topics t'
  end.

(** How many times 'ready' was emitted. *)
Fixpoint ready_count (t : list Effect) : nat :=
  match t with
  | [] => 0
  | Emit ev _ :: t' => (if ev =? "ready" then 1 else 0) + ready_count t'
  | _ :: t' => ready_count t'
  end.

(** Effects that reach neither a router, a swarm, a collaborator nor a
    caller: events, the interval timer, the configuration file, printing. *)
Definition quiet (e : Effect) : bool :=
  match e with
  | Emit _ _ | SetInterval _ _ | WriteConf _ | Fmt _ => true
  | _ => false
  end.

(** The [sync] message [askPeerToSync] builds on node [g]. *)
Definition sync_offer (g : GridControl) : Message :=
  msg_sync
    (SyncData.mk (public_ip g) (private_ip g) (task_meta (task_manager g))
       (current_md5 (file_manager g)))
    (current_file_buff (file_manager g)).

(** router.identity.synchronized of router [r], when there is one. *)
Definition flag_of (rs : list Router) (r : nat) : option bool :=
  match rs !! r with
  | Some R =>
      match identity R with
      | Some id => Some (Identity.synchronized id)
      | None => None
      end
  | None => None
  end.

(** The peer behind router [r] has announced its identity. *)
Definition identified (rs : list Router) (r : nat) : bool :=
  match flag_of rs r with
  | Some _ => true
  | None => false
  end.

(** A master with two identified peers, the first one marked
    synchronized. *)
Definition master_world : World :=
  {| this := set_SocketPool [0; 1] sample_node;
     routers := [ {| sock := 40; identity := Some (peer_identity "beta" true) |};
                  {| sock := 41; identity := Some (peer_identity "gamma" false) |} ];
     swarms := [];
     waiting := None |}.

Definition sample_packet : Packet :=
  {| task_id := JsString "t1"; data := JsObject "{x:1}";
     opts := JsObject "{}" |}.

Definition sample_offer : SyncData.t :=
  SyncData.mk (Some "1.2.3.4") "10.0.0.1" (TaskMeta.mk 2 "{}" "tasks" "{}" None)
    "abc123".

(** The task groups handed to [initTaskGroup], in order. *)
Fixpoint task_groups (t : list Effect) : list (TaskMeta.t * Kont) :=
  match t with
  | [] => []
  | TmInitTaskGroup m k :: t' => (m, k) :: task_groups t'
  | _ :: t' => task_groups t'
  end.

(** The payloads handed to [file_manager.synchronize], in order. *)
Fixpoint persists (t : list Effect) : list (SyncData.t * Buffer) :=
  match t with
  | [] => []
  | FmSynchronize d f _ :: t' => (d, f) :: persists t'
  | _ :: t' => persists t'
  end.

(** [data] once the sync handler has written [data.meta.base_folder]. *)
Definition unpacked (data : SyncData.t) (meta : FileMeta) : SyncData.t :=
  SyncData.set_meta
    (TaskMeta.set_base_folder (dest_folder meta) (SyncData.meta data)) data.

(** A replica with two identified peers. *)
Definition replica_files : FilesManagement :=
  {| is_file_master := false; has_file_to_sync := false;
     current_md5 := ""; current_file_buff := [];
     file_path := "/tmp/sync.tar.gz" |}.

Definition replica_world : World :=
  {| this := set_file_manager replica_files (set_SocketPool [0; 1] sample_node);
     routers := [ {| sock := 40; identity := Some (peer_identity "alpha" false) |};
                  {| sock := 41; identity := Some (peer_identity "gamma" false) |} ];
     swarms := [];
     waiting := None |}.

(** The payload collaborator's state once it holds content [md5]. *)
Definition holding (md5 : Fingerprint) : FilesManagement :=
  {| is_file_master := false; has_file_to_sync := true;
     current_md5 := md5; current_file_buff := [];
     file_path := "/tmp/sync.tar.gz" |}.

Definition other_offer : SyncData.t :=
  SyncData.mk (Some "5.6.7.8") "10.0.0.9" (TaskMeta.mk 1 "{}" "jobs" "{}" None)
    "fff000".

Definition sample_unpack : FileMeta := {| dest_folder := "/tmp/unpacked" |}.

(** A swarm after [close()]. *)
Definition close_swarm (sw : Swarm) : Swarm :=
  {| topics := topics sw; listen_port := listen_port sw;
     tcp_port := tcp_port sw; closed := true; on_cb := on_cb sw |}.

(** The swarms asked to listen, in order. *)
Fixpoint listens (t : list Effect) : list nat :=
  match t with
  | [] => []
  | SwarmListen s _ :: t' => s :: listens t'
  | _ :: t' => listens t'
  end.

(** The swarms closed, in order. *)
Fixpoint closes (t : list Effect) : list nat :=
  match t with
  | [] => []
  | SwarmClose s :: t' => s :: closes t'
  | _ :: t' => closes t'
  end.

(** A discovery session has been started and has not reported 'listening'
    yet. *)
Definition restart_in_flight (w : World) : bool :=
  match Interplanetary (this w) with
  | Some s =>
      match swarms w !! s with
      | Some sw =>
          negb (closed sw) &&
          match tcp_port sw with Some _ => false | None => true end
      | None => false
      end
  | None => false
  end.

(** A ready node without any peer, its first swarm listening. *)
Definition isolated_world : World :=
  {| this := set_network_port (Some 4000%Z)
               (set_Interplanetary (Some 0) sample_node);
     routers := [];
     swarms := [ {| topics := [discovery_key "pm2:fs"];
                    listen_port := Some 0%Z; tcp_port := Some 4000%Z;
                    closed := false; on_cb := Some cb_discovery_ready |} ];
     waiting := None |}.

(** What one swarm event makes of the callback [k] given to
    [startDiscovery]. *)
Definition session_calls (k : nat) (e : SwarmEvent)
  : list (nat * list JsValue) :=
  match e with
  | ev_error err => [(k, [err])]
  | ev_listening _ => [(k, [])]
  | ev_connection _ => []
  end.

(** The three signals [start] waits for. *)
Inductive Signal := ip_ready | discovery_ready | api_ready.

Definition signal_name (s : Signal) : string :=
  match s with
  | ip_ready => "ip:ready"
  | discovery_ready => "discovery:ready"
  | api_ready => "api:ready"
  end.

Definition Signal_eqb (a b : Signal) : bool :=
  match a, b with
  | ip_ready, ip_ready => true
  | discovery_ready, discovery_ready => true
  | api_ready, api_ready => true
  | _, _ => false
  end.

(** Signal [x] occurs in [sigs]. *)
Definition fired (x : Signal) (sigs : list Signal) : bool :=
  existsb (Signal_eqb x) sigs.

Definition all_fired (sigs : list Signal) : bool :=
  fired ip_ready sigs && fired discovery_ready sigs && fired api_ready sigs.

(** The signals emitted on [this], in the order given. *)
Definition emit_all (P : Process) (sigs : list Signal) : Js unit :=
  forEach sigs (fun s => emit P (signal_name s) no_arg).

(** Signal [x] is among the names barrier [b] has seen. *)
Definition seen (b : Barrier) (x : Signal) : bool :=
  heard (signal_name x) (received b).

(** Every signal has been seen by [b] or occurs in [sigs]. *)
Definition covered (b : Barrier) (sigs : list Signal) : bool :=
  (seen b ip_ready || fired ip_ready sigs) &&
  (seen b discovery_ready || fired discovery_ready sigs) &&
  (seen b api_ready || fired api_ready sigs).

(** The swarm [s] is the current one and its handlers captured the
    caller's function [k]. *)
Definition session_of (s k : nat) (w : World) : Prop :=
  Interplanetary (this w) = Some s /\
  exists sw, swarms w !! s = Some sw /\ on_cb sw = Some (cb_caller k).

(** Two offers persisted one after the other on a replica, the task
    manager finishing the first one last. *)
Definition overlapping_offers : list Event :=
  [E_message 0 (msg_sync sample_offer []) 0;
   E_synchronized (holding "abc123") sample_offer JsNull sample_unpack;
   E_message 0 (msg_sync other_offer []) 0;
   E_synchronized (holding "fff000") other_offer JsNull sample_unpack;
   E_task_group_ready (unpacked sample_offer sample_unpack)].

(** An isolated node after one tick of its timer. *)
Definition after_one_tick : World :=
  world_of (interval_discovery isolated_world).

(** A node whose discovery was started with the caller's function 7. *)
Definition discovering_world : World :=
  world_of (startDiscovery "pm2:fs" (Some (cb_caller 7)) fresh_world).

(** A swarm that fails to bind, then binds. *)
Definition error_then_listening : list Event :=
  [E_swarm 0 (ev_error (JsObject "Error: bind failed"));
   E_swarm 0 (ev_listening 4000)].

(** A node whose discovery is starting, with two identified peers. *)
Definition connected_world : World :=
  with_swarms (swarms isolated_world)
    (with_this (set_Interplanetary (Some 0) (this master_world))
       master_world).

(** A pool whose second router has not announced its identity. *)
Definition half_identified_world : World :=
  with_routers
    [ {| sock := 40; identity := Some (peer_identity "beta" true) |};
      {| sock := 41; identity := None |} ] master_world.

(** The two-node scenario seen from the master: a peer connects, announces
    itself, is offered the payload after the delay, and reports the
    fingerprint [report]. *)
Definition master_scenario (report : Fingerprint) : list Event :=
  [E_swarm 0 (ev_connection 40);
   E_message 0 (msg_identity (peer_identity "beta" false)) 0;
   E_timeout_sync 0;
   E_message 0 (msg_sync_done report) 0].

(** A start in which the address resolves, the swarm binds and the API
    comes up. *)
Definition startup : list Event :=
  [E_public_ip "1.2.3.4"; E_swarm 0 (ev_listening 4000); E_api_started].

(** ** The constructor *)

(** The options object given to the constructor; an absent property is
    [None]. *)
Module Opts.
Record file_manager_t := mk_file_manager {
  dest_file        : option string;
  dest_folder      : option string;
  is_file_master   : option bool;
  has_file_to_sync : option bool;
  tmp_folder       : option string
}.
Record task_manager_t := mk_task_manager {
  task_meta : option TaskMeta.t
}.
Record t := mk {
  peer_name     : option string;
  namespace     : option JsStr;
  peer_api_port : option Z;
  file_manager  : option file_manager_t;
  task_manager  : option task_manager_t
}.
End Opts.

(** The object the constructor hands to [new TaskManager]. *)
Record TaskManagerOpts := {
  port_offset  : Z;
  tm_task_meta : option TaskMeta.t
}.

(** [x + 1] on a number that is an integer.  A number is an IEEE 754
    double: it holds every integer up to 2^53 in magnitude, from there to
    2^54 the even ones only, beyond that multiples of 4 or more; a sum that
    falls between two of them is rounded to the nearest, a tie to the one
    whose significand is even. *)
Definition plus_one (x : Z) : Z :=
  if ((- 2 ^ 53 <=? x + 1) && (x + 1 <=? 2 ^ 53))%Z then (x + 1)%Z
  else if (Z.abs x <? 2 ^ 54)%Z then
    (if Z.even (x / 2) then x else x + 2)%Z
  else x.

(** [a || b] where [a] is a string or undefined: the empty string is
    falsy. *)
Definition or_string (a : option string) (b : string) : string :=
  match a with
  | Some s => if s =? "" then b else s
  | None => b
  end.

(** [a || b] where [a] is the namespace or undefined: the empty string is
    falsy. *)
Definition or_namespace (a : option JsStr) (b : JsStr) : JsStr :=
  match a with
  | Some (u :: s) => u :: s
  | _ => b
  end.

(** [a || b] where [a] is a number or undefined: zero is falsy. *)
Definition or_number (a : option Z) (b : Z) : Z :=
  match a with
  | Some z => if (z =? 0)%Z then b else z
  | None => b
  end.

Section Constructor.

(** process.env.GRID, what Moniker.choose() and InternalIp.v4() return,
    the two constants of constants.js the constructor reads, and the
    constructors of the two collaborators. *)
Variable GRID : option JsStr.
Variable Moniker_choose : string.
Variable InternalIp_v4 : string.
Variables TMP_FILE TMP_FOLDER : string.
Variable new_FilesManagement : Opts.file_manager_t -> FilesManagement.
Variable new_TaskManager : TaskManagerOpts -> TaskManager.

(** var file_manager_opts = ...; if (opts.file_manager) ... *)
Definition file_manager_opts (opts : Opts.t) : Opts.file_manager_t :=
  match Opts.file_manager opts with
  | Some o => o
  | None => Opts.mk_file_manager (Some TMP_FILE) (Some TMP_FOLDER)
              None None None
  end.

(** var task_manager_opts = ...; if (opts.task_manager && ...) ... *)
Definition task_manager_opts (opts : Opts.t) (port : Z) : TaskManagerOpts :=
  {| port_offset := plus_one port;
     tm_task_meta :=
       match Opts.task_manager opts with
       | Some tm => Opts.task_meta tm
       | None => None
       end |}.

(** var GridControl = function(opts) { ... } *)
Definition new_GridControl (opts : Opts.t) : GridControl :=
  let port := or_number (Opts.peer_api_port opts) 10000 in
  {| peer_name := or_string (Opts.peer_name opts) Moniker_choose;
     namespace :=
       or_namespace GRID (or_namespace (Opts.namespace opts) "pm2:fs");
     public_ip := None;
     private_ip := InternalIp_v4;
     peer_api_port := port;
     network_port := None;
     Interplanetary := None;
     SocketPool := [];
     file_manager := new_FilesManagement (file_manager_opts opts);
     task_manager := new_TaskManager (task_manager_opts opts port) |}.

(** The store right after [new GridControl(opts)]. *)
Definition new_world (opts : Opts.t) : World :=
  {| this := new_GridControl opts; routers := []; swarms := [];
     waiting := None |}.

End Constructor.

(** The object [serialize] returns, read as constructor options; [fm] and
    [tm] are what the two collaborators serialized. *)
Definition restore (conf : string * JsStr * Z)
    (fm : option Opts.file_manager_t) (tm : option Opts.task_manager_t)
  : Opts.t :=
  let '(name, ns, port) := conf in
  Opts.mk (Some name) (Some ns) (Some port) fm tm.

(** ** More readings of the trace and the store *)

(** The one-shot timers set, in order. *)
Fixpoint timeouts (t : list Effect) : list (Kont * Z) :=
  match t with
  | [] => []
  | SetTimeout k ms :: t' => (k, ms) :: timeouts t'
  | _ :: t' => timeouts t'
  end.

(** The recurring timers set, in order. *)
Fixpoint intervals (t : list Effect) : list (Kont * Z) :=
  match t with
  | [] => []
  | SetInterval k ms :: t' => (k, ms) :: intervals t'
  | _ :: t' => intervals t'
  end.

(** The configurations written, in order. *)
Fixpoint conf_writes (t : list Effect) : list (string * JsStr * Z) :=
  match t with
  | [] => []
  | WriteConf c :: t' => c :: conf_writes t'
  | _ :: t' => conf_writes t'
  end.

(** The names of the events emitted, in order. *)
Fixpoint events (t : list Effect) : list string :=
  match t with
  | [] => []
  | Emit ev _ :: t' => ev :: events t'
  | _ :: t' => events t'
  end.

(** The payload of the offer [askPeerToSync] builds on node [g]. *)
Definition offer_of (g : GridControl) : SyncData.t :=
  SyncData.mk (public_ip g) (private_ip g) (task_meta (task_manager g))
    (current_md5 (file_manager g)).

(** The identity [getLocalIdentity] builds on node [g]. *)
Definition local_identity (P : Process) (g : GridControl) : Identity.t :=
  Identity.mk (public_ip g) (private_ip g) (peer_api_port g) (peer_name g)
    (os_hostname P) (os_platform P) (namespace g)
    (is_file_master (file_manager g)) (USER P) (pkg_version P)
    (proc_uptime P) false.

(** No swarm but the current one is open. *)
Definition only_current_open (w : World) : Prop :=
  forall i sw, swarms w !! i = Some sw -> closed sw = false ->
               Interplanetary (this w) = Some i.

(** [n] ticks of the timer in a row. *)
Definition ticks (n : nat) : list Event := repeat E_interval n.

(** The store once a connection on [sock] has been registered. *)
Definition registered (sock : nat) (w : World) : World :=
  with_this (set_SocketPool (SocketPool (this w) ++ [length (routers w)])
               (this w))
    (with_routers (routers w ++ [{| sock := sock; identity := None |}]) w).

(** The promise of the barrier is fulfilled. *)
Definition is_ready (w : World) : bool :=
  match waiting w with
  | Some b => resolved b
  | None => false
  end.

(** setInterval(..., 10000) of [start]. *)
Definition timer : Kont * Z := (K_interval_discovery, 10000%Z).

(** What holds of the store from [start] on: the barrier of [start] is
    installed, fulfilled exactly when it has seen the three signals, and
    has seen discovery:ready only if a swarm was created; swarms exist only
    once [this.Interplanetary] is set, and it names one of them. *)
Definition started (w : World) : Prop :=
  (exists b, waiting w = Some b /\ awaited b = ready_signals /\
     resolved b =
       seen b ip_ready && seen b discovery_ready && seen b api_ready /\
     (seen b discovery_ready = true -> Interplanetary (this w) <> None)) /\
  (Interplanetary (this w) = None -> swarms w = []) /\
  (forall s, Interplanetary (this w) = Some s -> s < length (swarms w)).

(** What a handler run from [w] keeps: the store stays [started], a
    fulfilled promise stays fulfilled, 'ready' is emitted exactly when the
    promise becomes fulfilled, and each 'ready' comes with one timer and,
    outside test mode, one write of the configuration. *)
Definition keeps (P : Process) (w : World) {A : Type}
    (r : Outcome A * World * list Effect) : Prop :=
  started (world_of r) /\
  (is_ready w = true -> is_ready (world_of r) = true) /\
  ready_count (trace r) =
    (if is_ready w then 0 else if is_ready (world_of r) then 1 else 0) /\
  intervals (trace r) = repeat timer (ready_count (trace r)) /\
  length (conf_writes (trace r)) =
    (if test_mode P then 0 else ready_count (trace r)).

(** Effects other than 'ready', the interval timer and the configuration
    file. *)
Definition plain (e : Effect) : bool :=
  match e with
  | Emit ev _ => negb (ev =? "ready")
  | SetInterval _ _ | WriteConf _ => false
  | _ => true
  end.

(** The part of the store the barrier and the discovery live in. *)
Definition same_discovery (w w' : World) : Prop :=
  waiting w' = waiting w /\
  Interplanetary (this w') = Interplanetary (this w) /\
  length (swarms w') = length (swarms w).

(** A computation that leaves barrier and discovery alone and emits
    nothing that counts. *)
Definition calm {A : Type} (m : Js A) : Prop :=
  forall w, same_discovery w (world_of (m w)) /\
            forallb plain (trace (m w)) = true.

(** ** Strings and their bytes *)

(** Every number of [s] is a code unit. *)
Definition code_units (s : JsStr) : bool :=
  forallb (fun u => (u <? 0x10000)%N) s.

(** The string is well-formed UTF-16: code units in which every surrogate
    is half of a pair. *)
Fixpoint well_formed (s : JsStr) : bool :=
  match s with
  | [] => true
  | u :: rest =>
      if is_high u then
        match rest with
        | l :: rest' => is_low l && well_formed rest'
        | [] => false
        end
      else negb (is_low u) && (u <? 0x10000)%N && well_formed rest
  end.

(** The string with U+FFFD in place of every surrogate that has no
    partner (String.prototype.toWellFormed). *)
Fixpoint toWellFormed (s : JsStr) : JsStr :=
  match s with
  | [] => []
  | u :: rest =>
      if is_high u then
        match rest with
        | l :: rest' =>
            if is_low l then u :: l :: toWellFormed rest'
            else 0xFFFD%N :: toWellFormed rest
        | [] => [0xFFFD%N]
        end
      else if is_low u then 0xFFFD%N :: toWellFormed rest
      else u :: toWellFormed rest
  end.

(** Reads UTF-8 bytes back into code units. *)
Fixpoint unutf8 (bs : list N) : option JsStr :=
  match bs with
  | [] => Some []
  | b0 :: r0 =>
      if (b0 <? 0x80)%N then option_map (cons b0) (unutf8 r0)
      else if (b0 <? 0xE0)%N then
        match r0 with
        | b1 :: r1 =>
            option_map (cons ((b0 - 0xC0) * 64 + (b1 - 0x80))%N) (unutf8 r1)
        | _ => None
        end
      else if (b0 <? 0xF0)%N then
        match r0 with
        | b1 :: b2 :: r2 =>
            option_map
              (cons ((b0 - 0xE0) * 4096 + (b1 - 0x80) * 64 + (b2 - 0x80))%N)
              (unutf8 r2)
        | _ => None
        end
      else
        match r0 with
        | b1 :: b2 :: b3 :: r3 =>
            let c := ((b0 - 0xF0) * 262144 + (b1 - 0x80) * 4096 +
                      (b2 - 0x80) * 64 + (b3 - 0x80) - 0x10000)%N in
            option_map
              (fun s => (0xD800 + c / 1024)%N :: (0xDC00 + c mod 1024)%N :: s)
              (unutf8 r3)
        | _ => None
        end
  end.

(** The character is one of 0-9 and a-f. *)
Definition lower_hex (a : ascii) : bool :=
  match unhex_digit a with
  | Some _ => true
  | None => false
  end.

(** The string starts with the second half of a surrogate pair. *)
Definition starts_low (s : JsStr) : bool :=
  match s with
  | u :: _ => is_low u
  | [] => false
  end.

(** Two namespaces that are one unpaired surrogate each: '\ud800' and
    '\ud801'. *)
Definition lone_d800 : JsStr := [0xD800%N].
Definition lone_d801 : JsStr := [0xD801%N].

(** Two traces joined a common topic. *)
Definition share_topic (t1 t2 : list Effect) : Prop :=
  exists key, In key (joined_topics t1) /\ In key (joined_topics t2).

(** ** More sample objects *)

(** A pool whose first router has not announced its identity and whose
    second one is marked synchronized. *)
Definition unidentified_first_world : World :=
  with_routers
    [ {| sock := 40; identity := None |};
      {| sock := 41; identity := Some (peer_identity "gamma" true) |} ]
    master_world.

(** A swarm that binds, then reports an error. *)
Definition listening_then_error : list SwarmEvent :=
  [ev_listening 4000; ev_error (JsObject "Error: dht")].

(** ** The discovery session *)

(** An 'error' event that carries an error: a value other than undefined
    and null. *)
Definition carries_error (e : SwarmEvent) : bool :=
  match e with
  | ev_error err => negb (nullish err)
  | _ => true
  end.

(** The event makes its handler call [startDiscovery]: the address has
    resolved, or the timer ticks on an empty pool. *)
Definition restarts (e : Event) (w : World) : bool :=
  match e with
  | E_public_ip _ => true
  | E_interval => (length (SocketPool (this w)) =? 0)%nat
  | _ => false
  end.

(** What a discovery session is made of: the swarm [this.Interplanetary]
    names and the function each swarm's handlers captured. *)
Definition session_view (w : World) : option nat * list (option Callback) :=
  (Interplanetary (this w), map on_cb (swarms w)).

(** A computation that leaves the discovery sessions as they are. *)
Definition steady {A : Type} (m : Js A) : Prop :=
  forall w, session_view (world_of (m w)) = session_view w.

(** * Properties *)

(** ** Rendezvous key *)

Lemma byte_of_hex_of_byte (b : byte) (rest : string) :
  byte_of_hex (hex_of_byte b ++ rest) = Some b.
Proof. destruct b; reflexivity. Qed.

Lemma hex_of_byte_shape (b : byte) :
  exists hi lo, hex_of_byte b = String hi (String lo EmptyString).
Proof. unfold hex_of_byte. eauto. Qed.

Lemma toString_hex_inj (a b : Buffer) :
  toString_hex a = toString_hex b -> a = b.
Proof.
  revert b. induction a as [|x a IH]; intros [|y b] H;
    cbn [toString_hex] in H.
  - reflexivity.
  - destruct (hex_of_byte_shape y) as (h & l & E). rewrite E in H.
    discriminate H.
  - destruct (hex_of_byte_shape x) as (h & l & E). rewrite E in H.
    discriminate H.
  - assert (Hxy : Some x = Some y).
    { rewrite <- (byte_of_hex_of_byte x (toString_hex a)).
      rewrite <- (byte_of_hex_of_byte y (toString_hex b)).
      now rewrite H. }
    injection Hxy as ->.
    destruct (hex_of_byte_shape y) as (h & l & E). rewrite E in H.
    simpl in H. injection H as H. f_equal. now apply IH.
Qed.

Lemma toString_hex_app (a b : Buffer) :
  toString_hex (a ++ b) = (toString_hex a ++ toString_hex b)%string.
Proof.
  induction a as [|x a IH]; cbn [toString_hex app]; [reflexivity|].
  rewrite IH. destruct (hex_of_byte_shape x) as (h & l & E).
  rewrite E. reflexivity.
Qed.

(** *** The bytes of a string *)

(** Linear arithmetic with quotients and remainders by constants. *)
Ltac div_lia := zify; Z.to_euclidean_division_equations; lia.

(** Induction that reaches the tail of the tail, for functions that look
    one code unit ahead. *)
Lemma list_ind2 {A} (Q : list A -> Prop) :
  Q [] -> (forall x, Q [x]) ->
  (forall x y l, Q l -> Q (y :: l) -> Q (x :: y :: l)) ->
  forall l, Q l.
Proof.
  intros H0 H1 H2 l.
  assert (H : Q l /\ forall x, Q (x :: l)); [|apply H].
  induction l as [|y l [IH1 IH2]]; [now split|].
  split; [apply IH2|]. intros x. apply H2; [exact IH1|apply IH2].
Qed.

Lemma surrogate_ranges (u : N) :
  (is_high u = true <-> (0xD800 <= u < 0xDC00)%N) /\
  (is_low u = true <-> (0xDC00 <= u < 0xE000)%N).
Proof.
  unfold is_high, is_low. rewrite !andb_true_iff, !N.leb_le, !N.ltb_lt.
  tauto.
Qed.

Lemma unutf8_point (c : N) (tl : list N) :
  (c < 0x10000)%N ->
  unutf8 (utf8_point c ++ tl) = option_map (cons c) (unutf8 tl).
Proof.
  intros H. unfold utf8_point.
  destruct (N.ltb_spec c 0x80) as [H1|H1].
  - cbn [app unutf8]. apply N.ltb_lt in H1. now rewrite H1.
  - destruct (N.ltb_spec c 0x800) as [H2|H2].
    + cbn [app unutf8].
      replace (0xC0 + c / 64 <? 0x80)%N with false
        by (symmetry; apply N.ltb_ge; div_lia).
      replace (0xC0 + c / 64 <? 0xE0)%N with true
        by (symmetry; apply N.ltb_lt; div_lia).
      replace ((0xC0 + c / 64 - 0xC0) * 64 + (0x80 + c mod 64 - 0x80))%N
        with c by div_lia.
      reflexivity.
    + apply N.ltb_lt in H. rewrite H. cbn [app unutf8].
      replace (0xE0 + c / 4096 <? 0x80)%N with false
        by (symmetry; apply N.ltb_ge; div_lia).
      replace (0xE0 + c / 4096 <? 0xE0)%N with false
        by (symmetry; apply N.ltb_ge; div_lia).
      replace (0xE0 + c / 4096 <? 0xF0)%N with true
        by (symmetry; apply N.ltb_lt; apply N.ltb_lt in H; div_lia).
      replace ((0xE0 + c / 4096 - 0xE0) * 4096 +
               (0x80 + (c / 64) mod 64 - 0x80) * 64 +
               (0x80 + c mod 64 - 0x80))%N with c by div_lia.
      reflexivity.
Qed.

Lemma recompose4 (c : N) :
  (c < 0x200000 ->
   (0xF0 + c / 262144 - 0xF0) * 262144 +
   (0x80 + (c / 4096) mod 64 - 0x80) * 4096 +
   (0x80 + (c / 64) mod 64 - 0x80) * 64 + (0x80 + c mod 64 - 0x80) = c)%N.
Proof. intros. div_lia. Qed.

Lemma halves (a b : N) :
  (b < 1024 -> (a * 1024 + b) / 1024 = a /\ (a * 1024 + b) mod 1024 = b)%N.
Proof. intros. div_lia. Qed.

Lemma unutf8_pair (h l : N) (tl : list N) :
  is_high h = true -> is_low l = true ->
  unutf8 (utf8_point (pair_point h l) ++ tl) =
    option_map (fun s => h :: l :: s) (unutf8 tl).
Proof.
  intros Hh Hl. apply surrogate_ranges in Hh, Hl.
  set (c := pair_point h l).
  assert (Hc : (0x10000 <= c < 0x110000)%N) by (unfold c, pair_point; lia).
  unfold utf8_point.
  replace (c <? 0x80)%N with false by (symmetry; apply N.ltb_ge; lia).
  replace (c <? 0x800)%N with false by (symmetry; apply N.ltb_ge; lia).
  replace (c <? 0x10000)%N with false by (symmetry; apply N.ltb_ge; lia).
  cbn [app unutf8].
  replace (0xF0 + c / 262144 <? 0x80)%N with false
    by (symmetry; apply N.ltb_ge; div_lia).
  replace (0xF0 + c / 262144 <? 0xE0)%N with false
    by (symmetry; apply N.ltb_ge; div_lia).
  replace (0xF0 + c / 262144 <? 0xF0)%N with false
    by (symmetry; apply N.ltb_ge; div_lia).
  rewrite recompose4 by lia.
  replace (c - 0x10000)%N with ((h - 0xD800) * 1024 + (l - 0xDC00))%N
    by (unfold c, pair_point; lia).
  destruct (halves (h - 0xD800) (l - 0xDC00)) as [-> ->]; [lia|].
  replace (0xD800 + (h - 0xD800))%N with h by lia.
  replace (0xDC00 + (l - 0xDC00))%N with l by lia.
  reflexivity.
Qed.


(** The equations of the encoder, of well-formedness and of the repair, one
    per shape of the first code units. *)
Lemma utf8_pair (u v : N) (s : JsStr) :
  is_high u = true -> is_low v = true ->
  utf8 (u :: v :: s) = utf8_point (pair_point u v) ++ utf8 s.
Proof. intros Hu Hv. cbn [utf8]. now rewrite Hu, Hv. Qed.

Lemma utf8_lone_high (u v : N) (s : JsStr) :
  is_high u = true -> is_low v = false ->
  utf8 (u :: v :: s) = replacement ++ utf8 (v :: s).
Proof. intros Hu Hv. cbn [utf8]. now rewrite Hu, Hv. Qed.

Lemma utf8_lone_low (u : N) (s : JsStr) :
  is_high u = false -> is_low u = true ->
  utf8 (u :: s) = replacement ++ utf8 s.
Proof. intros Hu Hl. cbn [utf8]. now rewrite Hu, Hl. Qed.

Lemma utf8_plain (u : N) (s : JsStr) :
  is_high u = false -> is_low u = false ->
  utf8 (u :: s) = utf8_point u ++ utf8 s.
Proof. intros Hu Hl. cbn [utf8]. now rewrite Hu, Hl. Qed.

Lemma well_formed_pair (u v : N) (s : JsStr) :
  is_high u = true ->
  well_formed (u :: v :: s) = is_low v && well_formed s.
Proof. intros Hu. cbn [well_formed]. now rewrite Hu. Qed.

Lemma well_formed_single (u : N) (s : JsStr) :
  is_high u = false ->
  well_formed (u :: s) =
    negb (is_low u) && (u <? 0x10000)%N && well_formed s.
Proof. intros Hu. cbn [well_formed]. now rewrite Hu. Qed.

Lemma toWellFormed_pair (u v : N) (s : JsStr) :
  is_high u = true -> is_low v = true ->
  toWellFormed (u :: v :: s) = u :: v :: toWellFormed s.
Proof. intros Hu Hv. cbn [toWellFormed]. now rewrite Hu, Hv. Qed.

Lemma toWellFormed_lone_high (u v : N) (s : JsStr) :
  is_high u = true -> is_low v = false ->
  toWellFormed (u :: v :: s) = 0xFFFD%N :: toWellFormed (v :: s).
Proof. intros Hu Hv. cbn [toWellFormed]. now rewrite Hu, Hv. Qed.

Lemma toWellFormed_lone_low (u : N) (s : JsStr) :
  is_high u = false -> is_low u = true ->
  toWellFormed (u :: s) = 0xFFFD%N :: toWellFormed s.
Proof. intros Hu Hl. cbn [toWellFormed]. now rewrite Hu, Hl. Qed.

Lemma toWellFormed_plain (u : N) (s : JsStr) :
  is_high u = false -> is_low u = false ->
  toWellFormed (u :: s) = u :: toWellFormed s.
Proof. intros Hu Hl. cbn [toWellFormed]. now rewrite Hu, Hl. Qed.

Lemma code_units_cons (u : N) (s : JsStr) :
  code_units (u :: s) = (u <? 0x10000)%N && code_units s.
Proof. reflexivity. Qed.

Lemma utf8_reads_back (s : JsStr) :
  well_formed s = true -> unutf8 (utf8 s) = Some s.
Proof.
  induction s as [| u | u v s IH1 IH2] using list_ind2.
  - reflexivity.
  - cbn [well_formed utf8]. destruct (is_high u); [discriminate|].
    destruct (is_low u); [discriminate|]. cbn [negb andb].
    rewrite andb_true_r. intros H. apply N.ltb_lt in H.
    rewrite unutf8_point by exact H. reflexivity.
  - destruct (is_high u) eqn:Hu.
    + rewrite well_formed_pair by exact Hu. intros H.
      apply andb_prop in H as [Hv H].
      rewrite utf8_pair, unutf8_pair by assumption. now rewrite IH1.
    + rewrite well_formed_single by exact Hu. intros H.
      apply andb_prop in H as [H Hs]. apply andb_prop in H as [Hl H].
      apply negb_true_iff in Hl. apply N.ltb_lt in H.
      rewrite utf8_plain, unutf8_point by assumption. now rewrite IH2.
Qed.

Lemma utf8_inj (a b : JsStr) :
  well_formed a = true -> well_formed b = true ->
  utf8 a = utf8 b -> a = b.
Proof.
  intros Ha Hb H. apply utf8_reads_back in Ha, Hb.
  rewrite H in Ha. congruence.
Qed.

Lemma utf8_point_bytes (c : N) :
  (c < 0x110000)%N -> Forall (fun n => (n < 256)%N) (utf8_point c).
Proof.
  intros H. unfold utf8_point.
  destruct (N.ltb_spec c 0x80); [repeat constructor; lia|].
  destruct (N.ltb_spec c 0x800); [repeat constructor; div_lia|].
  destruct (N.ltb_spec c 0x10000); repeat constructor; div_lia.
Qed.

Lemma replacement_bytes : Forall (fun n => (n < 256)%N) replacement.
Proof. repeat constructor; lia. Qed.

Lemma utf8_bytes (s : JsStr) :
  code_units s = true -> Forall (fun n => (n < 256)%N) (utf8 s).
Proof.
  induction s as [| u | u v s IH1 IH2] using list_ind2.
  - constructor.
  - cbn [code_units forallb utf8]. rewrite andb_true_r. intros H.
    apply N.ltb_lt in H.
    destruct (is_high u); [apply replacement_bytes|].
    destruct (is_low u); [apply replacement_bytes|].
    rewrite app_nil_r. apply utf8_point_bytes. lia.
  - rewrite code_units_cons. intros H. apply andb_prop in H as [Hu Hvs].
    pose proof Hvs as H. rewrite code_units_cons in H.
    apply andb_prop in H as [Hv Hs]. apply N.ltb_lt in Hu, Hv.
    destruct (is_high u) eqn:Eu.
    + destruct (is_low v) eqn:Ev.
      * rewrite utf8_pair by assumption.
        apply Forall_app. split; [|now apply IH1].
        apply utf8_point_bytes. apply surrogate_ranges in Eu, Ev.
        unfold pair_point. lia.
      * rewrite utf8_lone_high by assumption.
        apply Forall_app. split; [apply replacement_bytes|now apply IH2].
    + destruct (is_low u) eqn:El.
      * rewrite utf8_lone_low by assumption.
        apply Forall_app. split; [apply replacement_bytes|now apply IH2].
      * rewrite utf8_plain by assumption.
        apply Forall_app. split; [apply utf8_point_bytes; lia|now apply IH2].
Qed.

Lemma byte_of_N_to_N (n : N) : (n < 256)%N -> Byte.to_N (byte_of_N n) = n.
Proof.
  intros H. unfold byte_of_N. destruct (Byte.of_N n) as [b|] eqn:E.
  - now apply Byte.to_of_N.
  - apply Byte.of_N_None_iff in E. lia.
Qed.

Lemma map_byte_of_N_inj (a b : list N) :
  Forall (fun n => (n < 256)%N) a -> Forall (fun n => (n < 256)%N) b ->
  map byte_of_N a = map byte_of_N b -> a = b.
Proof.
  intros Ha. revert b. induction Ha as [|x a Hx Ha IH]; intros b Hb H.
  - destruct b; [reflexivity|discriminate].
  - destruct Hb as [|y b Hy Hb]; [discriminate|].
    cbn [map] in H. injection H as Hxy H. f_equal; [|now apply IH].
    rewrite <- (byte_of_N_to_N x Hx), <- (byte_of_N_to_N y Hy).
    now rewrite Hxy.
Qed.

Lemma well_formed_code_units (s : JsStr) :
  well_formed s = true -> code_units s = true.
Proof.
  induction s as [| u | u v s IH1 IH2] using list_ind2.
  - reflexivity.
  - cbn [well_formed code_units forallb]. destruct (is_high u); [discriminate|].
    destruct (is_low u); [discriminate|]. cbn [negb andb].
    intros H. now rewrite andb_true_r in *.
  - destruct (is_high u) eqn:Eu.
    + rewrite well_formed_pair by exact Eu. intros H.
      apply andb_prop in H as [Ev H]. rewrite !code_units_cons.
      apply surrogate_ranges in Eu, Ev.
      replace (u <? 0x10000)%N with true by (symmetry; apply N.ltb_lt; lia).
      replace (v <? 0x10000)%N with true by (symmetry; apply N.ltb_lt; lia).
      now apply IH1.
    + rewrite well_formed_single by exact Eu. intros H.
      apply andb_prop in H as [H Hs]. apply andb_prop in H as [_ H].
      rewrite code_units_cons, H. now apply IH2.
Qed.

Lemma new_Buffer_inj (a b : JsStr) :
  well_formed a = true -> well_formed b = true ->
  new_Buffer a = new_Buffer b -> a = b.
Proof.
  intros Ha Hb H. apply utf8_inj; [assumption..|].
  apply map_byte_of_N_inj;
    [apply utf8_bytes; now apply well_formed_code_units..|exact H].
Qed.

Lemma utf8_app (a b : JsStr) :
  starts_low b = false -> utf8 (a ++ b) = utf8 a ++ utf8 b.
Proof.
  intros Hb. induction a as [| u | u v a IH1 IH2] using list_ind2.
  - reflexivity.
  - cbn [app utf8]. destruct (is_high u).
    + destruct b as [|l b']; [reflexivity|]. cbn [starts_low] in Hb.
      now rewrite Hb.
    + destruct (is_low u); now rewrite ?app_nil_r.
  - change ((u :: v :: a) ++ b) with (u :: v :: (a ++ b)).
    change (utf8 ((v :: a) ++ b)) with (utf8 (v :: a ++ b)) in IH2.
    destruct (is_high u) eqn:Eu.
    + destruct (is_low v) eqn:Ev.
      * rewrite (utf8_pair u v (a ++ b)), (utf8_pair u v a) by assumption.
        now rewrite IH1, app_assoc.
      * rewrite (utf8_lone_high u v (a ++ b)), (utf8_lone_high u v a)
          by assumption.
        now rewrite IH2, app_assoc.
    + destruct (is_low u) eqn:El.
      * rewrite (utf8_lone_low u (v :: a ++ b)), (utf8_lone_low u (v :: a))
          by assumption.
        now rewrite IH2, app_assoc.
      * rewrite (utf8_plain u (v :: a ++ b)), (utf8_plain u (v :: a))
          by assumption.
        now rewrite IH2, app_assoc.
Qed.

Lemma well_formed_app (a b : JsStr) :
  well_formed a = true -> well_formed b = true ->
  well_formed (a ++ b) = true.
Proof.
  intros Ha Hb. induction a as [| u | u v a IH1 IH2] using list_ind2.
  - exact Hb.
  - revert Ha. cbn [app]. destruct (is_high u) eqn:Eu.
    + cbn [well_formed]. now rewrite Eu.
    + rewrite (well_formed_single u []), (well_formed_single u b)
        by exact Eu.
      rewrite andb_true_r. intros ->. exact Hb.
  - revert Ha. change ((u :: v :: a) ++ b) with (u :: v :: (a ++ b)).
    change (well_formed ((v :: a) ++ b)) with (well_formed (v :: a ++ b))
      in IH2.
    destruct (is_high u) eqn:Eu.
    + rewrite (well_formed_pair u v a), (well_formed_pair u v (a ++ b))
        by exact Eu.
      intros H. apply andb_prop in H as [-> H]. now apply IH1.
    + rewrite (well_formed_single u (v :: a)),
        (well_formed_single u (v :: a ++ b)) by exact Eu.
      intros H. apply andb_prop in H as [-> H]. now apply IH2.
Qed.

Lemma utf8_FFFD (s : JsStr) : utf8 (0xFFFD%N :: s) = replacement ++ utf8 s.
Proof. now rewrite utf8_plain. Qed.

Lemma utf8_toWellFormed (s : JsStr) : utf8 (toWellFormed s) = utf8 s.
Proof.
  induction s as [| u | u v s IH1 IH2] using list_ind2.
  - reflexivity.
  - cbn [toWellFormed utf8]. destruct (is_high u) eqn:Eu; [reflexivity|].
    destruct (is_low u) eqn:El; [reflexivity|].
    cbn [utf8]. now rewrite Eu, El.
  - destruct (is_high u) eqn:Eu.
    + destruct (is_low v) eqn:Ev.
      * rewrite (toWellFormed_pair u v s) by assumption.
        rewrite (utf8_pair u v (toWellFormed s)), (utf8_pair u v s)
          by assumption.
        now rewrite IH1.
      * rewrite (toWellFormed_lone_high u v s), (utf8_lone_high u v s), utf8_FFFD
          by assumption.
        now rewrite IH2.
    + destruct (is_low u) eqn:El.
      * rewrite (toWellFormed_lone_low u (v :: s)), (utf8_lone_low u (v :: s)), utf8_FFFD
          by assumption.
        now rewrite IH2.
      * rewrite (toWellFormed_plain u (v :: s)) by assumption.
        rewrite (utf8_plain u (toWellFormed (v :: s))),
          (utf8_plain u (v :: s)) by assumption.
        now rewrite IH2.
Qed.

Lemma well_formed_FFFD (s : JsStr) :
  well_formed (0xFFFD%N :: s) = well_formed s.
Proof. now rewrite well_formed_single. Qed.

Lemma toWellFormed_well_formed (s : JsStr) :
  code_units s = true -> well_formed (toWellFormed s) = true.
Proof.
  induction s as [| u | u v s IH1 IH2] using list_ind2.
  - reflexivity.
  - cbn [code_units forallb toWellFormed]. rewrite andb_true_r. intros H.
    destruct (is_high u) eqn:Eu; [reflexivity|].
    destruct (is_low u) eqn:El; [reflexivity|].
    cbn [well_formed]. now rewrite Eu, El, H.
  - rewrite code_units_cons. intros H. apply andb_prop in H as [Hu Hvs].
    pose proof Hvs as H. rewrite code_units_cons in H.
    apply andb_prop in H as [Hv Hs].
    destruct (is_high u) eqn:Eu.
    + destruct (is_low v) eqn:Ev.
      * rewrite (toWellFormed_pair u v s), (well_formed_pair u v) by assumption.
        rewrite Ev. now apply IH1.
      * rewrite (toWellFormed_lone_high u v s), well_formed_FFFD by assumption.
        now apply IH2.
    + destruct (is_low u) eqn:El.
      * rewrite (toWellFormed_lone_low u (v :: s)), well_formed_FFFD by assumption.
        now apply IH2.
      * rewrite (toWellFormed_plain u (v :: s)), (well_formed_single u) by assumption.
        rewrite El, Hu. now apply IH2.
Qed.

Lemma toWellFormed_id (s : JsStr) :
  well_formed s = true -> toWellFormed s = s.
Proof.
  induction s as [| u | u v s IH1 IH2] using list_ind2.
  - reflexivity.
  - cbn [well_formed toWellFormed]. destruct (is_high u); [discriminate|].
    destruct (is_low u); [discriminate|]. reflexivity.
  - destruct (is_high u) eqn:Eu.
    + rewrite well_formed_pair by exact Eu. intros H.
      apply andb_prop in H as [Ev H].
      rewrite (toWellFormed_pair u v s) by assumption. now rewrite IH1.
    + rewrite well_formed_single by exact Eu. intros H.
      apply andb_prop in H as [H Hs]. apply andb_prop in H as [El _].
      apply negb_true_iff in El.
      rewrite (toWellFormed_plain u (v :: s)) by assumption. now rewrite IH2.
Qed.

(** Two strings have the same bytes exactly when they are the same once
    repaired. *)
Lemma new_Buffer_eq_iff (a b : JsStr) :
  code_units a = true -> code_units b = true ->
  (new_Buffer a = new_Buffer b <-> toWellFormed a = toWellFormed b).
Proof.
  intros Ha Hb. split; intros H.
  - apply new_Buffer_inj; try now apply toWellFormed_well_formed.
    unfold new_Buffer in *. now rewrite !utf8_toWellFormed.
  - unfold new_Buffer. rewrite <- (utf8_toWellFormed a), H.
    now rewrite utf8_toWellFormed.
Qed.

Lemma new_Buffer_app (a b : JsStr) :
  starts_low b = false -> new_Buffer (a ++ b) = new_Buffer a ++ new_Buffer b.
Proof. intros H. unfold new_Buffer. now rewrite utf8_app, map_app. Qed.

Lemma code_units_app (a b : JsStr) :
  code_units (a ++ b) = code_units a && code_units b.
Proof. apply forallb_app. Qed.

Lemma discovery_key_split (ns : JsStr) :
  discovery_key ns =
    (toString_hex (new_Buffer ns) ++ toString_hex (new_Buffer key_suffix))%string.
Proof.
  unfold discovery_key.
  now rewrite new_Buffer_app, toString_hex_app.
Qed.

Lemma discovery_key_inj (a b : JsStr) :
  well_formed a = true -> well_formed b = true ->
  discovery_key a = discovery_key b -> a = b.
Proof.
  unfold discovery_key. intros Ha Hb H.
  apply toString_hex_inj, new_Buffer_inj in H;
    [now apply app_inv_tail in H | now apply well_formed_app..].
Qed.

(** Two namespaces have the same topic exactly when they are the same
    once repaired. *)
Lemma discovery_key_eq_iff (a b : JsStr) :
  code_units a = true -> code_units b = true ->
  (discovery_key a = discovery_key b <-> toWellFormed a = toWellFormed b).
Proof.
  intros Ha Hb. rewrite <- (new_Buffer_eq_iff a b Ha Hb).
  unfold discovery_key. rewrite !new_Buffer_app by reflexivity.
  split; intros H.
  - apply toString_hex_inj in H. now apply app_inv_tail in H.
  - now rewrite H.
Qed.


(** ** Reasoning about handlers *)

Lemma Js_bind_Return {A B} (m : Js A) (f : A -> Js B) w a w1 t1 :
  m w = (Return a, w1, t1) ->
  Js_bind m f w = (outcome (f a w1), world_of (f a w1), t1 ++ trace (f a w1)).
Proof.
  intros H. unfold Js_bind, outcome, world_of, trace. rewrite H.
  destruct (f a w1) as [[o2 w2] t2]. reflexivity.
Qed.

Lemma lookup_snoc {A} (l : list A) (x : A) : (l ++ [x]) !! length l = Some x.
Proof. now apply list_lookup_middle. Qed.

Lemma insert_snoc {A} (l : list A) (x y : A) :
  <[length l := y]> (l ++ [x]) = l ++ [y].
Proof.
  replace (length l) with (length l + 0) by lia.
  now rewrite insert_app_r.
Qed.


Lemma startDiscovery_run (ns : JsStr) (cb : option Callback) (w : World) :
  startDiscovery ns cb w =
    (Return tt, started_world ns cb w,
     [SwarmListen (length (swarms w)) 0;
      SwarmJoin (length (swarms w)) (discovery_key ns)]).
Proof.
  unfold startDiscovery, swarm_listen, swarm_join, modify_swarm, Js_bind.
  simpl. rewrite lookup_snoc. simpl. rewrite insert_snoc, lookup_snoc.
  simpl. rewrite insert_snoc. reflexivity.
Qed.


Lemma sent_app (t u : list Effect) : sent (t ++ u) = sent t ++ sent u.
Proof.
  induction t as [|e t IH]; [reflexivity|].
  destruct e; simpl; now rewrite ?IH.
Qed.

Lemma calls_app (t u : list Effect) : calls (t ++ u) = calls t ++ calls u.
Proof.
  induction t as [|e t IH]; [reflexivity|].
  destruct e; simpl; now rewrite ?IH.
Qed.

Lemma ready_count_app (t u : list Effect) :
  ready_count (t ++ u) = ready_count t + ready_count u.
Proof.
  induction t as [|e t IH]; [reflexivity|].
  destruct e; simpl; rewrite ?IH; lia.
Qed.

Lemma quiet_sent (t : list Effect) : forallb quiet t = true -> sent t = [].
Proof.
  induction t as [|e t IH]; [reflexivity|].
  destruct e; simpl; intros H; try discriminate H; now apply IH.
Qed.

Lemma quiet_calls (t : list Effect) : forallb quiet t = true -> calls t = [].
Proof.
  induction t as [|e t IH]; [reflexivity|].
  destruct e; simpl; intros H; try discriminate H; now apply IH.
Qed.

(** ** Emitting an event *)

Lemma then_ready_run P (w : World) :
  exists b t, then_ready P w = (Return tt, with_waiting b w, t) /\
              forallb quiet t = true.
Proof.
  destruct w as [g rs ss [b|]]; unfold then_ready, emit_then, listeners,
    Js_bind, with_waiting; simpl.
  - destruct (Barrier_signal "ready" b) as [b' [|]]; simpl;
      destruct (test_mode P); simpl; eauto.
  - destruct (test_mode P); simpl; eauto.
Qed.

Arguments then_ready : simpl never.

(** An emit never throws and writes nothing but the barrier. *)
Lemma emit_run P (ev : string) (a : EventArg) (w : World) :
  exists b t, emit P ev a w = (Return tt, with_waiting b w, Emit ev a :: t) /\
              forallb quiet t = true.
Proof.
  destruct w as [g rs ss [b|]]; unfold emit, emit_then, listeners, Js_bind;
    simpl.
  - destruct (Barrier_signal ev b) as [b' [|]]; simpl.
    + destruct (then_ready_run P
        {| this := g; routers := rs; swarms := ss; waiting := Some b' |})
        as (b2 & t & E & Q).
      unfold with_waiting in *. simpl in *. rewrite E.
      exists b2, t. now split.
    + exists (Some b'), []. now split.
  - exists None, []. now split.
Qed.

(** ** Broadcast *)

Lemma forEach_send (m : Message) (rs : list nat) (w : World) :
  forEach rs (fun r => router_send r m) w =
    (Return tt, w, map (fun r => RouterSend r m) rs).
Proof.
  induction rs as [|r rs IH]; [reflexivity|].
  cbn [forEach]. unfold Js_bind. simpl. now rewrite IH.
Qed.

Lemma SocketPool_broadcast_run (m : Message) (w : World) :
  SocketPool_broadcast m w =
    (Return tt, w, map (fun r => RouterSend r m) (SocketPool (this w))).
Proof.
  unfold SocketPool_broadcast, Js_bind, getRouters. simpl.
  now rewrite forEach_send.
Qed.

Lemma sent_sends (m : Message) (rs : list nat) :
  sent (map (fun r => RouterSend r m) rs) = map (fun r => (r, m)) rs.
Proof. induction rs as [|r rs IH]; simpl; now rewrite ?IH. Qed.

(** ** The topic joined *)

Lemma share_topic_single (k1 k2 : string) (t1 t2 : list Effect) :
  joined_topics t1 = [k1] -> joined_topics t2 = [k2] ->
  (share_topic t1 t2 <-> k1 = k2).
Proof.
  intros H1 H2. unfold share_topic. rewrite H1, H2. split.
  - intros (key & [<-|[]] & [<-|[]]). reflexivity.
  - intros <-. exists k1. split; now left.
Qed.

(** C9, as the code has it: the topic joined by [startDiscovery] is the
    hexadecimal text of the UTF-8 bytes of the namespace followed by the
    hexadecimal text of the fixed tag ":square-node:unik"; it depends on
    the namespace only, so two nodes given the same namespace join the same
    topic whatever their state.  Two nodes given different well-formed
    namespaces join different topics and share none; in general two
    namespaces give the same topic exactly when they are the same string
    once every surrogate without partner is replaced by U+FFFD. *)
Theorem rendezvous_key_injective (ns1 ns2 : JsStr)
    (cb1 cb2 : option Callback) (w1 w2 : World) :
  let t1 := trace (startDiscovery ns1 cb1 w1) in
  let t2 := trace (startDiscovery ns2 cb2 w2) in
  joined_topics t1 = [discovery_key ns1] /\
  discovery_key ns1 =
    (toString_hex (new_Buffer ns1) ++ "3a7371756172652d6e6f64653a756e696b")%string /\
  (ns1 = ns2 -> joined_topics t1 = joined_topics t2) /\
  (well_formed ns1 = true -> well_formed ns2 = true ->
     (joined_topics t1 = joined_topics t2 <-> ns1 = ns2) /\
     (share_topic t1 t2 <-> ns1 = ns2)) /\
  (code_units ns1 = true -> code_units ns2 = true ->
     (share_topic t1 t2 <-> toWellFormed ns1 = toWellFormed ns2)).
Proof.
  cbn zeta. rewrite !startDiscovery_run. cbn [trace snd joined_topics].
  split; [reflexivity|]. split; [apply discovery_key_split|].
  split; [now intros ->|]. split.
  - intros H1 H2.
    assert (I : discovery_key ns1 = discovery_key ns2 <-> ns1 = ns2).
    { split; [now apply discovery_key_inj | now intros ->]. }
    split.
    + rewrite <- I. split; [now intros [= ->] | now intros ->].
    + rewrite <- I. now apply share_topic_single.
  - intros H1 H2. rewrite <- (discovery_key_eq_iff ns1 ns2 H1 H2).
    now apply share_topic_single.
Qed.

Lemma rendezvous_key_injective_witness :
  well_formed "grid-a" = true /\ well_formed "grid-b" = true /\
  ~ share_topic (trace (startDiscovery "grid-a" None fresh_world))
                (trace (startDiscovery "grid-b" None fresh_world)).
Proof.
  split; [reflexivity|]. split; [reflexivity|].
  pose proof (rendezvous_key_injective "grid-a" "grid-b" None None
                fresh_world fresh_world) as (_ & _ & _ & W & _).
  destruct (W eq_refl eq_refl) as [_ Sh].
  intros H. apply Sh in H. discriminate H.
Defined.

(** C9 as stated fails: the namespaces '\ud800' and '\ud801', one surrogate
    without partner each, are different strings, and [new Buffer] writes
    the bytes ef bf bd for either, so the two nodes join the same topic. *)
Lemma lone_surrogates_share_topic :
  lone_d800 <> lone_d801 /\
  code_units lone_d800 = true /\ code_units lone_d801 = true /\
  new_Buffer lone_d800 = [xef; xbf; xbd]%byte /\
  joined_topics (trace (startDiscovery lone_d800 None fresh_world)) =
    ["efbfbd3a7371756172652d6e6f64653a756e696b"] /\
  joined_topics (trace (startDiscovery lone_d801 None fresh_world)) =
    ["efbfbd3a7371756172652d6e6f64653a756e696b"] /\
  ~ (lone_d800 <> lone_d801 ->
     discovery_key lone_d800 <> discovery_key lone_d801).
Proof.
  split; [discriminate|]. split; [reflexivity|]. split; [reflexivity|].
  split; [reflexivity|]. split; [reflexivity|]. split; [reflexivity|].
  intros H. assert (N : lone_d800 <> lone_d801) by discriminate.
  apply (H N). vm_compute. reflexivity.
Qed.

(** ** Trigger dispatch *)

Lemma test_mode_spec (P : Process) :
  test_mode P = true <-> NODE_ENV P = Some "test".
Proof.
  unfold test_mode. destruct (NODE_ENV P) as [v|]; [|easy].
  destruct (String.eqb_spec v "test") as [->|N]; split; try easy.
  intros [= E]. contradiction.
Qed.

(** C10: with NODE_ENV equal to 'test' the trigger handler answers at once
    by calling the reply callback with no argument (no error, no result)
    and hands nothing to the task manager; otherwise it hands the request
    to [triggerTask], whose callback passes the (error, result) pair it is
    given to the reply callback unchanged. *)
Theorem trigger_test_mode_short_circuit (P : Process) (packet : Packet)
    (cb : nat) (w : World) :
  (NODE_ENV P = Some "test" ->
     on_trigger P packet cb w = (Return tt, w, [Reply cb []])) /\
  (NODE_ENV P <> Some "test" ->
     on_trigger P packet cb w =
       (Return tt, w,
        [Debug "Received a trigger action: %s";
         TmTriggerTask {| req_task_id := task_id packet;
                          req_task_data := data packet;
                          req_task_opts := opts packet |} (K_trigger cb)]) /\
     forall (err res : JsValue) (w' : World),
       handle P (E_task_done cb err res) w' =
         (Return tt, w', [Reply cb [err; res]])).
Proof.
  split; intros H.
  - apply test_mode_spec in H. unfold on_trigger. now rewrite H.
  - assert (E : test_mode P = false).
    { destruct (test_mode P) eqn:T; [|reflexivity].
      apply test_mode_spec in T. contradiction. }
    unfold on_trigger. rewrite E. split; reflexivity.
Qed.

Lemma trigger_test_mode_short_circuit_witness :
  NODE_ENV test_process = Some "test" /\
  NODE_ENV live_process <> Some "test" /\
  on_trigger test_process sample_packet 5 fresh_world =
    (Return tt, fresh_world, [Reply 5 []]) /\
  handle live_process (E_task_done 5 JsNull (JsObject "{status:ok}"))
    fresh_world =
    (Return tt, fresh_world, [Reply 5 [JsNull; JsObject "{status:ok}"]]).
Proof.
  split; [reflexivity|]. split; [discriminate|]. split.
  - apply (trigger_test_mode_short_circuit test_process sample_packet 5
             fresh_world). reflexivity.
  - apply (trigger_test_mode_short_circuit live_process sample_packet 5
             fresh_world). discriminate.
Defined.

(** ** Replica side of the synchronisation *)

Lemma quiet_task_groups (t : list Effect) :
  forallb quiet t = true -> task_groups t = [].
Proof.
  induction t as [|e t IH]; [reflexivity|].
  destruct e; simpl; intros H; try discriminate H; now apply IH.
Qed.

Lemma task_groups_sends (m : Message) (rs : list nat) :
  task_groups (map (fun r => RouterSend r m) rs) = [].
Proof. induction rs as [|r rs IH]; simpl; now rewrite ?IH. Qed.

Lemma test_mode_false (P : Process) :
  NODE_ENV P <> Some "test" -> test_mode P = false.
Proof.
  intros H. destruct (test_mode P) eqn:T; [|reflexivity].
  apply test_mode_spec in T. contradiction.
Qed.

(** C5: when the persist step calls back with an error, the callback only
    prints it: the engine's state is left as it was, nothing is sent to any
    router (so no sync:done, whatever the fingerprint), nothing is handed
    to the task manager, and no new persist, timer or offer is started; the
    whole attempt has asked the payload collaborator to persist once. *)
Theorem persist_error_abandons_attempt (P : Process) (fm : FilesManagement)
    (data : SyncData.t) (file : Buffer) (err : JsValue) (meta : FileMeta)
    (r cb : nat) (w : World) :
  truthy err = true ->
  synchronize_done P data err meta w =
    (Return tt, w, [ConsoleError "Error while synchronizing file" [err]]) /\
  let res := run P [E_message r (msg_sync data file) cb;
                    E_synchronized fm data err meta] w in
  outcome res = Return tt /\
  world_of res = with_this (set_file_manager fm (this w)) w /\
  sent (trace res) = [] /\
  task_groups (trace res) = [] /\
  persists (trace res) = [(data, file)].
Proof.
  intros H. split.
  - unfold synchronize_done. now rewrite H.
  - unfold run, forEach, handle, on_message, on_sync, Js_bind, modify_this,
      tell, synchronize_done.
    rewrite H. simpl. repeat split; reflexivity.
Qed.

Lemma persist_error_abandons_attempt_witness :
  truthy (JsObject "Error: ENOSPC") = true /\
  synchronize_done live_process sample_offer (JsObject "Error: ENOSPC")
    sample_unpack replica_world =
    (Return tt, replica_world,
     [ConsoleError "Error while synchronizing file"
        [JsObject "Error: ENOSPC"]]).
Proof.
  split; [reflexivity|].
  apply (persist_error_abandons_attempt live_process replica_files
           sample_offer [] (JsObject "Error: ENOSPC") sample_unpack 0 0
           replica_world).
  reflexivity.
Defined.

Lemma synchronize_done_success (P : Process) (data : SyncData.t)
    (err : JsValue) (meta : FileMeta) (w : World) :
  truthy err = false ->
  exists b t,
    forallb quiet t = true /\
    synchronize_done P data err meta w =
      (Return tt,
       with_waiting b
         (with_this
            (set_task_manager
               {| task_meta := SyncData.meta (unpacked data meta) |}
               (this w)) w),
       t ++
       if test_mode P then
         map (fun r => RouterSend r
                (msg_sync_done (SyncData.curr_md5 data)))
             (SocketPool (this w))
       else [TmInitTaskGroup (SyncData.meta (unpacked data meta))
               (K_initTaskGroup (unpacked data meta))]).
Proof.
  intros H. unfold synchronize_done. rewrite H.
  fold (unpacked data meta).
  unfold Js_bind at 1. cbn [modify_this].
  unfold Js_bind at 1. cbn [get_this].
  set (w1 := with_this _ w).
  unfold Js_bind at 1.
  destruct (emit_run P "files:synchronized"
              (arg_file (file_path (file_manager (this w1)))) w1)
    as (b & t & E & Q).
  rewrite E.
  exists b, (Emit "files:synchronized"
               (arg_file (file_path (file_manager (this w1)))) :: t).
  split; [exact Q|].
  destruct (test_mode P).
  - rewrite SocketPool_broadcast_run. reflexivity.
  - reflexivity.
Qed.

(** C6, as the code has it: when the persist step calls back without error,
    the callback writes the unpacked folder into the offer's metadata and
    hands that metadata to the task manager ([setTaskMeta]); every
    sync:done it then sends carries the fingerprint named in the offer
    ([data.curr_md5]) and goes to every router of the pool.  With NODE_ENV
    equal to 'test' the broadcast is made at once and [initTaskGroup] is
    not called; otherwise the metadata is given to [initTaskGroup] and the
    broadcast is made by its callback. *)
Theorem persist_success_broadcasts_offer_fingerprint (P : Process)
    (data : SyncData.t) (err : JsValue) (meta : FileMeta) (w : World) :
  truthy err = false ->
  let res := synchronize_done P data err meta w in
  let done := msg_sync_done (SyncData.curr_md5 data) in
  outcome res = Return tt /\
  TaskMeta.base_folder (task_meta (task_manager (this (world_of res)))) =
    Some (dest_folder meta) /\
  task_meta (task_manager (this (world_of res))) =
    SyncData.meta (unpacked data meta) /\
  SocketPool (this (world_of res)) = SocketPool (this w) /\
  (NODE_ENV P = Some "test" ->
     sent (trace res) = map (fun r => (r, done)) (SocketPool (this w)) /\
     task_groups (trace res) = []) /\
  (NODE_ENV P <> Some "test" ->
     sent (trace res) = [] /\
     task_groups (trace res) =
       [(SyncData.meta (unpacked data meta),
         K_initTaskGroup (unpacked data meta))] /\
     forall w' : World,
       handle P (E_task_group_ready (unpacked data meta)) w' =
         (Return tt, w',
          map (fun r => RouterSend r done) (SocketPool (this w')))).
Proof.
  intros H res done.
  destruct (synchronize_done_success P data err meta w H)
    as (b & t & Q & E).
  subst res. rewrite E. cbn [outcome world_of trace fst snd].
  assert (G : forall u : list Effect, task_groups (t ++ u) = task_groups u).
  { clear E. induction t as [|e t IH]; [reflexivity|]. intros u.
    simpl in Q. apply andb_prop in Q as [Qe Qt].
    destruct e; try discriminate Qe; simpl; now apply IH. }
  split; [reflexivity|]. split; [reflexivity|]. split; [reflexivity|].
  split; [reflexivity|]. split.
  - intros T. apply test_mode_spec in T. rewrite T. split.
    + rewrite sent_app, (quiet_sent t Q), sent_sends. reflexivity.
    + rewrite G. apply task_groups_sends.
  - intros T. rewrite (test_mode_false P T). split; [|split].
    + rewrite sent_app, (quiet_sent t Q). reflexivity.
    + now rewrite G.
    + intros w'. cbn [handle]. unfold initTaskGroup_done.
      now rewrite SocketPool_broadcast_run.
Qed.

Lemma persist_success_broadcasts_offer_fingerprint_witness :
  truthy JsNull = false /\
  NODE_ENV test_process = Some "test" /\
  sent (trace (synchronize_done test_process sample_offer JsNull
                 sample_unpack replica_world)) =
    [(0, msg_sync_done "abc123"); (1, msg_sync_done "abc123")].
Proof.
  split; [reflexivity|]. split; [reflexivity|].
  apply (persist_success_broadcasts_offer_fingerprint test_process
           sample_offer JsNull sample_unpack replica_world); reflexivity.
Defined.

(** C6 as stated fails: a replica that persisted a first offer ("abc123")
    and, while the task manager was still setting that one up, a second one
    ("fff000"), announces "abc123" to both routers when the first set-up
    completes, although the content it holds by then is "fff000". *)
Lemma sync_done_not_current_fingerprint :
  outcome (run live_process overlapping_offers replica_world) = Return tt /\
  sent (trace (run live_process overlapping_offers replica_world)) =
    [(0, msg_sync_done "abc123"); (1, msg_sync_done "abc123")] /\
  current_md5 (file_manager (this (world_of
    (run live_process overlapping_offers replica_world)))) = "fff000" /\
  ~ (forall r fp,
       In (r, msg_sync_done fp)
          (sent (trace (run live_process overlapping_offers replica_world))) ->
       fp = current_md5 (file_manager (this (world_of
              (run live_process overlapping_offers replica_world))))).
Proof.
  vm_compute. repeat split.
  intros H. specialize (H 0 "abc123" (or_introl eq_refl)). discriminate H.
Qed.

(** ** Master side of the synchronisation *)

Lemma flag_of_Some (rs : list Router) (r : nat) (f : bool) :
  flag_of rs r = Some f ->
  exists R id, rs !! r = Some R /\ identity R = Some id /\
               Identity.synchronized id = f.
Proof.
  unfold flag_of. destruct (rs !! r) as [R|]; [|discriminate].
  destruct (identity R) as [id|] eqn:E; [|discriminate].
  intros [= <-]. exists R, id. now repeat split.
Qed.

Lemma identified_Some (rs : list Router) (r : nat) :
  identified rs r = true -> exists f, flag_of rs r = Some f.
Proof.
  unfold identified. destruct (flag_of rs r) as [f|]; [eauto|discriminate].
Qed.

Lemma flag_of_insert (rs : list Router) (r r' : nat) (R R' : Router) :
  rs !! r = Some R ->
  flag_of (<[r := R']> rs) r' =
    if Nat.eqb r r' then
      match identity R' with
      | Some id => Some (Identity.synchronized id)
      | None => None
      end
    else flag_of rs r'.
Proof.
  intros H. unfold flag_of. destruct (Nat.eqb_spec r r') as [<-|N].
  - rewrite list_lookup_insert_eq; [reflexivity|].
    now apply lookup_lt_Some in H.
  - now rewrite list_lookup_insert_ne.
Qed.

Lemma set_synchronized_run (r : nat) (b : bool) (w : World) (R : Router)
    (id : Identity.t) :
  routers w !! r = Some R -> identity R = Some id ->
  set_synchronized r b w =
    (Return tt,
     with_routers
       (<[r := {| sock := sock R;
                  identity := Some (Identity.set_synchronized b id) |}]>
          (routers w)) w,
     []).
Proof.
  intros HR Hid.
  unfold set_synchronized, router_identity, read_router, write_router,
    Js_bind.
  rewrite HR. simpl. rewrite HR, Hid. reflexivity.
Qed.

Lemma router_identity_run (r : nat) (w : World) (R : Router)
    (id : Identity.t) :
  routers w !! r = Some R -> identity R = Some id ->
  router_identity r w = (Return id, w, []).
Proof.
  intros HR Hid. unfold router_identity, read_router, Js_bind.
  rewrite HR, Hid. reflexivity.
Qed.

Lemma on_sync_done_match (r : nat) (md5 : Fingerprint) (w : World)
    (R : Router) (id : Identity.t) :
  routers w !! r = Some R -> identity R = Some id ->
  md5 = current_md5 (file_manager (this w)) ->
  on_sync_done r md5 w =
    (Return tt,
     with_routers
       (<[r := {| sock := sock R;
                  identity := Some (Identity.set_synchronized true id) |}]>
          (routers w)) w,
     [Debug "Peer [%s] successfully synchronized with up-to-date sync file"]).
Proof.
  intros HR Hid ->.
  unfold on_sync_done, set_synchronized, router_identity, read_router,
    write_router, Js_bind, md5_eq.
  simpl. rewrite String.eqb_refl.
  repeat (progress (simpl; rewrite ?HR, ?Hid)).
  reflexivity.
Qed.

Lemma on_sync_done_mismatch (r : nat) (md5 : Fingerprint) (w : World) :
  md5 <> current_md5 (file_manager (this w)) ->
  on_sync_done r md5 w = (Return tt, w, []).
Proof.
  intros N. unfold on_sync_done, Js_bind, md5_eq. simpl.
  destruct (String.eqb_spec md5 (current_md5 (file_manager (this w))));
    [contradiction|reflexivity].
Qed.



(** A report whose fingerprint does not match leaves a flag that is already
    true as it is. *)
Example stale_report_keeps_true_flag :
  on_sync_done 0 "000000" master_world = (Return tt, master_world, []) /\
  flag_of (routers master_world) 0 = Some true.
Proof. split; reflexivity. Qed.

(** A matching report for a router that has not announced its identity
    raises a TypeError: the handler reads [router.identity.name]. *)
Example matching_report_before_identity :
  outcome (on_sync_done 0 "abc123"
             (with_routers [{| sock := 40; identity := None |}] master_world))
  = Throw (TypeError "router.identity is undefined").
Proof. reflexivity. Qed.

Lemma askPeerToSync_run (P : Process) (r : nat) (w : World) (R : Router)
    (id : Identity.t) :
  routers w !! r = Some R -> identity R = Some id ->
  exists b t,
    askPeerToSync P r w = (Return tt, with_waiting b w, t) /\
    sent t = [(r, sync_offer (this w))].
Proof.
  intros HR Hid. unfold askPeerToSync.
  destruct (emit_run P "peer:synchronize" no_arg w) as (b & t & E & Q).
  unfold Js_bind at 1. rewrite E.
  unfold Js_bind at 1.
  rewrite (router_identity_run r (with_waiting b w) R id HR Hid).
  unfold Js_bind, tell, get_this, router_send. simpl.
  exists b. eexists. split; [reflexivity|].
  cbn [sent]. rewrite sent_app, (quiet_sent t Q). reflexivity.
Qed.

(** One turn of the loop of [askAllPeersToSync]. *)
Lemma sync_turn_run (P : Process) (r : nat) (w : World) :
  identified (routers w) r = true ->
  exists R id b t,
    routers w !! r = Some R /\ identity R = Some id /\
    Js_bind (set_synchronized r false) (fun _ => askPeerToSync P r) w =
      (Return tt,
       with_waiting b
         (with_routers
            (<[r := {| sock := sock R;
                       identity :=
                         Some (Identity.set_synchronized false id) |}]>
               (routers w)) w),
       t) /\
    sent t = [(r, sync_offer (this w))].
Proof.
  intros H. apply identified_Some in H as [f F].
  destruct (flag_of_Some _ _ _ F) as (R & id & HR & Hid & _).
  exists R, id.
  unfold Js_bind at 1. rewrite (set_synchronized_run r false w R id HR Hid).
  set (R' := {| sock := sock R;
                identity := Some (Identity.set_synchronized false id) |}).
  set (w1 := with_routers _ w).
  assert (HR' : routers w1 !! r = Some R').
  { subst w1. cbn [routers with_routers].
    apply list_lookup_insert_eq. now apply lookup_lt_Some in HR. }
  destruct (askPeerToSync_run P r w1 R' _ HR' eq_refl) as (b & t & E & S).
  rewrite E. exists b, t. repeat split; assumption.
Qed.

Lemma askAllPeersToSync_loop (P : Process) (pool : list nat) :
  forall w : World,
    forallb (identified (routers w)) pool = true ->
    let res := forEach pool (fun router =>
                 Js_bind (set_synchronized router false)
                         (fun _ => askPeerToSync P router)) w in
    outcome res = Return tt /\
    this (world_of res) = this w /\
    (forall r, In r pool -> flag_of (routers (world_of res)) r = Some false) /\
    (forall r, flag_of (routers w) r = Some false ->
               flag_of (routers (world_of res)) r = Some false) /\
    (forall r, identified (routers w) r = true ->
               identified (routers (world_of res)) r = true) /\
    sent (trace res) = map (fun r => (r, sync_offer (this w))) pool.
Proof.
  induction pool as [|r pool IH]; intros w H.
  - cbn. repeat split; try reflexivity; try tauto.
  - cbn [forallb] in H. apply andb_prop in H as [Hr Hpool].
    destruct (sync_turn_run P r w Hr)
      as (R & id & b & t & HR & Hid & E & S).
    cbn zeta. cbn [forEach].
    rewrite (Js_bind_Return _ _ w tt _ t E).
    set (R' := {| sock := sock R;
                  identity := Some (Identity.set_synchronized false id) |})
      in *.
    set (w1 := with_waiting b _) in *.
    assert (Fl : forall r', flag_of (routers w1) r' =
                   if Nat.eqb r r' then Some false else flag_of (routers w) r').
    { intros r'. subst w1. cbn [routers with_waiting with_routers].
      now rewrite (flag_of_insert _ r r' R R' HR). }
    assert (Id : forall r', identified (routers w) r' = true ->
                            identified (routers w1) r' = true).
    { intros r' Hi. unfold identified. rewrite Fl.
      destruct (Nat.eqb r r'); [reflexivity|exact Hi]. }
    assert (Hpool1 : forallb (identified (routers w1)) pool = true).
    { apply forallb_forall. intros x Hx. apply Id.
      now apply (proj1 (forallb_forall _ _) Hpool). }
    destruct (IH w1 Hpool1) as (O & T & F1 & F2 & F3 & S1).
    set (rest := forEach pool _ w1) in *.
    cbn [outcome world_of trace fst snd].
    split; [exact O|]. split; [now rewrite T|]. split; [|split; [|split]].
    + intros r' [<-|Hin]; [|now apply F1].
      apply F2. rewrite Fl. now rewrite Nat.eqb_refl.
    + intros r' Hf. apply F2. rewrite Fl.
      destruct (Nat.eqb r r'); [reflexivity|exact Hf].
    + intros r' Hi. apply F3. now apply Id.
    + rewrite sent_app, S, S1. reflexivity.
Qed.

(** C7, as the code has it: on a pool whose routers have all announced
    their identity, a call to [askAllPeersToSync] returns with the flag of
    every router of the pool false, whatever it was before, and has sent
    to each of them, in pool order, the [sync] offer [askPeerToSync]
    builds. *)
Theorem askAllPeersToSync_resets_and_offers (P : Process) (w : World) :
  forallb (identified (routers w)) (SocketPool (this w)) = true ->
  let res := askAllPeersToSync P w in
  outcome res = Return tt /\
  SocketPool (this (world_of res)) = SocketPool (this w) /\
  (forall r, In r (SocketPool (this w)) ->
             flag_of (routers (world_of res)) r = Some false) /\
  sent (trace res) =
    map (fun r => (r, sync_offer (this w))) (SocketPool (this w)).
Proof.
  intros H.
  destruct (askAllPeersToSync_loop P (SocketPool (this w)) w H)
    as (O & T & F1 & _ & _ & S).
  unfold askAllPeersToSync.
  rewrite (Js_bind_Return getRouters _ w (SocketPool (this w)) w [] eq_refl).
  set (rest := forEach _ _ w) in *.
  cbn [outcome world_of trace fst snd app].
  split; [exact O|]. split; [now rewrite T|]. split; assumption.
Qed.

Lemma askAllPeersToSync_resets_and_offers_witness :
  forallb (identified (routers master_world))
          (SocketPool (this master_world)) = true /\
  flag_of (routers master_world) 0 = Some true /\
  flag_of (routers (world_of (askAllPeersToSync live_process master_world)))
          0 = Some false /\
  sent (trace (askAllPeersToSync live_process master_world)) =
    [(0, sync_offer (this master_world)); (1, sync_offer (this master_world))].
Proof.
  split; [reflexivity|]. split; [reflexivity|].
  pose proof (askAllPeersToSync_resets_and_offers live_process master_world
                eq_refl) as (_ & _ & F & S).
  split; [apply F; simpl; tauto | exact S].
Defined.

(** C7 as stated fails: the flag is a property of [router.identity], which
    a router has only once its peer has announced itself.  On a pool whose
    first router has not, the loop raises a TypeError at that router: the
    second router, marked synchronized, keeps its flag at true, and no
    offer is sent to anyone. *)
Lemma askAllPeersToSync_unidentified_first :
  SocketPool (this unidentified_first_world) = [0; 1] /\
  flag_of (routers unidentified_first_world) 1 = Some true /\
  outcome (askAllPeersToSync live_process unidentified_first_world) =
    Throw (TypeError "router.identity is undefined") /\
  flag_of (routers (world_of
    (askAllPeersToSync live_process unidentified_first_world))) 1 =
    Some true /\
  sent (trace (askAllPeersToSync live_process unidentified_first_world)) =
    [] /\
  ~ (forall r, In r (SocketPool (this unidentified_first_world)) ->
       flag_of (routers (world_of
         (askAllPeersToSync live_process unidentified_first_world))) r =
         Some false).
Proof.
  split; [reflexivity|]. split; [reflexivity|]. split; [reflexivity|].
  split; [reflexivity|]. split; [reflexivity|].
  intros H. specialize (H 1 (or_intror (or_introl eq_refl))).
  discriminate H.
Qed.

(** With an unidentified router further down the pool the loop stops there
    with a TypeError: the routers before it are reset and offered, the
    others are not. *)
Example askAllPeersToSync_before_identity :
  outcome (askAllPeersToSync live_process half_identified_world) =
    Throw (TypeError "router.identity is undefined") /\
  sent (trace (askAllPeersToSync live_process half_identified_world)) =
    [(0, sync_offer (this half_identified_world))].
Proof. split; reflexivity. Qed.

(** ** Discovery *)

Lemma Interplanetary_close_run (w : World) (s : nat) (sw : Swarm) :
  Interplanetary (this w) = Some s -> swarms w !! s = Some sw ->
  Interplanetary_close w =
    (Return tt, with_swarms (<[s := close_swarm sw]> (swarms w)) w,
     [SwarmClose s]).
Proof.
  intros HI HS. unfold Interplanetary_close, modify_swarm, Js_bind.
  simpl. rewrite HI. simpl. rewrite HS. reflexivity.
Qed.

(** C8, as the code has it: once [startDiscovery] has created a swarm,
    [stopDiscovery] closes that swarm and returns, whether or not the swarm
    ever reported 'listening'; it is the [close] call that is made, also
    before the listener is bound. *)
Theorem stopDiscovery_closes_current_swarm (w : World) (s : nat)
    (sw : Swarm) :
  Interplanetary (this w) = Some s -> swarms w !! s = Some sw ->
  stopDiscovery w =
    (Return tt, with_swarms (<[s := close_swarm sw]> (swarms w)) w,
     [SwarmClose s]) /\
  (exists sw', swarms (world_of (stopDiscovery w)) !! s = Some sw' /\
               closed sw' = true).
Proof.
  intros HI HS. unfold stopDiscovery.
  rewrite (Interplanetary_close_run w s sw HI HS). split; [reflexivity|].
  exists (close_swarm sw). split; [|reflexivity].
  cbn [world_of fst snd swarms with_swarms].
  apply list_lookup_insert_eq. now apply lookup_lt_Some in HS.
Qed.

Lemma stopDiscovery_closes_current_swarm_witness :
  Interplanetary (this (started_world "pm2:fs" None fresh_world)) = Some 0 /\
  swarms (started_world "pm2:fs" None fresh_world) !! 0 =
    Some (started_swarm "pm2:fs" None) /\
  tcp_port (started_swarm "pm2:fs" None) = None /\
  stopDiscovery (started_world "pm2:fs" None fresh_world) =
    (Return tt,
     with_swarms [close_swarm (started_swarm "pm2:fs" None)]
       (started_world "pm2:fs" None fresh_world),
     [SwarmClose 0]).
Proof.
  split; [reflexivity|]. split; [reflexivity|]. split; [reflexivity|].
  apply (stopDiscovery_closes_current_swarm
           (started_world "pm2:fs" None fresh_world) 0
           (started_swarm "pm2:fs" None)); reflexivity.
Defined.

(** C8 as stated fails: on a node whose discovery was never started there
    is no swarm, and [stopDiscovery] raises a TypeError instead of doing
    nothing; on a node whose discovery has not finished starting it is not
    a no-op either, since the pending swarm is closed. *)
Lemma stopDiscovery_before_start_throws :
  Interplanetary (this fresh_world) = None /\
  stopDiscovery fresh_world =
    (Throw (TypeError "Cannot read property 'close' of undefined"),
     fresh_world, []) /\
  outcome (stopDiscovery fresh_world) <> Return tt /\
  restart_in_flight (started_world "pm2:fs" None fresh_world) = true /\
  trace (stopDiscovery (started_world "pm2:fs" None fresh_world)) =
    [SwarmClose 0] /\
  world_of (stopDiscovery (started_world "pm2:fs" None fresh_world)) <>
    started_world "pm2:fs" None fresh_world.
Proof.
  split; [reflexivity|]. split; [reflexivity|]. split; [discriminate|].
  split; [reflexivity|]. split; [reflexivity|]. vm_compute. discriminate.
Qed.

(** ** Self-healing timer *)

Lemma interval_discovery_isolated (w : World) (s : nat) (sw : Swarm) :
  Interplanetary (this w) = Some s -> swarms w !! s = Some sw ->
  SocketPool (this w) = [] ->
  interval_discovery w =
    (Return tt,
     started_world (namespace (this w)) None
       (with_swarms (<[s := close_swarm sw]> (swarms w)) w),
     [Debug "Retrying discovery"; SwarmClose s;
      SwarmListen (length (swarms w)) 0;
      SwarmJoin (length (swarms w)) (discovery_key (namespace (this w)))]).
Proof.
  intros HI HS HP. unfold interval_discovery.
  rewrite (Js_bind_Return getRouters _ w [] w []);
    [|unfold getRouters; now rewrite HP].
  cbn [length Nat.eqb].
  rewrite (Js_bind_Return (tell (Debug "Retrying discovery")) _ w tt w
             [Debug "Retrying discovery"] eq_refl).
  rewrite (Js_bind_Return Interplanetary_close _ w tt _ _
             (Interplanetary_close_run w s sw HI HS)).
  set (w1 := with_swarms _ w).
  rewrite (Js_bind_Return get_this _ w1 (this w1) w1 [] eq_refl).
  rewrite startDiscovery_run.
  cbn [outcome world_of trace fst snd app].
  subst w1. cbn [swarms with_swarms this]. rewrite length_insert.
  reflexivity.
Qed.

Lemma interval_discovery_connected (w : World) :
  SocketPool (this w) <> [] -> interval_discovery w = (Return tt, w, []).
Proof.
  intros HP. unfold interval_discovery, Js_bind, getRouters.
  destruct (SocketPool (this w)); [contradiction|reflexivity].
Qed.

(** C3, as the code has it: on a node that has a discovery swarm, a tick of
    the timer that finds no router closes the current swarm and calls
    [startDiscovery] once with the namespace the node already has (one
    close, one listen, one join of that namespace's topic), leaving the new
    swarm waiting for its 'listening' event; this is so whatever the state
    of the swarm it closes, also one that has not reported 'listening'
    yet.  A tick that finds a router does nothing. *)
Theorem interval_restarts_discovery_once (w : World) (s : nat)
    (sw : Swarm) :
  Interplanetary (this w) = Some s -> swarms w !! s = Some sw ->
  let res := interval_discovery w in
  let ns := namespace (this w) in
  (SocketPool (this w) = [] ->
     outcome res = Return tt /\
     closes (trace res) = [s] /\
     listens (trace res) = [length (swarms w)] /\
     joined_topics (trace res) = [discovery_key ns] /\
     namespace (this (world_of res)) = ns /\
     Interplanetary (this (world_of res)) = Some (length (swarms w)) /\
     restart_in_flight (world_of res) = true) /\
  (SocketPool (this w) <> [] -> res = (Return tt, w, [])).
Proof.
  intros HI HS res ns. subst res ns. split.
  - intros HP. rewrite (interval_discovery_isolated w s sw HI HS HP).
    cbn [outcome world_of trace fst snd closes listens joined_topics].
    repeat split.
    + unfold started_world.
      cbn [this Interplanetary set_Interplanetary swarms with_swarms].
      f_equal. apply length_insert.
    + unfold restart_in_flight, started_world.
      cbn [this Interplanetary set_Interplanetary swarms with_swarms].
      rewrite lookup_snoc. reflexivity.
  - apply interval_discovery_connected.
Qed.

Lemma interval_restarts_discovery_once_witness :
  Interplanetary (this isolated_world) = Some 0 /\
  SocketPool (this isolated_world) = [] /\
  closes (trace (interval_discovery isolated_world)) = [0] /\
  listens (trace (interval_discovery isolated_world)) = [1] /\
  SocketPool (this connected_world) <> [] /\
  interval_discovery connected_world = (Return tt, connected_world, []).
Proof.
  split; [reflexivity|]. split; [reflexivity|].
  pose proof (interval_restarts_discovery_once isolated_world 0 _
                eq_refl eq_refl) as [Hz _].
  destruct (Hz eq_refl) as (_ & C & L & _).
  split; [exact C|]. split; [exact L|]. split; [discriminate|].
  apply (interval_restarts_discovery_once connected_world 0 _
           eq_refl eq_refl).
  discriminate.
Defined.

(** C3 as stated fails: there is no guard against a restart that is still
    in flight.  After a first tick on an isolated node the new swarm has
    not reported 'listening'; a second tick closes it and starts yet
    another one. *)
Lemma restart_overlaps_restart_in_flight :
  restart_in_flight after_one_tick = true /\
  SocketPool (this after_one_tick) = [] /\
  closes (trace (interval_discovery after_one_tick)) = [1] /\
  listens (trace (interval_discovery after_one_tick)) = [2] /\
  ~ (restart_in_flight after_one_tick = true ->
     listens (trace (interval_discovery after_one_tick)) = []).
Proof.
  vm_compute. repeat split. intros H. specialize (H eq_refl). discriminate H.
Qed.

(** ** The callback of startDiscovery *)

Lemma onNewPeer_run (P : Process) (sock : nat) (w : World) :
  exists w' t,
    onNewPeer P sock w = (Return tt, w', t) /\
    swarms w' = swarms w /\
    Interplanetary (this w') = Interplanetary (this w) /\
    calls t = [].
Proof.
  unfold onNewPeer.
  rewrite (Js_bind_Return (SocketPool_add sock) _ w _ _ [] eq_refl).
  set (w1 := with_this _ _).
  destruct (emit_run P "new:peer" (arg_sock sock) w1) as (b & t & E & Q).
  rewrite (Js_bind_Return _ _ w1 tt _ _ E).
  set (w2 := with_waiting b w1).
  unfold getLocalIdentity, router_send, Js_bind, get_this, tell, Js_ret.
  cbn [outcome world_of trace fst snd].
  destruct (is_file_master (file_manager (this w2)) &&
            has_file_to_sync (file_manager (this w2)));
    cbn [outcome world_of trace fst snd app];
    eexists; eexists; (split; [reflexivity|]);
    (split; [reflexivity|]); (split; [reflexivity|]);
    cbn [calls]; rewrite calls_app, (quiet_calls t Q); reflexivity.
Qed.

Lemma print_message_run (e : JsValue) (w : World) :
  nullish e = false ->
  print_message e w = (Return tt, w, [ConsoleError "%s" [e]]).
Proof. destruct e; try discriminate; reflexivity. Qed.

Lemma print_message_throws (e : JsValue) (w : World) :
  nullish e = true ->
  exists what, print_message e w = (Throw (TypeError what), w, []).
Proof. destruct e; try discriminate; intros _; eexists; reflexivity. Qed.

Lemma on_swarm_run (P : Process) (s k : nat) (e : SwarmEvent) (w : World) :
  session_of s k w -> carries_error e = true ->
  exists w' t,
    on_swarm P s e w = (Return tt, w', t) /\
    session_of s k w' /\
    calls t = session_calls k e.
Proof.
  intros (HI & sw & HS & Hcb) He. destruct e as [err|port|sock].
  - cbn [carries_error] in He. apply negb_true_iff in He.
    exists w. eexists. split; [|split].
    + unfold on_swarm, on_error.
      rewrite (Js_bind_Return get_world _ w w w [] eq_refl).
      rewrite (Js_bind_Return (tell _) _ w tt w _ eq_refl).
      rewrite (Js_bind_Return _ _ w tt w _ (print_message_run err w He)).
      rewrite HS, Hcb. reflexivity.
    + split; [exact HI|]. exists sw. now split.
    + reflexivity.
  - set (sw' := {| topics := topics sw; listen_port := listen_port sw;
                   tcp_port := Some port; closed := closed sw;
                   on_cb := on_cb sw |}).
    assert (HS' : <[s := sw']> (swarms w) !! s = Some sw').
    { apply list_lookup_insert_eq. now apply lookup_lt_Some in HS. }
    eexists. eexists. split; [|split].
    + unfold on_swarm, on_listening, modify_swarm, modify_this, Js_bind,
        get_world.
      rewrite HS. simpl. rewrite HI. fold sw'. rewrite HS'. simpl.
      rewrite Hcb. reflexivity.
    + split; [exact HI|]. exists sw'. split; [exact HS'|exact Hcb].
    + reflexivity.
  - destruct (onNewPeer_run P sock w) as (w' & t & E & ES & EI & C).
    exists w', t. split; [exact E|]. split; [|exact C].
    split; [now rewrite EI|]. exists sw. rewrite ES. now split.
Qed.

Lemma session_run (P : Process) (s k : nat) (evs : list SwarmEvent) :
  forall w : World,
    session_of s k w -> forallb carries_error evs = true ->
    outcome (run P (map (E_swarm s) evs) w) = Return tt /\
    calls (trace (run P (map (E_swarm s) evs) w)) =
      flat_map (session_calls k) evs.
Proof.
  induction evs as [|e evs IH]; intros w H He; [now split|].
  cbn [forallb] in He. apply andb_prop in He as [He Hevs].
  destruct (on_swarm_run P s k e w H He) as (w' & t & E & H' & C).
  unfold run. cbn [map forEach].
  change (handle P (E_swarm s e)) with (on_swarm P s e).
  rewrite (Js_bind_Return _ _ w tt w' t E).
  destruct (IH w' H' Hevs) as [O C'].
  cbn [outcome world_of trace fst snd flat_map].
  split; [exact O|]. rewrite calls_app, C. f_equal. exact C'.
Qed.

(** *** What leaves the sessions alone *)

Lemma map_on_cb_insert (l : list Swarm) (s : nat) (sw sw' : Swarm) :
  l !! s = Some sw -> on_cb sw' = on_cb sw ->
  map on_cb (<[s := sw']> l) = map on_cb l.
Proof.
  revert s. induction l as [|x l IH]; intros [|s] H E; try discriminate H.
  - cbn in *. injection H as ->. now rewrite E.
  - cbn in *. f_equal. now apply IH.
Qed.

Lemma map_on_cb_lookup (l : list Swarm) (s : nat) (cb : option Callback) :
  map on_cb l !! s = Some cb <->
  exists sw, l !! s = Some sw /\ on_cb sw = cb.
Proof.
  revert s. induction l as [|x l IH]; intros [|s]; cbn.
  - split; [discriminate|]. now intros (sw & H & _).
  - split; [discriminate|]. now intros (sw & H & _).
  - split.
    + intros [= <-]. now exists x.
    + intros (sw & [= <-] & <-). reflexivity.
  - apply IH.
Qed.

Lemma session_of_view (s k : nat) (w w' : World) :
  session_view w' = session_view w -> session_of s k w -> session_of s k w'.
Proof.
  unfold session_view. intros [= EI EM] (HI & sw & HS & Hcb).
  split; [congruence|].
  apply map_on_cb_lookup. rewrite EM. apply map_on_cb_lookup.
  now exists sw.
Qed.

Lemma steady_ret {A} (a : A) : steady (Js_ret a).
Proof. now intros w. Qed.

Lemma steady_throw {A} (e : JsError) : steady (@throw A e).
Proof. now intros w. Qed.

Lemma steady_tell (e : Effect) : steady (tell e).
Proof. now intros w. Qed.

Lemma steady_bind {A B} (m : Js A) (f : A -> Js B) :
  steady m -> (forall a, steady (f a)) -> steady (Js_bind m f).
Proof.
  intros Sm Sf w. unfold Js_bind. specialize (Sm w).
  destruct (m w) as [[[a|e] w1] t1]; [|exact Sm].
  cbn [world_of fst snd] in *. specialize (Sf a w1).
  destruct (f a w1) as [[o2 w2] t2]. cbn [world_of fst snd] in *.
  congruence.
Qed.

Lemma steady_forEach {A} (l : list A) (f : A -> Js unit) :
  (forall x, steady (f x)) -> steady (forEach l f).
Proof.
  intros H. induction l as [|x l IH]; [apply steady_ret|].
  cbn [forEach]. apply steady_bind; [apply H|intros _; exact IH].
Qed.

Lemma steady_get_world : steady get_world.
Proof. now intros w. Qed.

Lemma steady_get_this : steady get_this.
Proof. now intros w. Qed.

Lemma steady_getRouters : steady getRouters.
Proof. now intros w. Qed.

Lemma steady_read_router (r : nat) : steady (read_router r).
Proof. intros w. unfold read_router. now destruct (routers w !! r). Qed.

Lemma steady_write_router (r : nat) (R : Router) : steady (write_router r R).
Proof. now intros w. Qed.

Lemma steady_SocketPool_add (sock : nat) : steady (SocketPool_add sock).
Proof. now intros w. Qed.

(** Writes to a swarm that leave the function it captured alone. *)
Lemma steady_modify_swarm (s : nat) (f : Swarm -> Swarm) :
  (forall sw, on_cb (f sw) = on_cb sw) -> steady (modify_swarm s f).
Proof.
  intros H w. unfold modify_swarm.
  destruct (swarms w !! s) as [sw|] eqn:E; [|reflexivity].
  unfold session_view. cbn [world_of fst snd this swarms with_swarms].
  f_equal. now apply (map_on_cb_insert _ s sw).
Qed.

(** Writes to [this] that leave [this.Interplanetary] alone. *)
Lemma steady_modify_this (f : GridControl -> GridControl) :
  (forall g, Interplanetary (f g) = Interplanetary g) ->
  steady (modify_this f).
Proof.
  intros H w. unfold session_view.
  cbn [world_of fst snd this swarms with_this modify_this]. now rewrite H.
Qed.

Lemma steady_emit (P : Process) (ev : string) (a : EventArg) :
  steady (emit P ev a).
Proof.
  intros w. destruct (emit_run P ev a w) as (b & t & E & _).
  now rewrite E.
Qed.

Ltac steady_step :=
  match goal with
  | |- steady (Js_bind _ _) => apply steady_bind; [|intro]
  | |- steady (Js_ret _) => apply steady_ret
  | |- steady (throw _) => apply steady_throw
  | |- steady (tell _) => apply steady_tell
  | |- steady (router_send _ _) => apply steady_tell
  | |- steady (emit _ _ _) => apply steady_emit
  | |- steady get_world => apply steady_get_world
  | |- steady get_this => apply steady_get_this
  | |- steady getRouters => apply steady_getRouters
  | |- steady (read_router _) => apply steady_read_router
  | |- steady (write_router _ _) => apply steady_write_router
  | |- steady (SocketPool_add _) => apply steady_SocketPool_add
  | |- steady (modify_swarm _ _) =>
      apply steady_modify_swarm; intro; reflexivity
  | |- steady (modify_this _) => apply steady_modify_this; intro; reflexivity
  | |- steady (forEach _ _) => apply steady_forEach; intro
  | |- steady (match ?x with _ => _ end) => destruct x
  end.

Ltac steady_tac := repeat steady_step.

Lemma steady_router_identity (r : nat) : steady (router_identity r).
Proof. unfold router_identity. steady_tac. Qed.

Lemma steady_set_synchronized (r : nat) (b : bool) :
  steady (set_synchronized r b).
Proof.
  unfold set_synchronized. steady_tac. apply steady_router_identity.
Qed.

Lemma steady_SocketPool_broadcast (m : Message) :
  steady (SocketPool_broadcast m).
Proof. unfold SocketPool_broadcast. steady_tac. Qed.

Lemma steady_on_message (P : Process) (r : nat) (m : Message) (cb : nat) :
  steady (on_message P r m cb).
Proof.
  destruct m; cbn [on_message];
    unfold on_identity, on_clear, on_trigger, on_sync_done, on_sync;
    steady_tac;
    first [apply steady_router_identity | apply steady_set_synchronized].
Qed.

Lemma steady_askPeerToSync (P : Process) (r : nat) :
  steady (askPeerToSync P r).
Proof. unfold askPeerToSync. steady_tac. apply steady_router_identity. Qed.

Lemma steady_invoke (P : Process) (cb : Callback) (args : list JsValue) :
  steady (invoke P cb args).
Proof. destruct cb; cbn [invoke]; steady_tac. Qed.

Lemma steady_on_swarm (P : Process) (s : nat) (e : SwarmEvent) :
  steady (on_swarm P s e).
Proof.
  destruct e as [err|port|sock]; cbn [on_swarm].
  - unfold on_error, print_message. steady_tac; apply steady_invoke.
  - unfold on_listening. steady_tac; apply steady_invoke.
  - unfold onNewPeer, getLocalIdentity. steady_tac.
Qed.

Lemma steady_synchronize_done (P : Process) (data : SyncData.t)
    (err : JsValue) (meta : FileMeta) :
  steady (synchronize_done P data err meta).
Proof.
  unfold synchronize_done. steady_tac. apply steady_SocketPool_broadcast.
Qed.

(** Every handler but the two that call [startDiscovery] leaves the
    sessions as they are, whether it returns or throws. *)
Lemma handle_steady (P : Process) (e : Event) (w : World) :
  restarts e w = false ->
  session_view (world_of (handle P e w)) = session_view w.
Proof.
  destruct e as [ip| |s ev|r m cb|r| |fm data err meta|data|cb err res];
    cbn [handle restarts]; intros H.
  - discriminate H.
  - revert w H. unfold api_started. intros w _. revert w.
    change (steady (Js_bind (tell (ConsoleLog "api ready"))
                      (fun _ => emit P "api:ready" no_arg))).
    steady_tac.
  - apply steady_on_swarm.
  - apply steady_on_message.
  - apply steady_askPeerToSync.
  - rewrite interval_discovery_connected; [reflexivity|].
    intros E. now rewrite E in H.
  - revert w H. intros w _. revert w.
    change (steady (Js_bind (modify_this (set_file_manager fm))
                      (fun _ => synchronize_done P data err meta))).
    steady_tac. apply steady_synchronize_done.
  - apply steady_SocketPool_broadcast.
  - unfold trigger_done. apply steady_tell.
Qed.

(** C4, as the code has it: the swarm [startDiscovery] creates is the
    node's current one, and stays so through every handler but the two
    that call [startDiscovery] again (the one of the resolved address and
    the timer's on an empty pool).  While it is, each of its 'listening'
    events calls the function given to [startDiscovery] once, with no
    argument, and each of its 'error' events that carries an error (a
    value other than undefined and null) calls it once with that error;
    inbound connections do not call it.  Over the events of the swarm it
    is thus called once per such event, in their order, and exactly once
    only when the swarm reports exactly one of them. *)
Theorem startDiscovery_callback_per_event (P : Process) (ns : JsStr)
    (k : nat) (w : World) :
  let s := length (swarms w) in
  let w0 := world_of (startDiscovery ns (Some (cb_caller k)) w) in
  session_of s k w0 /\
  (forall (w1 : World) (e : SwarmEvent),
     session_of s k w1 -> carries_error e = true ->
     outcome (handle P (E_swarm s e) w1) = Return tt /\
     calls (trace (handle P (E_swarm s e) w1)) = session_calls k e /\
     session_of s k (world_of (handle P (E_swarm s e) w1))) /\
  (forall (w1 : World) (ev : Event),
     session_of s k w1 -> restarts ev w1 = false ->
     session_of s k (world_of (handle P ev w1))) /\
  (forall evs : list SwarmEvent,
     forallb carries_error evs = true ->
     outcome (run P (map (E_swarm s) evs) w0) = Return tt /\
     calls (trace (run P (map (E_swarm s) evs) w0)) =
       flat_map (session_calls k) evs).
Proof.
  cbn zeta. rewrite startDiscovery_run. cbn [world_of fst snd].
  assert (S0 : session_of (length (swarms w)) k
                 (started_world ns (Some (cb_caller k)) w)).
  { split; [reflexivity|].
    exists (started_swarm ns (Some (cb_caller k))). split; [|reflexivity].
    unfold started_world. cbn [swarms]. apply lookup_snoc. }
  split; [exact S0|]. split; [|split].
  - intros w1 e H1 He. cbn [handle].
    destruct (on_swarm_run P _ k e w1 H1 He) as (w' & t & E & H' & C).
    rewrite E. split; [reflexivity|]. split; [exact C|exact H'].
  - intros w1 ev H1 Hr.
    apply (session_of_view _ k w1); [now apply handle_steady|exact H1].
  - intros evs He. now apply session_run.
Qed.

Lemma startDiscovery_callback_per_event_witness :
  forallb carries_error listening_then_error = true /\
  calls (trace (run live_process (map (E_swarm 0) listening_then_error)
                  discovering_world)) =
    [(7, []); (7, [JsObject "Error: dht"])].
Proof.
  split; [reflexivity|].
  pose proof (startDiscovery_callback_per_event live_process "pm2:fs" 7
                fresh_world) as (_ & _ & _ & R).
  apply (R listening_then_error eq_refl).
Defined.

(** C4 as stated fails: a swarm that reports an error and then 'listening'
    makes the function given to [startDiscovery] run twice. *)
Lemma discovery_callback_called_twice :
  outcome (run live_process error_then_listening discovering_world) =
    Return tt /\
  calls (trace (run live_process error_then_listening discovering_world)) =
    [(7, [JsObject "Error: bind failed"]); (7, [])] /\
  length (calls (trace (run live_process error_then_listening
                          discovering_world))) <> 1.
Proof. vm_compute. repeat split. discriminate. Qed.

(** Once [startDiscovery] has been called again, a 'listening' event of the
    first swarm reads the port of the second one, which is not bound yet:
    a TypeError, and the function given to the first call is not called. *)
Example listening_after_restart_throws :
  outcome (run live_process
             [E_swarm 0 (ev_listening 4000)]
             (world_of (startDiscovery "pm2:fs" None discovering_world))) =
    Throw (TypeError "Cannot read property 'port' of null") /\
  calls (trace (run live_process
             [E_swarm 0 (ev_listening 4000)]
             (world_of (startDiscovery "pm2:fs" None discovering_world)))) =
    [].
Proof. split; reflexivity. Qed.

(** An 'error' event that carries null makes the error handler throw on
    [e.message], before the function given to [startDiscovery] is
    called. *)
Example null_error_throws :
  run live_process [E_swarm 0 (ev_error JsNull)] discovering_world =
    (Throw (TypeError "Cannot read property 'message' of null"),
     discovering_world, [ConsoleError "Interplanetary got error" []]).
Proof. reflexivity. Qed.

(** The timer restarts discovery without a callback; an 'error' event of
    such a swarm makes the error handler call [cb], which is undefined. *)
Example error_after_restart_throws :
  outcome (run live_process
             [E_interval; E_swarm 1 (ev_error (JsObject "Error: dht"))]
             isolated_world) =
    Throw (TypeError "cb is not a function").
Proof. reflexivity. Qed.

(** ** Readiness barrier *)

Lemma signal_name_eqb (x y : Signal) :
  (signal_name y =? signal_name x) = Signal_eqb x y.
Proof. destruct x, y; reflexivity. Qed.

Lemma Signal_eqb_eq (x y : Signal) : Signal_eqb x y = true -> x = y.
Proof. destruct x, y; easy. Qed.

(** A signal reaching a barrier of [start] that is still pending. *)
Lemma Barrier_signal_pending (b : Barrier) (x : Signal) :
  awaited b = ready_signals -> resolved b = false ->
  exists b',
    Barrier_signal (signal_name x) b = (b', resolved b') /\
    awaited b' = ready_signals /\
    (forall y, seen b' y = seen b y || Signal_eqb x y) /\
    resolved b' =
      seen b' ip_ready && seen b' discovery_ready && seen b' api_ready.
Proof.
  intros HA HR. unfold Barrier_signal. rewrite HR, HA.
  replace (heard (signal_name x) ready_signals) with true
    by now destruct x.
  cbv zeta.
  set (rec := if heard (signal_name x) (received b) then received b
              else signal_name x :: received b).
  exists {| awaited := ready_signals; received := rec;
            resolved := forallb (fun a => heard a rec) ready_signals |}.
  split; [reflexivity|]. cbn [awaited received resolved].
  split; [reflexivity|]. split.
  - intros y. unfold seen. cbn [received]. subst rec.
    destruct (heard (signal_name x) (received b)) eqn:Hx.
    + destruct (Signal_eqb x y) eqn:Exy.
      * apply Signal_eqb_eq in Exy as <-. unfold heard in *.
        now rewrite Hx.
      * now rewrite orb_false_r.
    + unfold heard. cbn [existsb]. rewrite signal_name_eqb.
      apply orb_comm.
  - unfold seen. cbn [received forallb ready_signals signal_name].
    now rewrite andb_true_r, andb_assoc.
Qed.

Lemma Barrier_signal_resolved (b : Barrier) (ev : string) :
  resolved b = true -> Barrier_signal ev b = (b, false).
Proof. intros H. unfold Barrier_signal. now rewrite H. Qed.

Lemma then_ready_once (P : Process) (w : World) (b : Barrier) :
  waiting w = Some b -> resolved b = true ->
  exists t, then_ready P w = (Return tt, w, t) /\ ready_count t = 1.
Proof.
  intros HW HR. destruct w as [g rs ss wt]. cbn [waiting] in HW. subst wt.
  unfold then_ready, emit_then, listeners, Js_bind, get_this, tell,
    with_waiting.
  cbn [waiting this routers swarms].
  rewrite (Barrier_signal_resolved b "ready" HR).
  destruct (test_mode P); simpl; eexists; split; reflexivity.
Qed.

(** One signal emitted while the barrier of [start] is installed. *)
Lemma emit_signal_run (P : Process) (x : Signal) (w : World) (b : Barrier) :
  waiting w = Some b -> awaited b = ready_signals ->
  exists b' t,
    emit P (signal_name x) no_arg w = (Return tt, with_waiting (Some b') w, t) /\
    awaited b' = ready_signals /\
    (resolved b = true -> b' = b /\ ready_count t = 0) /\
    (resolved b = false ->
       (forall y, seen b' y = seen b y || Signal_eqb x y) /\
       resolved b' =
         seen b' ip_ready && seen b' discovery_ready && seen b' api_ready /\
       ready_count t = if resolved b' then 1 else 0).
Proof.
  intros HW HA. destruct w as [g rs ss wt]. cbn [waiting] in HW. subst wt.
  unfold emit, emit_then, listeners, Js_bind, tell, with_waiting.
  cbn [waiting this routers swarms].
  destruct (resolved b) eqn:HR.
  - rewrite (Barrier_signal_resolved b _ HR).
    exists b. eexists. split; [reflexivity|]. split; [exact HA|].
    split; [|discriminate]. intros _. split; [reflexivity|].
    destruct x; reflexivity.
  - destruct (Barrier_signal_pending b x HA HR) as (b' & E & HA' & HS & HR').
    rewrite E. exists b'. destruct (resolved b') eqn:Rb'.
    + destruct (then_ready_once P
                  {| this := g; routers := rs; swarms := ss;
                     waiting := Some b' |} b' eq_refl Rb')
        as (t & Et & Ct).
      rewrite Et. eexists. split; [reflexivity|]. split; [exact HA'|].
      split; [discriminate|]. intros _. split; [exact HS|].
      split; [exact HR'|].
      cbn [app ready_count]. rewrite Ct. destruct x; reflexivity.
    + eexists. split; [reflexivity|]. split; [exact HA'|].
      split; [discriminate|]. intros _. split; [exact HS|].
      split; [exact HR'|]. destruct x; reflexivity.
Qed.

Lemma emit_all_count (P : Process) (sigs : list Signal) :
  forall (w : World) (b : Barrier),
    waiting w = Some b -> awaited b = ready_signals ->
    resolved b =
      seen b ip_ready && seen b discovery_ready && seen b api_ready ->
    outcome (emit_all P sigs w) = Return tt /\
    ready_count (trace (emit_all P sigs w)) =
      if resolved b then 0 else if covered b sigs then 1 else 0.
Proof.
  induction sigs as [|x sigs IH]; intros w b HW HA HC.
  - split; [reflexivity|].
    cbn [emit_all forEach trace snd Js_ret ready_count].
    unfold covered, fired. cbn [existsb]. rewrite !orb_false_r, <- HC.
    now destruct (resolved b).
  - destruct (emit_signal_run P x w b HW HA)
      as (b' & t & E & HA' & Hres & Hpend).
    unfold emit_all. cbn [forEach].
    rewrite (Js_bind_Return _ _ w tt _ t E).
    fold (emit_all P sigs).
    cbn [outcome world_of trace fst snd].
    destruct (resolved b) eqn:HR.
    + destruct (Hres eq_refl) as [-> Ct].
      rewrite <- HR in HC.
      destruct (IH (with_waiting (Some b) w) b eq_refl HA HC) as [O C].
      split; [exact O|]. rewrite ready_count_app, Ct, C, HR. reflexivity.
    + destruct (Hpend eq_refl) as (HS & HC' & Ct).
      destruct (IH (with_waiting (Some b') w) b' eq_refl HA' HC') as [O C].
      split; [exact O|]. rewrite ready_count_app, Ct, C.
      unfold covered. rewrite HC', !HS.
      unfold fired. cbn [existsb]. fold (fired ip_ready sigs).
      fold (fired discovery_ready sigs). fold (fired api_ready sigs).
      destruct x, (seen b ip_ready), (seen b discovery_ready),
        (seen b api_ready), (fired ip_ready sigs),
        (fired discovery_ready sigs), (fired api_ready sigs);
        reflexivity.
Qed.

(** C2: once [start] has installed the barrier, whatever signals are
    emitted afterwards, in whatever order and however often, 'ready' has
    been emitted exactly once if each of ip:ready, discovery:ready and
    api:ready occurred at least once, and not at all otherwise.  Applied to
    the prefixes of a run, this says that 'ready' is emitted when the last
    of the three arrives for the first time and never again. *)
Theorem readiness_barrier_fires_once (P : Process) (w : World)
    (sigs : list Signal) :
  let res := emit_all P sigs (world_of (start w)) in
  outcome res = Return tt /\
  ready_count (trace res) = if all_fired sigs then 1 else 0.
Proof.
  apply (emit_all_count P sigs (world_of (start w)) (Wait ready_signals));
    reflexivity.
Qed.

(** ** Scenarios *)

(** A start whose three operations succeed reaches 'ready' once, with the
    timer armed. *)
Example startup_reaches_ready :
  outcome (run live_process startup (world_of (start fresh_world))) =
    Return tt /\
  ready_count (trace (run live_process startup
                        (world_of (start fresh_world)))) = 1 /\
  network_port (this (world_of (run live_process startup
                                  (world_of (start fresh_world))))) =
    Some 4000%Z.
Proof. vm_compute. repeat split. Qed.

(** The master marks the peer synchronized when the peer reports the
    master's fingerprint. *)
Example master_scenario_synchronized :
  sent (trace (run live_process (master_scenario "abc123")
                 discovering_world)) =
    [(0, msg_identity
           (Identity.mk None "10.0.0.1" 10000 "alpha" "host-a" "linux"
              "pm2:fs" true (Some "grid") "0.1.0" 12 false));
     (0, sync_offer (this discovering_world))] /\
  flag_of (routers (world_of (run live_process (master_scenario "abc123")
                                discovering_world))) 0 = Some true.
Proof. vm_compute. split; reflexivity. Qed.

(** It leaves the flag false when the peer reports another fingerprint. *)
Example master_scenario_stale :
  flag_of (routers (world_of (run live_process (master_scenario "0ddba11")
                                discovering_world))) 0 = Some false.
Proof. reflexivity. Qed.

(** * Further properties of the code *)

(** ** The topic as text *)

Lemma toString_hex_length (buf : Buffer) :
  String.length (toString_hex buf) = 2 * length buf.
Proof.
  induction buf as [|b buf IH]; [reflexivity|].
  cbn [toString_hex length].
  destruct (hex_of_byte_shape b) as (h & l & E). rewrite E.
  cbn [String.append String.length]. rewrite IH. lia.
Qed.

Lemma hex_of_byte_lower (b : byte) (rest : string) :
  forallb lower_hex (list_ascii_of_string (hex_of_byte b ++ rest)) =
    forallb lower_hex (list_ascii_of_string rest).
Proof. destruct b; reflexivity. Qed.

Lemma toString_hex_lower (buf : Buffer) :
  forallb lower_hex (list_ascii_of_string (toString_hex buf)) = true.
Proof.
  induction buf as [|b buf IH]; [reflexivity|].
  cbn [toString_hex]. now rewrite hex_of_byte_lower.
Qed.

Lemma utf8_ascii (s : JsStr) :
  forallb (fun u => (u <? 0x80)%N) s = true -> utf8 s = s.
Proof.
  induction s as [|u s IH]; [reflexivity|].
  cbn [forallb]. intros H. apply andb_prop in H as [Hu Hs].
  pose proof Hu as Hu'. apply N.ltb_lt in Hu'.
  assert (Eh : is_high u = false).
  { destruct (is_high u) eqn:E; [|reflexivity].
    apply surrogate_ranges in E. lia. }
  assert (El : is_low u = false).
  { destruct (is_low u) eqn:E; [|reflexivity].
    apply surrogate_ranges in E. lia. }
  rewrite utf8_plain by assumption. unfold utf8_point. rewrite Hu.
  cbn [app]. now rewrite IH.
Qed.

Lemma utf8_point_length (c : N) :
  1 <= length (utf8_point c) <= 4 /\
  ((c < 0x10000)%N -> length (utf8_point c) <= 3) /\
  ((0x10000 <= c)%N -> length (utf8_point c) = 4).
Proof.
  unfold utf8_point.
  destruct (N.ltb_spec c 0x80); [cbn; lia|].
  destruct (N.ltb_spec c 0x800); [cbn; lia|].
  destruct (N.ltb_spec c 0x10000); cbn; lia.
Qed.

Lemma utf8_length (s : JsStr) :
  code_units s = true -> length s <= length (utf8 s) <= 3 * length s.
Proof.
  induction s as [| u | u v s IH1 IH2] using list_ind2.
  - cbn. lia.
  - cbn [code_units forallb utf8]. rewrite andb_true_r. intros H.
    apply N.ltb_lt in H.
    destruct (is_high u); [cbn; lia|].
    destruct (is_low u); [cbn; lia|].
    rewrite app_nil_r. destruct (utf8_point_length u) as (A & B & _).
    specialize (B H). cbn [length]. lia.
  - rewrite code_units_cons. intros H. apply andb_prop in H as [Hu Hvs].
    pose proof Hvs as H. rewrite code_units_cons in H.
    apply andb_prop in H as [Hv Hs]. apply N.ltb_lt in Hu.
    specialize (IH1 Hs). specialize (IH2 Hvs).
    cbn [length] in *.
    destruct (is_high u) eqn:Eu.
    + destruct (is_low v) eqn:Ev.
      * rewrite utf8_pair by assumption. rewrite length_app.
        destruct (utf8_point_length (pair_point u v)) as (_ & _ & C).
        rewrite C; [lia|]. unfold pair_point. lia.
      * rewrite utf8_lone_high by assumption. rewrite length_app.
        cbn [replacement length]. lia.
    + destruct (is_low u) eqn:El.
      * rewrite utf8_lone_low by assumption. rewrite length_app.
        cbn [replacement length]. lia.
      * rewrite utf8_plain by assumption. rewrite length_app.
        destruct (utf8_point_length u) as (A & B & _).
        specialize (B Hu). lia.
Qed.

(** X1: The topic of a namespace is written with the digits 0-9 and a-f
    only, two per byte of the Buffer made of the namespace and two per
    byte of the 17-byte tag.  A namespace of ASCII characters gives one
    byte per character, so a topic of twice its length plus 34 digits;
    any namespace gives between one and three bytes per code unit. *)
Theorem discovery_key_text (ns : JsStr) :
  String.length (discovery_key ns) = 2 * length (new_Buffer ns) + 34 /\
  forallb lower_hex (list_ascii_of_string (discovery_key ns)) = true /\
  (forallb (fun u => (u <? 0x80)%N) ns = true ->
     new_Buffer ns = map byte_of_N ns /\
     String.length (discovery_key ns) = 2 * length ns + 34) /\
  (code_units ns = true ->
     length ns <= length (new_Buffer ns) <= 3 * length ns).
Proof.
  assert (L : String.length (discovery_key ns) =
              2 * length (new_Buffer ns) + 34).
  { unfold discovery_key.
    rewrite toString_hex_length, new_Buffer_app, length_app by reflexivity.
    replace (length (new_Buffer key_suffix)) with 17 by reflexivity. lia. }
  split; [exact L|]. split; [apply toString_hex_lower|]. split.
  - intros H. rewrite L. unfold new_Buffer. rewrite (utf8_ascii ns H).
    split; [reflexivity|]. now rewrite length_map.
  - intros H. unfold new_Buffer. rewrite length_map. now apply utf8_length.
Qed.

Lemma discovery_key_text_witness :
  forallb (fun u => (u <? 0x80)%N) (js_of_string "pm2:fs") = true /\
  String.length (discovery_key "pm2:fs") = 46 /\
  code_units lone_d800 = true /\
  length (new_Buffer lone_d800) <= 3.
Proof.
  split; [reflexivity|].
  pose proof (discovery_key_text "pm2:fs") as (_ & _ & A & _).
  split; [apply (A eq_refl)|]. split; [reflexivity|].
  pose proof (discovery_key_text lone_d800) as (_ & _ & _ & B).
  apply (B eq_refl).
Defined.

(** ** The constructor and serialize *)

Lemma or_string_nonempty (a : option string) (b : string) :
  b <> "" -> or_string a b <> "".
Proof.
  intros H. unfold or_string. destruct a as [s|]; [|exact H].
  destruct (String.eqb_spec s ""); assumption.
Qed.

Lemma or_string_keeps (s b : string) : s <> "" -> or_string (Some s) b = s.
Proof.
  intros H. unfold or_string. destruct (String.eqb_spec s ""); easy.
Qed.

Lemma or_namespace_nonempty (a : option JsStr) (b : JsStr) :
  b <> [] -> or_namespace a b <> [].
Proof.
  intros H. unfold or_namespace. destruct a as [[|u s]|]; easy.
Qed.

Lemma or_namespace_keeps (s b : JsStr) :
  s <> [] -> or_namespace (Some s) b = s.
Proof. intros H. unfold or_namespace. destruct s; easy. Qed.

Lemma or_namespace_falsy (a : option JsStr) (b : JsStr) :
  a = None \/ a = Some [] -> or_namespace a b = b.
Proof. now intros [->| ->]. Qed.

Lemma or_number_nonzero (a : option Z) (b : Z) :
  b <> 0%Z -> or_number a b <> 0%Z.
Proof.
  intros H. unfold or_number. destruct a as [z|]; [|exact H].
  destruct (Z.eqb_spec z 0); assumption.
Qed.

Lemma or_number_keeps (z b : Z) : z <> 0%Z -> or_number (Some z) b = z.
Proof.
  intros H. unfold or_number. destruct (Z.eqb_spec z 0); easy.
Qed.

(** Adding one is exact on the integers a double holds one by one. *)
Lemma plus_one_exact (x : Z) :
  (- 2 ^ 53 - 1 <= x < 2 ^ 53)%Z -> plus_one x = (x + 1)%Z.
Proof.
  intros H. unfold plus_one.
  replace ((- 2 ^ 53 <=? x + 1) && (x + 1 <=? 2 ^ 53))%Z with true;
    [reflexivity|].
  symmetry. apply andb_true_intro. split; apply Z.leb_le; lia.
Qed.

(** From 2^53 on it is not: the sum is rounded to a neighbour. *)
Example plus_one_rounds :
  plus_one 10000 = 10001%Z /\
  plus_one (2 ^ 53) = (2 ^ 53)%Z /\
  plus_one (2 ^ 53 + 2) = (2 ^ 53 + 4)%Z /\
  plus_one (2 ^ 54) = (2 ^ 54)%Z.
Proof. repeat split. Qed.

(** X2: A node built by the constructor never has an empty namespace nor a
    zero API port, whatever the options and the environment: a non-empty
    GRID wins over the options, an empty or absent GRID falls back to
    opts.namespace, and an empty or absent opts.namespace to 'pm2:fs'; an
    absent or zero opts.peer_api_port becomes 10000; the name is never
    empty when the generated one is not. *)
Theorem constructor_defaults (GRID : option JsStr)
    (Moniker_choose InternalIp_v4 TMP_FILE TMP_FOLDER : string)
    (new_FilesManagement : Opts.file_manager_t -> FilesManagement)
    (new_TaskManager : TaskManagerOpts -> TaskManager) (opts : Opts.t) :
  let g := new_GridControl GRID Moniker_choose InternalIp_v4 TMP_FILE
             TMP_FOLDER new_FilesManagement new_TaskManager opts in
  namespace g <> [] /\
  peer_api_port g <> 0%Z /\
  (forall v, GRID = Some v -> v <> [] -> namespace g = v) /\
  (GRID = None \/ GRID = Some [] ->
     namespace g = or_namespace (Opts.namespace opts) "pm2:fs") /\
  (Opts.peer_api_port opts = None \/ Opts.peer_api_port opts = Some 0%Z ->
     peer_api_port g = 10000%Z) /\
  (Moniker_choose <> "" -> peer_name g <> "").
Proof.
  cbn zeta. unfold new_GridControl. cbn [namespace peer_api_port peer_name].
  split; [|split; [|split; [|split; [|split]]]].
  - apply or_namespace_nonempty, or_namespace_nonempty. discriminate.
  - apply or_number_nonzero. discriminate.
  - intros v -> Hv. now apply or_namespace_keeps.
  - intros [->| ->]; reflexivity.
  - intros [->| ->]; reflexivity.
  - apply or_string_nonempty.
Qed.

Lemma constructor_defaults_witness :
  namespace (new_GridControl (Some []) "quiet-owl" "10.0.0.1" "/tmp/f"
               "/tmp/d" (fun _ => sample_files) (fun _ => sample_tasks)
               (Opts.mk None (Some []) (Some 0%Z) None None)) = "pm2:fs" /\
  peer_api_port (new_GridControl (Some []) "quiet-owl" "10.0.0.1" "/tmp/f"
                   "/tmp/d" (fun _ => sample_files) (fun _ => sample_tasks)
                   (Opts.mk None (Some []) (Some 0%Z) None None)) = 10000%Z /\
  namespace (new_GridControl (Some (js_of_string "grid-a")) "quiet-owl"
               "10.0.0.1" "/tmp/f" "/tmp/d" (fun _ => sample_files)
               (fun _ => sample_tasks)
               (Opts.mk None (Some (js_of_string "grid-b")) None None None)) =
    "grid-a".
Proof.
  pose proof (constructor_defaults (Some []) "quiet-owl" "10.0.0.1" "/tmp/f"
                "/tmp/d" (fun _ => sample_files) (fun _ => sample_tasks)
                (Opts.mk None (Some []) (Some 0%Z) None None))
    as (_ & _ & _ & N & Q & _).
  split; [apply N; now right|]. split; [apply Q; now right|].
  pose proof (constructor_defaults (Some (js_of_string "grid-a")) "quiet-owl"
                "10.0.0.1" "/tmp/f" "/tmp/d" (fun _ => sample_files)
                (fun _ => sample_tasks)
                (Opts.mk None (Some (js_of_string "grid-b")) None None None))
    as (_ & _ & G & _).
  apply (G "grid-a" eq_refl). discriminate.
Defined.

(** X3: Passing what [serialize] returns back to the constructor rebuilds the
    same name, namespace and API port when the three are non-empty and
    non-zero and GRID is unset or empty; this is the case of every node the
    constructor built under that environment.  Under a non-empty GRID the
    rebuilt namespace is GRID, whatever the serialized node had joined. *)
Theorem serialize_restores (GRID : option JsStr)
    (Moniker_choose InternalIp_v4 TMP_FILE TMP_FOLDER : string)
    (new_FilesManagement : Opts.file_manager_t -> FilesManagement)
    (new_TaskManager : TaskManagerOpts -> TaskManager)
    (fm : option Opts.file_manager_t) (tm : option Opts.task_manager_t)
    (g : GridControl) :
  let rebuilt := new_GridControl GRID Moniker_choose InternalIp_v4 TMP_FILE
                   TMP_FOLDER new_FilesManagement new_TaskManager
                   (restore (serialize g) fm tm) in
  (peer_name g <> "" -> namespace g <> [] -> peer_api_port g <> 0%Z ->
   GRID = None \/ GRID = Some [] ->
   serialize rebuilt = serialize g) /\
  (forall v, GRID = Some v -> v <> [] -> namespace rebuilt = v) /\
  (forall opts, Moniker_choose <> "" ->
     g = new_GridControl GRID Moniker_choose InternalIp_v4 TMP_FILE
           TMP_FOLDER new_FilesManagement new_TaskManager opts ->
     serialize rebuilt = serialize g).
Proof.
  cbn zeta. unfold serialize, restore, new_GridControl.
  cbn [peer_name namespace peer_api_port Opts.peer_name Opts.namespace
       Opts.peer_api_port].
  split; [|split].
  - intros Hn Hs Hp HG.
    rewrite (or_string_keeps _ _ Hn), (or_number_keeps _ _ Hp).
    now rewrite (or_namespace_falsy GRID _ HG), (or_namespace_keeps _ _ Hs).
  - intros v -> Hv. now apply or_namespace_keeps.
  - intros opts HM ->.
    cbn [peer_name namespace peer_api_port].
    set (name := or_string (Opts.peer_name opts) Moniker_choose).
    set (ns := or_namespace GRID
                 (or_namespace (Opts.namespace opts) "pm2:fs")).
    set (port := or_number (Opts.peer_api_port opts) 10000).
    assert (Hn : name <> "") by now apply or_string_nonempty.
    assert (Hs : ns <> [])
      by (apply or_namespace_nonempty, or_namespace_nonempty; discriminate).
    assert (Hp : port <> 0%Z) by (apply or_number_nonzero; discriminate).
    rewrite (or_string_keeps _ _ Hn), (or_number_keeps _ _ Hp).
    rewrite (or_namespace_keeps ns _ Hs).
    f_equal. f_equal. subst ns. unfold or_namespace at 1.
    destruct GRID as [[|u v]|]; reflexivity.
Qed.

Lemma serialize_restores_witness :
  peer_name sample_node <> "" /\
  serialize (new_GridControl None "quiet-owl" "10.0.0.9" "/tmp/f" "/tmp/d"
               (fun _ => sample_files) (fun _ => sample_tasks)
               (restore (serialize sample_node) None None)) =
    ("alpha", js_of_string "pm2:fs", 10000%Z) /\
  namespace (new_GridControl (Some (js_of_string "grid-a")) "quiet-owl"
               "10.0.0.9" "/tmp/f" "/tmp/d" (fun _ => sample_files)
               (fun _ => sample_tasks)
               (restore (serialize sample_node) None None)) = "grid-a".
Proof.
  split; [discriminate|]. split.
  - pose proof (serialize_restores None "quiet-owl" "10.0.0.9" "/tmp/f"
                  "/tmp/d" (fun _ => sample_files) (fun _ => sample_tasks)
                  None None sample_node) as (R & _).
    apply R; try discriminate. now left.
  - pose proof (serialize_restores (Some (js_of_string "grid-a")) "quiet-owl"
                  "10.0.0.9" "/tmp/f" "/tmp/d" (fun _ => sample_files)
                  (fun _ => sample_tasks) None None sample_node)
      as (_ & G & _).
    apply (G "grid-a" eq_refl). discriminate.
Defined.

(** ** A new peer and its delayed offer *)

Lemma Js_bind_Throw {A B} (m : Js A) (f : A -> Js B) w e w1 t1 :
  m w = (Throw e, w1, t1) -> Js_bind m f w = (Throw e, w1, t1).
Proof. intros H. unfold Js_bind. now rewrite H. Qed.

Lemma quiet_timeouts (t : list Effect) :
  forallb quiet t = true -> timeouts t = [].
Proof.
  induction t as [|e t IH]; [reflexivity|].
  destruct e; simpl; intros H; try discriminate H; now apply IH.
Qed.

Lemma timeouts_app (t u : list Effect) :
  timeouts (t ++ u) = timeouts t ++ timeouts u.
Proof.
  induction t as [|e t IH]; [reflexivity|].
  destruct e; simpl; now rewrite ?IH.
Qed.

Lemma onNewPeer_shape (P : Process) (sock : nat) (w : World) :
  exists b t,
    forallb quiet t = true /\
    onNewPeer P sock w =
      (Return tt, with_waiting b (registered sock w),
       Emit "new:peer" (arg_sock sock) :: t ++
       RouterSend (length (routers w))
         (msg_identity (local_identity P (this w))) ::
       if is_file_master (file_manager (this w)) &&
          has_file_to_sync (file_manager (this w))
       then [SetTimeout (K_timeout_sync (length (routers w))) 1500]
       else []).
Proof.
  unfold onNewPeer.
  rewrite (Js_bind_Return (SocketPool_add sock) _ w _ _ [] eq_refl).
  fold (registered sock w).
  destruct (emit_run P "new:peer" (arg_sock sock) (registered sock w))
    as (b & t & E & Q).
  rewrite (Js_bind_Return _ _ _ tt _ _ E).
  exists b, t. split; [exact Q|].
  unfold getLocalIdentity, router_send, Js_bind, get_this, tell, Js_ret.
  cbn [outcome world_of trace fst snd app this with_waiting registered
       with_this with_routers file_manager set_SocketPool].
  destruct (is_file_master (file_manager (this w)) &&
            has_file_to_sync (file_manager (this w)));
    cbn [outcome world_of trace fst snd app];
    rewrite ?app_nil_r, <- ?app_assoc; reflexivity.
Qed.

(** X4: A new connection never fails: it is registered last in the pool with
    no identity, the routers already there are left as they are, the only
    message sent is the local identity, to the new router, and the delayed
    offer is scheduled exactly when the node is a file master that has a
    file to synchronize. *)
Theorem onNewPeer_registers_and_greets (P : Process) (sock : nat)
    (w : World) :
  let res := onNewPeer P sock w in
  let r := length (routers w) in
  outcome res = Return tt /\
  SocketPool (this (world_of res)) = SocketPool (this w) ++ [r] /\
  routers (world_of res) =
    routers w ++ [{| sock := sock; identity := None |}] /\
  (forall r', r' < r -> routers (world_of res) !! r' = routers w !! r') /\
  sent (trace res) = [(r, msg_identity (local_identity P (this w)))] /\
  timeouts (trace res) =
    if is_file_master (file_manager (this w)) &&
       has_file_to_sync (file_manager (this w))
    then [(K_timeout_sync r, 1500%Z)] else [].
Proof.
  cbn zeta. destruct (onNewPeer_shape P sock w) as (b & t & Q & E).
  rewrite E. cbn [outcome world_of trace fst snd].
  split; [reflexivity|]. split; [reflexivity|]. split; [reflexivity|].
  split; [|split].
  - intros r' Hr. cbn [routers with_waiting registered with_this
                       with_routers].
    now apply lookup_app_l.
  - cbn [sent]. rewrite sent_app, (quiet_sent t Q). cbn [app sent].
    now destruct (_ && _).
  - cbn [timeouts]. rewrite timeouts_app, (quiet_timeouts t Q).
    cbn [app timeouts]. now destruct (_ && _).
Qed.

Lemma askPeerToSync_unidentified (P : Process) (r : nat) (w : World)
    (R : Router) :
  routers w !! r = Some R -> identity R = None ->
  exists b t,
    forallb quiet t = true /\
    askPeerToSync P r w =
      (Throw (TypeError "router.identity is undefined"), with_waiting b w,
       Emit "peer:synchronize" no_arg :: t).
Proof.
  intros HR Hid. unfold askPeerToSync.
  destruct (emit_run P "peer:synchronize" no_arg w) as (b & t & E & Q).
  rewrite (Js_bind_Return _ _ w tt _ _ E).
  exists b, t. split; [exact Q|].
  assert (T : router_identity r (with_waiting b w) =
              (Throw (TypeError "router.identity is undefined"),
               with_waiting b w, [])).
  { unfold router_identity, read_router, Js_bind.
    cbn [routers with_waiting]. rewrite HR, Hid. reflexivity. }
  rewrite (Js_bind_Throw _ _ _ _ _ _ T).
  cbn [outcome world_of trace fst snd]. now rewrite app_nil_r.
Qed.

Lemma run_cons (P : Process) (e : Event) (es : list Event) :
  run P (e :: es) = Js_bind (handle P e) (fun _ => run P es).
Proof. reflexivity. Qed.

Lemma run_one (P : Process) (e : Event) (w : World) :
  run P [e] w = handle P e w.
Proof.
  rewrite run_cons. unfold Js_bind.
  destruct (handle P e w) as [[[[]|err] w1] t1]; cbn;
    now rewrite ?app_nil_r.
Qed.

Lemma onNewPeer_registers_and_greets_witness :
  0 < length (routers master_world) /\
  routers (world_of (onNewPeer live_process 42 master_world)) !! 0 =
    routers master_world !! 0 /\
  SocketPool (this (world_of (onNewPeer live_process 42 master_world))) =
    [0; 1; 2] /\
  timeouts (trace (onNewPeer live_process 42 master_world)) =
    [(K_timeout_sync 2, 1500%Z)].
Proof.
  pose proof (onNewPeer_registers_and_greets live_process 42 master_world)
    as (_ & Pl & _ & Fr & _ & Tm).
  split; [cbn; lia|]. split; [apply Fr; cbn; lia|].
  split; [exact Pl | exact Tm].
Defined.

(** X5: The offer scheduled 1500 ms after a connection needs the peer's
    identity: when the timer fires before the identity message was
    handled, the offer raises a TypeError and the peer has been sent
    nothing but the local identity; when the identity arrived in between,
    the peer is sent the offer. *)
Theorem delayed_offer_needs_identity (P : Process) (s sock cb : nat)
    (id : Identity.t) (w : World) :
  let r := length (routers w) in
  let hello := (r, msg_identity (local_identity P (this w))) in
  let early := run P [E_swarm s (ev_connection sock); E_timeout_sync r] w in
  let timely := run P [E_swarm s (ev_connection sock);
                       E_message r (msg_identity id) cb;
                       E_timeout_sync r] w in
  outcome early = Throw (TypeError "router.identity is undefined") /\
  sent (trace early) = [hello] /\
  outcome timely = Return tt /\
  sent (trace timely) = [hello; (r, sync_offer (this w))].
Proof.
  cbn zeta. destruct (onNewPeer_shape P sock w) as (b & t & Q & E).
  set (w1 := with_waiting b (registered sock w)) in E.
  set (t1 := Emit _ _ :: _) in E.
  assert (S1 : sent t1 =
               [(length (routers w),
                 msg_identity (local_identity P (this w)))]).
  { subst t1. cbn [sent].
    rewrite sent_app, (quiet_sent t Q). cbn [app sent].
    now destruct (_ && _). }
  assert (HR : routers w1 !! length (routers w) =
               Some {| sock := sock; identity := None |}).
  { subst w1. cbn [routers with_waiting registered with_this with_routers].
    apply lookup_snoc. }
  split; [|split; [|split]].
  - rewrite run_cons. cbn [handle on_swarm].
    rewrite (Js_bind_Return _ _ w tt w1 _ E), run_one. cbn [handle].
    destruct (askPeerToSync_unidentified P _ w1 _ HR eq_refl)
      as (b2 & t2 & Q2 & E2).
    now rewrite E2.
  - rewrite run_cons. cbn [handle on_swarm].
    rewrite (Js_bind_Return _ _ w tt w1 _ E), run_one. cbn [handle].
    destruct (askPeerToSync_unidentified P _ w1 _ HR eq_refl)
      as (b2 & t2 & Q2 & E2).
    rewrite E2. cbn [trace snd]. rewrite sent_app, S1.
    cbn [sent]. now rewrite (quiet_sent t2 Q2).
  - rewrite run_cons. cbn [handle on_swarm].
    rewrite (Js_bind_Return _ _ w tt w1 _ E), run_cons.
    cbn [handle on_message].
    assert (EI : on_identity (length (routers w)) id w1 =
                 (Return tt,
                  with_routers
                    (<[length (routers w) :=
                         {| sock := sock; identity := Some id |}]>
                       (routers w1)) w1, [])).
    { unfold on_identity, read_router, write_router, Js_bind.
      now rewrite HR. }
    rewrite (Js_bind_Return _ _ w1 tt _ _ EI), run_one. cbn [handle].
    set (w2 := with_routers _ w1).
    assert (HR2 : routers w2 !! length (routers w) =
                  Some {| sock := sock; identity := Some id |}).
    { subst w2. cbn [routers with_routers].
      apply list_lookup_insert_eq. now apply lookup_lt_Some in HR. }
    destruct (askPeerToSync_run P _ w2 _ id HR2 eq_refl)
      as (b2 & t2 & E2 & S2).
    now rewrite E2.
  - rewrite run_cons. cbn [handle on_swarm].
    rewrite (Js_bind_Return _ _ w tt w1 _ E), run_cons.
    cbn [handle on_message].
    assert (EI : on_identity (length (routers w)) id w1 =
                 (Return tt,
                  with_routers
                    (<[length (routers w) :=
                         {| sock := sock; identity := Some id |}]>
                       (routers w1)) w1, [])).
    { unfold on_identity, read_router, write_router, Js_bind.
      now rewrite HR. }
    rewrite (Js_bind_Return _ _ w1 tt _ _ EI), run_one. cbn [handle].
    set (w2 := with_routers _ w1).
    assert (HR2 : routers w2 !! length (routers w) =
                  Some {| sock := sock; identity := Some id |}).
    { subst w2. cbn [routers with_routers].
      apply list_lookup_insert_eq. now apply lookup_lt_Some in HR. }
    destruct (askPeerToSync_run P _ w2 _ id HR2 eq_refl)
      as (b2 & t2 & E2 & S2).
    rewrite E2. cbn [outcome world_of trace fst snd app].
    rewrite sent_app, S1, S2. reflexivity.
Qed.

(** ** A wave of offers cut short *)

Lemma set_synchronized_unidentified (r : nat) (b : bool) (w : World)
    (R : Router) :
  routers w !! r = Some R -> identity R = None ->
  set_synchronized r b w =
    (Throw (TypeError "router.identity is undefined"), w, []).
Proof.
  intros HR Hid.
  unfold set_synchronized, router_identity, read_router, Js_bind.
  rewrite HR. simpl. rewrite HR, Hid. reflexivity.
Qed.

Lemma flag_of_lookup (rs rs' : list Router) (r : nat) :
  rs' !! r = rs !! r -> flag_of rs' r = flag_of rs r.
Proof. intros H. unfold flag_of. now rewrite H. Qed.

Lemma askAllPeersToSync_cut (P : Process) (r : nat) (post : list nat)
    (pre : list nat) :
  forall (w : World) (R : Router),
    forallb (identified (routers w)) pre = true ->
    routers w !! r = Some R -> identity R = None ->
    let res := forEach (pre ++ r :: post) (fun router =>
                 Js_bind (set_synchronized router false)
                         (fun _ => askPeerToSync P router)) w in
    outcome res = Throw (TypeError "router.identity is undefined") /\
    this (world_of res) = this w /\
    sent (trace res) = map (fun x => (x, sync_offer (this w))) pre /\
    (forall x, In x pre -> flag_of (routers (world_of res)) x = Some false) /\
    (forall y, ~ In y pre -> routers (world_of res) !! y = routers w !! y).
Proof.
  induction pre as [|x pre IH]; intros w R Hpre HR Hid; cbn zeta.
  - cbn [app forEach].
    rewrite (Js_bind_Throw _ _ w
               (TypeError "router.identity is undefined") w []).
    + cbn. repeat split; tauto.
    + apply Js_bind_Throw.
      now apply (set_synchronized_unidentified r false w R).
  - cbn [forallb] in Hpre. apply andb_prop in Hpre as [Hx Hpre].
    destruct (sync_turn_run P x w Hx)
      as (X & id & b & t & HX & HidX & E & S).
    assert (Nxr : x <> r) by (intros ->; congruence).
    cbn [app forEach].
    rewrite (Js_bind_Return _ _ w tt _ t E).
    set (X' := {| sock := sock X;
                  identity := Some (Identity.set_synchronized false id) |})
      in *.
    set (w1 := with_waiting b _) in *.
    assert (Fr : forall y, y <> x -> routers w1 !! y = routers w !! y).
    { intros y Hy. subst w1. cbn [routers with_waiting with_routers].
      apply list_lookup_insert_ne. congruence. }
    assert (Fx : flag_of (routers w1) x = Some false).
    { subst w1. cbn [routers with_waiting with_routers].
      now rewrite (flag_of_insert _ x x X X' HX), Nat.eqb_refl. }
    assert (Hpre1 : forallb (identified (routers w1)) pre = true).
    { apply forallb_forall. intros y Hy.
      pose proof (proj1 (forallb_forall _ _) Hpre y Hy) as Iy.
      destruct (Nat.eq_dec y x) as [->|N].
      - unfold identified. now rewrite Fx.
      - unfold identified. now rewrite (flag_of_lookup _ _ _ (Fr y N)). }
    assert (HR1 : routers w1 !! r = Some R)
      by (rewrite Fr; [exact HR|congruence]).
    destruct (IH w1 R Hpre1 HR1 Hid) as (O & T & S1 & F1 & F2).
    set (rest := forEach _ _ w1) in *.
    cbn [outcome world_of trace fst snd].
    split; [exact O|]. split; [now rewrite T|]. split; [|split].
    + rewrite sent_app, S, S1. reflexivity.
    + intros y [<-|Hy]; [|now apply F1].
      destruct (in_dec Nat.eq_dec x pre) as [I|N]; [now apply F1|].
      now rewrite (flag_of_lookup _ _ _ (F2 x N)).
    + intros y Hy. cbn [In] in Hy.
      rewrite F2 by tauto. apply Fr. intros ->. tauto.
Qed.

(** X6: When the pool holds a router that has not announced its identity, a
    call to [askAllPeersToSync] stops at the first such router with a
    TypeError: the routers before it have been reset and sent the offer,
    that router and every router after it have been sent nothing and are
    left exactly as they were. *)
Theorem askAllPeersToSync_stops_at_unidentified (P : Process) (w : World)
    (pre post : list nat) (r : nat) (R : Router) :
  SocketPool (this w) = pre ++ r :: post ->
  forallb (identified (routers w)) pre = true ->
  routers w !! r = Some R -> identity R = None ->
  let res := askAllPeersToSync P w in
  outcome res = Throw (TypeError "router.identity is undefined") /\
  sent (trace res) = map (fun x => (x, sync_offer (this w))) pre /\
  (forall x, In x pre -> flag_of (routers (world_of res)) x = Some false) /\
  (forall y, ~ In y pre -> routers (world_of res) !! y = routers w !! y).
Proof.
  intros HP Hpre HR Hid.
  destruct (askAllPeersToSync_cut P r post pre w R Hpre HR Hid)
    as (O & _ & S & F1 & F2).
  cbn zeta. unfold askAllPeersToSync.
  rewrite (Js_bind_Return getRouters _ w (SocketPool (this w)) w [] eq_refl).
  rewrite HP. set (rest := forEach _ _ w) in *.
  cbn [outcome world_of trace fst snd app].
  repeat split; assumption.
Qed.

Lemma askAllPeersToSync_stops_at_unidentified_witness :
  SocketPool (this half_identified_world) = [0] ++ 1 :: [] /\
  outcome (askAllPeersToSync live_process half_identified_world) =
    Throw (TypeError "router.identity is undefined") /\
  sent (trace (askAllPeersToSync live_process half_identified_world)) =
    [(0, sync_offer (this half_identified_world))].
Proof.
  split; [reflexivity|].
  pose proof (askAllPeersToSync_stops_at_unidentified live_process
                half_identified_world [0] [] 1
                {| sock := 41; identity := None |}
                eq_refl eq_refl eq_refl eq_refl) as (O & S & _).
  split; [exact O | exact S].
Defined.

(** ** Reports *)




(** ** From the offer to the report *)

Lemma in_sends (m : Message) (rs : list nat) (r : nat) (m' : Message) :
  In (r, m') (map (fun x => (x, m)) rs) -> m' = m.
Proof.
  intros H. apply in_map_iff in H as (x & E & _). now injection E.
Qed.

(** X8: The offer a master builds comes back as its own fingerprint: whatever
    a replica sends after persisting that offer without error, at once or
    when [initTaskGroup] calls back, is a sync:done carrying the
    fingerprint the master had when it built the offer; handled by the
    master for a router whose flag is false, it sets the flag exactly when
    the master's fingerprint is still that one. *)
Theorem offer_comes_back_as_report (P : Process) (w w2 w' w'' : World)
    (r r' cb : nat) (err : JsValue) (meta : FileMeta) (m : Message) :
  truthy err = false ->
  flag_of (routers w2) r = Some false ->
  In (r', m)
     (sent (trace (synchronize_done P (offer_of (this w)) err meta w')) ++
      sent (trace (handle P (E_task_group_ready
                               (unpacked (offer_of (this w)) meta)) w''))) ->
  sync_offer (this w) =
    msg_sync (offer_of (this w)) (current_file_buff (file_manager (this w))) /\
  m = msg_sync_done (current_md5 (file_manager (this w))) /\
  (flag_of (routers (world_of (on_message P r m cb w2))) r = Some true <->
   current_md5 (file_manager (this w2)) =
   current_md5 (file_manager (this w))).
Proof.
  intros Herr F Hin. split; [reflexivity|].
  assert (Hm : m = msg_sync_done (current_md5 (file_manager (this w)))).
  { apply in_app_or in Hin as [Hin|Hin].
    - destruct (synchronize_done_success P (offer_of (this w)) err meta w'
                  Herr) as (b & t & Q & E).
      rewrite E in Hin. cbn [trace snd] in Hin.
      rewrite sent_app, (quiet_sent t Q) in Hin. cbn [app] in Hin.
      destruct (test_mode P).
      + rewrite sent_sends in Hin. now apply in_sends in Hin.
      + contradiction Hin.
    - cbn [handle] in Hin. unfold initTaskGroup_done in Hin.
      rewrite SocketPool_broadcast_run in Hin. cbn [trace snd] in Hin.
      rewrite sent_sends in Hin. now apply in_sends in Hin. }
  split; [exact Hm|]. subst m. cbn [on_message].
  destruct (flag_of_Some _ _ _ F) as (R & id & HR & Hid & Hf).
  destruct (string_dec (current_md5 (file_manager (this w)))
                       (current_md5 (file_manager (this w2)))) as [E|N].
  - rewrite (on_sync_done_match r _ w2 R id HR Hid E).
    cbn [world_of fst snd routers with_routers].
    rewrite (flag_of_insert _ r r R _ HR), Nat.eqb_refl. cbn [identity].
    now split.
  - rewrite (on_sync_done_mismatch r _ w2 N). cbn [world_of fst snd].
    rewrite F. split; [discriminate|]. intros E. now symmetry in E.
Qed.

Lemma offer_comes_back_as_report_witness :
  truthy JsNull = false /\
  flag_of (routers master_world) 1 = Some false /\
  flag_of (routers (world_of
    (on_message test_process 1 (msg_sync_done "abc123") 0 master_world))) 1 =
    Some true.
Proof.
  split; [reflexivity|]. split; [reflexivity|].
  pose proof (offer_comes_back_as_report test_process master_world
                master_world replica_world replica_world 1 0 0 JsNull
                sample_unpack (msg_sync_done "abc123") eq_refl eq_refl)
    as H.
  destruct H as (_ & _ & I); [vm_compute; now left|].
  apply I. reflexivity.
Defined.

(** ** Shutting down *)

(** X9: [close] on a node that has a discovery swarm closes the API, that
    swarm, the socket pool, the task manager and the file manager, in this
    order, and leaves the pool empty.  On a node whose discovery was never
    started it raises a TypeError right after closing the API: the pool is
    not closed, the task manager is not terminated and the file manager is
    not cleared. *)
Theorem close_stops_at_missing_swarm (w : World) :
  (forall s sw,
     Interplanetary (this w) = Some s -> swarms w !! s = Some sw ->
     close w =
       (Return tt,
        with_this (set_SocketPool [] (this w))
          (with_swarms (<[s := close_swarm sw]> (swarms w)) w),
        [Debug "[SHUTDOWN][%s] Closing whole server"; ApiClose; SwarmClose s;
         PoolClose; TmTerminate; FmClear])) /\
  (Interplanetary (this w) = None ->
     close w =
       (Throw (TypeError "Cannot read property 'close' of undefined"), w,
        [Debug "[SHUTDOWN][%s] Closing whole server"; ApiClose])).
Proof.
  split.
  - intros s sw HI HS. unfold close.
    rewrite (Js_bind_Return (tell _) _ w tt w _ eq_refl).
    rewrite (Js_bind_Return (tell ApiClose) _ w tt w _ eq_refl).
    rewrite (Js_bind_Return Interplanetary_close _ w tt _ _
               (Interplanetary_close_run w s sw HI HS)).
    reflexivity.
  - intros HI. unfold close, Interplanetary_close, Js_bind, tell, get_this.
    rewrite HI. reflexivity.
Qed.

Lemma close_stops_at_missing_swarm_witness :
  Interplanetary (this isolated_world) = Some 0 /\
  trace (close isolated_world) =
    [Debug "[SHUTDOWN][%s] Closing whole server"; ApiClose; SwarmClose 0;
     PoolClose; TmTerminate; FmClear] /\
  Interplanetary (this master_world) = None /\
  close master_world =
    (Throw (TypeError "Cannot read property 'close' of undefined"),
     master_world,
     [Debug "[SHUTDOWN][%s] Closing whole server"; ApiClose]).
Proof.
  split; [reflexivity|].
  pose proof (close_stops_at_missing_swarm isolated_world) as [A _].
  split; [now rewrite (A 0 _ eq_refl eq_refl)|].
  split; [reflexivity|].
  apply (close_stops_at_missing_swarm master_world). reflexivity.
Defined.

(** ** Starting discovery again *)

(** X10: [startDiscovery] does not close the swarm the node already has: after
    two calls the first swarm is still open although the node only refers
    to the second, and a [stopDiscovery] closes the second one only.  The
    node's namespace is that of the last call. *)
Theorem startDiscovery_leaves_previous_swarm (ns1 ns2 : JsStr)
    (cb1 cb2 : option Callback) (w : World) :
  let n := length (swarms w) in
  let w1 := world_of (startDiscovery ns1 cb1 w) in
  let w2 := world_of (startDiscovery ns2 cb2 w1) in
  let w3 := world_of (stopDiscovery w2) in
  closes (trace (startDiscovery ns2 cb2 w1)) = [] /\
  Interplanetary (this w2) = Some (S n) /\
  namespace (this w2) = ns2 /\
  swarms w2 !! n = Some (started_swarm ns1 cb1) /\
  outcome (stopDiscovery w2) = Return tt /\
  swarms w3 !! n = Some (started_swarm ns1 cb1) /\
  swarms w3 !! S n = Some (close_swarm (started_swarm ns2 cb2)).
Proof.
  cbn zeta. rewrite !startDiscovery_run. cbn [world_of trace fst snd closes].
  set (w1 := started_world ns1 cb1 w).
  assert (L1 : length (swarms w1) = S (length (swarms w))).
  { subst w1. cbn [swarms started_world]. rewrite length_app. cbn. lia. }
  assert (H1 : swarms w1 !! length (swarms w) = Some (started_swarm ns1 cb1)).
  { subst w1. cbn [swarms started_world]. apply lookup_snoc. }
  set (w2 := started_world ns2 cb2 w1).
  assert (H2 : swarms w2 !! length (swarms w1) =
               Some (started_swarm ns2 cb2)).
  { subst w2. cbn [swarms started_world]. apply lookup_snoc. }
  assert (I2 : Interplanetary (this w2) = Some (length (swarms w1)))
    by reflexivity.
  assert (H12 : swarms w2 !! length (swarms w) =
                Some (started_swarm ns1 cb1)).
  { subst w2. cbn [swarms started_world].
    rewrite lookup_app_l; [exact H1|]. lia. }
  unfold stopDiscovery.
  rewrite (Interplanetary_close_run w2 _ _ I2 H2).
  cbn [outcome world_of fst snd swarms with_swarms].
  split; [reflexivity|]. split; [now rewrite I2, L1|].
  split; [reflexivity|]. split; [exact H12|]. split; [reflexivity|].
  split.
  - rewrite list_lookup_insert_ne; [exact H12|]. lia.
  - rewrite <- L1. apply list_lookup_insert_eq.
    now apply lookup_lt_Some in H2.
Qed.

(** X11: The namespace given to [startDiscovery] becomes the node's: it is the
    one announced to the peers that connect afterwards and the one the
    self-healing timer joins again. *)
Theorem startDiscovery_namespace_sticks (P : Process) (ns : JsStr)
    (cb : option Callback) (sock : nat) (w : World) :
  let w1 := world_of (startDiscovery ns cb w) in
  namespace (this w1) = ns /\
  map (fun x => match snd x with
                | msg_identity id => Some (Identity.ns id)
                | _ => None
                end) (sent (trace (onNewPeer P sock w1))) = [Some ns] /\
  (SocketPool (this w) = [] ->
   joined_topics (trace (interval_discovery w1)) = [discovery_key ns]).
Proof.
  cbn zeta. rewrite startDiscovery_run. cbn [world_of fst snd].
  set (w1 := started_world ns cb w).
  split; [reflexivity|]. split.
  - destruct (onNewPeer_shape P sock w1) as (b & t & Q & E).
    rewrite E. cbn [trace snd sent].
    rewrite sent_app, (quiet_sent t Q). cbn [app sent].
    now destruct (_ && _).
  - intros HP.
    assert (HS : swarms w1 !! length (swarms w) = Some (started_swarm ns cb)).
    { subst w1. cbn [swarms started_world]. apply lookup_snoc. }
    rewrite (interval_discovery_isolated w1 _ _ eq_refl HS HP).
    reflexivity.
Qed.

Lemma startDiscovery_namespace_sticks_witness :
  SocketPool (this fresh_world) = [] /\
  joined_topics (trace (interval_discovery
    (world_of (startDiscovery "grid-b" None fresh_world)))) =
    [discovery_key "grid-b"].
Proof.
  split; [reflexivity|].
  apply (startDiscovery_namespace_sticks live_process "grid-b" None 0
           fresh_world). reflexivity.
Defined.

(** ** Ticks in a row *)

Lemma listens_app (t u : list Effect) :
  listens (t ++ u) = listens t ++ listens u.
Proof.
  induction t as [|e t IH]; [reflexivity|].
  destruct e; simpl; now rewrite ?IH.
Qed.

Lemma closes_app (t u : list Effect) :
  closes (t ++ u) = closes t ++ closes u.
Proof.
  induction t as [|e t IH]; [reflexivity|].
  destruct e; simpl; now rewrite ?IH.
Qed.

(** The store after one tick that found no router. *)
Lemma tick_keeps_one_open (w : World) (s : nat) (sw : Swarm) :
  swarms w !! s = Some sw -> Interplanetary (this w) = Some s ->
  only_current_open w ->
  only_current_open
    (started_world (namespace (this w)) None
       (with_swarms (<[s := close_swarm sw]> (swarms w)) w)).
Proof.
  intros HS HI Inv i sw' Hi Ho.
  unfold started_world in *.
  cbn [this swarms with_swarms Interplanetary set_Interplanetary] in *.
  rewrite length_insert.
  destruct (Nat.lt_ge_cases i (length (swarms w))) as [Lt|Ge].
  - exfalso. rewrite lookup_app_l in Hi by now rewrite length_insert.
    destruct (Nat.eq_dec i s) as [->|N].
    + rewrite list_lookup_insert_eq in Hi by exact Lt.
      injection Hi as <-. discriminate Ho.
    + rewrite list_lookup_insert_ne in Hi by congruence.
      specialize (Inv i sw' Hi Ho). congruence.
  - apply lookup_lt_Some in Hi. rewrite length_app, length_insert in Hi.
    cbn [length] in Hi. f_equal. lia.
Qed.

(** X12: On a node without peers whose only open swarm is the current one, any
    number of ticks in a row never fails, creates one swarm per tick, each
    tick closing the swarm of the tick before, and leaves again no swarm
    open but the current one; the pool stays empty and the namespace the
    same. *)
Theorem ticks_keep_one_swarm_open (P : Process) (n : nat) :
  forall (w : World) (s : nat) (sw : Swarm),
    Interplanetary (this w) = Some s -> swarms w !! s = Some sw ->
    SocketPool (this w) = [] -> only_current_open w ->
    let res := run P (ticks n) w in
    outcome res = Return tt /\
    listens (trace res) = seq (length (swarms w)) n /\
    closes (trace res) =
      match n with 0 => [] | S m => s :: seq (length (swarms w)) m end /\
    length (swarms (world_of res)) = length (swarms w) + n /\
    only_current_open (world_of res) /\
    SocketPool (this (world_of res)) = [] /\
    namespace (this (world_of res)) = namespace (this w).
Proof.
  induction n as [|n IH]; intros w s sw HI HS HP Inv; cbn zeta.
  - cbn. repeat split; try assumption. lia.
  - cbn [ticks repeat]. fold (ticks n). rewrite run_cons. cbn [handle].
    rewrite (Js_bind_Return _ _ w tt _ _
               (interval_discovery_isolated w s sw HI HS HP)).
    set (w1 := started_world _ None _).
    assert (L1 : length (swarms w1) = S (length (swarms w))).
    { subst w1. cbn [swarms started_world with_swarms].
      rewrite length_app, length_insert. cbn. lia. }
    assert (HS1 : swarms w1 !! length (swarms w) =
                  Some (started_swarm (namespace (this w)) None)).
    { subst w1. cbn [swarms started_world with_swarms].
      rewrite <- (length_insert (swarms w) s (close_swarm sw)).
      apply lookup_snoc. }
    assert (HI1 : Interplanetary (this w1) = Some (length (swarms w))).
    { subst w1. cbn [this started_world Interplanetary set_Interplanetary
                     swarms with_swarms]. now rewrite length_insert. }
    destruct (IH w1 _ _ HI1 HS1 HP (tick_keeps_one_open w s sw HS HI Inv))
      as (O & L & C & Len & Inv' & HP' & N').
    set (rest := run P (ticks n) w1) in *.
    cbn [outcome world_of trace fst snd].
    split; [exact O|]. split; [|split; [|split; [|split; [|split]]]].
    + cbn [app listens]. rewrite L, L1. reflexivity.
    + cbn [app closes]. rewrite C, L1. f_equal. now destruct n.
    + rewrite Len, L1. lia.
    + exact Inv'.
    + exact HP'.
    + rewrite N'. reflexivity.
Qed.

Lemma ticks_keep_one_swarm_open_witness :
  Interplanetary (this isolated_world) = Some 0 /\
  SocketPool (this isolated_world) = [] /\
  only_current_open isolated_world /\
  listens (trace (run live_process (ticks 3) isolated_world)) = [1; 2; 3] /\
  closes (trace (run live_process (ticks 3) isolated_world)) = [0; 1; 2].
Proof.
  assert (Inv : only_current_open isolated_world).
  { intros [|i] sw H _; [reflexivity|]. destruct i; discriminate H. }
  split; [reflexivity|]. split; [reflexivity|]. split; [exact Inv|].
  pose proof (ticks_keep_one_swarm_open live_process 3 isolated_world 0 _
                eq_refl eq_refl eq_refl Inv) as (_ & L & C & _).
  split; [exact L | exact C].
Defined.

(** ** What every handler keeps *)

Lemma intervals_app (t u : list Effect) :
  intervals (t ++ u) = intervals t ++ intervals u.
Proof.
  induction t as [|e t IH]; [reflexivity|].
  destruct e; simpl; now rewrite ?IH.
Qed.

Lemma conf_writes_app (t u : list Effect) :
  conf_writes (t ++ u) = conf_writes t ++ conf_writes u.
Proof.
  induction t as [|e t IH]; [reflexivity|].
  destruct e; simpl; now rewrite ?IH.
Qed.

Lemma plain_trace (t : list Effect) :
  forallb plain t = true ->
  ready_count t = 0 /\ intervals t = [] /\ conf_writes t = [].
Proof.
  induction t as [|e t IH]; [now repeat split|].
  cbn [forallb]. intros H. apply andb_prop in H as [He Ht].
  destruct (IH Ht) as (R & I & C).
  destruct e; cbn [plain] in He; try discriminate He;
    cbn [ready_count intervals conf_writes]; rewrite ?R, ?I, ?C;
    try (now repeat split).
  apply negb_true_iff in He. rewrite He. now repeat split.
Qed.

Lemma same_discovery_refl (w : World) : same_discovery w w.
Proof. now repeat split. Qed.

Lemma same_discovery_trans (w1 w2 w3 : World) :
  same_discovery w1 w2 -> same_discovery w2 w3 -> same_discovery w1 w3.
Proof.
  intros (A & B & C) (A' & B' & C'). repeat split; congruence.
Qed.

Lemma started_same (w w' : World) :
  started w -> same_discovery w w' -> started w'.
Proof.
  intros ((b & HW & HA & HR & HD) & H2 & H3) (A & B & C).
  split; [|split].
  - exists b. rewrite A, B. now repeat split.
  - rewrite B. intros HN. specialize (H2 HN).
    rewrite H2 in C. now apply length_zero_iff_nil in C.
  - rewrite B, C. exact H3.
Qed.

Lemma keeps_calm (P : Process) {A} (m : Js A) (w : World) :
  calm m -> started w -> keeps P w (m w).
Proof.
  intros C S. destruct (C w) as [D T].
  destruct (plain_trace _ T) as (R & I & CW).
  assert (E : is_ready (world_of (m w)) = is_ready w).
  { unfold is_ready. destruct D as (-> & _). reflexivity. }
  unfold keeps. rewrite R, I, CW, E. split; [now apply (started_same w)|].
  split; [tauto|]. split; [now destruct (is_ready w)|].
  split; [reflexivity|]. now destruct (test_mode P).
Qed.

Lemma keeps_bind (P : Process) {A B} (m : Js A) (f : A -> Js B)
    (w : World) :
  keeps P w (m w) ->
  (forall a w1 t1, m w = (Return a, w1, t1) -> started w1 ->
                   keeps P w1 (f a w1)) ->
  keeps P w (Js_bind m f w).
Proof.
  intros K1 K2. unfold Js_bind.
  destruct (m w) as [[[a|e] w1] t1] eqn:E; [|exact K1].
  destruct K1 as (S1 & M1 & R1 & I1 & C1).
  cbn [world_of trace fst snd] in *.
  specialize (K2 a w1 t1 eq_refl S1).
  destruct (f a w1) as [[o2 w2] t2].
  destruct K2 as (S2 & M2 & R2 & I2 & C2).
  cbn [world_of trace fst snd] in *.
  unfold keeps. cbn [world_of trace fst snd].
  rewrite ready_count_app, intervals_app, conf_writes_app, length_app,
    repeat_app, I1, I2, C1, C2.
  split; [exact S2|]. split; [tauto|]. rewrite R1, R2.
  destruct (is_ready w), (is_ready w1), (is_ready w2), (test_mode P);
    try (specialize (M1 eq_refl)); try (specialize (M2 eq_refl));
    try discriminate; repeat split.
Qed.

Lemma calm_ret {A} (a : A) : calm (Js_ret a).
Proof. intros w. split; [apply same_discovery_refl|reflexivity]. Qed.

Lemma calm_throw {A} (e : JsError) : calm (@throw A e).
Proof. intros w. split; [apply same_discovery_refl|reflexivity]. Qed.

Lemma calm_tell (e : Effect) : plain e = true -> calm (tell e).
Proof.
  intros H w. split; [apply same_discovery_refl|].
  cbn. now rewrite H.
Qed.

Lemma calm_bind {A B} (m : Js A) (f : A -> Js B) :
  calm m -> (forall a, calm (f a)) -> calm (Js_bind m f).
Proof.
  intros Cm Cf w. unfold Js_bind. destruct (Cm w) as [D T].
  destruct (m w) as [[[a|e] w1] t1]; [|now split].
  cbn [world_of trace fst snd] in *.
  destruct (Cf a w1) as [D2 T2].
  destruct (f a w1) as [[o2 w2] t2]. cbn [world_of trace fst snd] in *.
  split; [now apply (same_discovery_trans w w1 w2)|].
  rewrite forallb_app. now rewrite T, T2.
Qed.

Lemma calm_forEach {A} (l : list A) (f : A -> Js unit) :
  (forall x, calm (f x)) -> calm (forEach l f).
Proof.
  intros H. induction l as [|x l IH]; [apply calm_ret|].
  cbn [forEach]. apply calm_bind; [apply H|intros _; exact IH].
Qed.

Lemma calm_reads : calm get_world /\ calm get_this /\ calm getRouters.
Proof.
  repeat split; try apply same_discovery_refl; reflexivity.
Qed.

Lemma calm_read_router (r : nat) : calm (read_router r).
Proof.
  intros w. unfold read_router.
  destruct (routers w !! r); split;
    try apply same_discovery_refl; reflexivity.
Qed.

Lemma calm_write_router (r : nat) (R : Router) : calm (write_router r R).
Proof. intros w. now repeat split. Qed.

Lemma calm_modify_swarm (s : nat) (f : Swarm -> Swarm) :
  calm (modify_swarm s f).
Proof.
  intros w. unfold modify_swarm. destruct (swarms w !! s).
  - split; [|reflexivity]. repeat split.
    cbn [world_of fst snd swarms with_swarms]. apply length_insert.
  - split; [apply same_discovery_refl|reflexivity].
Qed.

Lemma calm_SocketPool_add (sock : nat) : calm (SocketPool_add sock).
Proof. intros w. now repeat split. Qed.

(** Writes to [this] that leave [this.Interplanetary] alone. *)
Lemma calm_modify_this (f : GridControl -> GridControl) :
  (forall g, Interplanetary (f g) = Interplanetary g) ->
  calm (modify_this f).
Proof.
  intros H w. split; [|reflexivity]. repeat split.
  cbn [world_of fst snd this with_this]. apply H.
Qed.

Lemma calm_get_world : calm get_world.
Proof. apply calm_reads. Qed.

Lemma calm_get_this : calm get_this.
Proof. apply calm_reads. Qed.

Lemma calm_getRouters : calm getRouters.
Proof. apply calm_reads. Qed.

Ltac calm_step :=
  match goal with
  | |- calm (Js_bind _ _) => apply calm_bind; [|intro]
  | |- calm (Js_ret _) => apply calm_ret
  | |- calm (throw _) => apply calm_throw
  | |- calm (tell _) => apply calm_tell; reflexivity
  | |- calm (router_send _ _) => apply calm_tell; reflexivity
  | |- calm get_world => apply calm_get_world
  | |- calm get_this => apply calm_get_this
  | |- calm getRouters => apply calm_getRouters
  | |- calm (read_router _) => apply calm_read_router
  | |- calm (write_router _ _) => apply calm_write_router
  | |- calm (modify_swarm _ _) => apply calm_modify_swarm
  | |- calm (SocketPool_add _) => apply calm_SocketPool_add
  | |- calm (modify_this _) => apply calm_modify_this; intro; reflexivity
  | |- calm (forEach _ _) => apply calm_forEach; intro
  | |- calm (match ?x with _ => _ end) => destruct x
  end.

Ltac calm_tac := repeat calm_step.

Lemma calm_router_identity (r : nat) : calm (router_identity r).
Proof. unfold router_identity. calm_tac. Qed.

Lemma calm_set_synchronized (r : nat) (b : bool) :
  calm (set_synchronized r b).
Proof.
  unfold set_synchronized. calm_tac. apply calm_router_identity.
Qed.

Lemma calm_SocketPool_broadcast (m : Message) : calm (SocketPool_broadcast m).
Proof. unfold SocketPool_broadcast. calm_tac. Qed.

Lemma calm_Interplanetary_close : calm Interplanetary_close.
Proof. unfold Interplanetary_close. calm_tac. Qed.

Lemma calm_on_message (P : Process) (r : nat) (m : Message) (cb : nat) :
  calm (on_message P r m cb).
Proof.
  destruct m; cbn [on_message];
    unfold on_identity, on_clear, on_trigger, on_sync_done, on_sync;
    calm_tac;
    first [apply calm_router_identity | apply calm_set_synchronized].
Qed.

Lemma keeps_quiet (P : Process) (w : World) {A}
    (r : Outcome A * World * list Effect) :
  started (world_of r) -> waiting (world_of r) = waiting w ->
  forallb plain (trace r) = true -> keeps P w r.
Proof.
  intros S W T. destruct (plain_trace _ T) as (R & I & C).
  assert (E : is_ready (world_of r) = is_ready w)
    by (unfold is_ready; now rewrite W).
  unfold keeps. rewrite R, I, C, E. split; [exact S|].
  split; [tauto|]. split; [now destruct (is_ready w)|].
  split; [reflexivity|]. now destruct (test_mode P).
Qed.

Lemma startDiscovery_keeps (P : Process) (ns : JsStr)
    (cb : option Callback) (w : World) :
  started w -> keeps P w (startDiscovery ns cb w).
Proof.
  intros ((b & HW & HA & HR & HD) & H2 & H3).
  rewrite startDiscovery_run. apply keeps_quiet; [|reflexivity|reflexivity].
  cbn [world_of fst snd]. split; [|split].
  - exists b. repeat split; try assumption. discriminate.
  - discriminate.
  - intros s [= <-]. cbn [swarms started_world].
    rewrite length_app. cbn. lia.
Qed.

(** An event that is not one of the three signals. *)
Lemma emit_other_keeps (P : Process) (ev : string) (a : EventArg)
    (w : World) :
  heard ev ready_signals = false -> (ev =? "ready") = false ->
  started w -> keeps P w (emit P ev a w).
Proof.
  intros Hh Hr S. pose proof S as ((b & HW & HA & HR & HD) & H2 & H3).
  assert (E : emit P ev a w = (Return tt, with_waiting (Some b) w,
                               [Emit ev a])).
  { unfold emit, emit_then, listeners, Js_bind, tell. rewrite HW.
    unfold Barrier_signal. rewrite HA, Hh. now destruct (resolved b). }
  rewrite E. apply keeps_quiet.
  - apply (started_same w); [exact S|]. now repeat split.
  - now rewrite HW.
  - cbn. now rewrite Hr.
Qed.

Lemma then_ready_counts (P : Process) (w : World) (b : Barrier) :
  waiting w = Some b -> resolved b = true ->
  exists t, then_ready P w = (Return tt, w, t) /\ ready_count t = 1 /\
            intervals t = [timer] /\
            length (conf_writes t) = if test_mode P then 0 else 1.
Proof.
  intros HW HR. destruct w as [g rs ss wt]. cbn [waiting] in HW. subst wt.
  unfold then_ready, emit_then, listeners, Js_bind, get_this, tell,
    with_waiting.
  cbn [waiting this routers swarms].
  rewrite (Barrier_signal_resolved b "ready" HR).
  destruct (test_mode P); simpl; eexists; repeat split.
Qed.

(** One of the three signals; discovery:ready needs a swarm. *)
Lemma emit_signal_keeps (P : Process) (x : Signal) (w : World) :
  (x = discovery_ready -> Interplanetary (this w) <> None) ->
  started w -> keeps P w (emit P (signal_name x) no_arg w).
Proof.
  intros Hx S. pose proof S as ((b & HW & HA & HC & HD) & H2 & H3).
  destruct (resolved b) eqn:HR.
  - assert (E : emit P (signal_name x) no_arg w =
                (Return tt, with_waiting (Some b) w,
                 [Emit (signal_name x) no_arg])).
    { unfold emit, emit_then, listeners, Js_bind, tell. rewrite HW.
      now rewrite (Barrier_signal_resolved b _ HR). }
    rewrite E. apply keeps_quiet.
    + apply (started_same w); [exact S|]. now repeat split.
    + now rewrite HW.
    + now destruct x.
  - destruct (Barrier_signal_pending b x HA HR) as (b' & E & HA' & HS & HR').
    assert (S' : started (with_waiting (Some b') w)).
    { split; [|split]; [|exact H2|exact H3].
      exists b'. repeat split; try assumption.
      cbn [this with_waiting]. rewrite HS. intros Hd.
      apply orb_true_iff in Hd as [Hd|Hd]; [now apply HD|].
      apply Hx. now destruct x. }
    assert (R0 : is_ready w = false) by (unfold is_ready; now rewrite HW).
    destruct (resolved b') eqn:Rb'.
    + destruct (then_ready_counts P (with_waiting (Some b') w) b' eq_refl Rb')
        as (t & Et & Ct & It & Wt).
      assert (Ee : emit P (signal_name x) no_arg w =
                   (Return tt, with_waiting (Some b') w,
                    Emit (signal_name x) no_arg :: t)).
      { unfold emit, emit_then, listeners, Js_bind, tell. rewrite HW, E.
        cbn [fst snd]. now rewrite Et. }
      rewrite Ee. unfold keeps. cbn [world_of trace fst snd].
      assert (R1 : is_ready (with_waiting (Some b') w) = true)
        by (unfold is_ready; cbn [waiting with_waiting]; exact Rb').
      rewrite R0, R1.
      replace (ready_count (Emit (signal_name x) no_arg :: t)) with 1
        by (cbn [ready_count]; rewrite Ct; now destruct x).
      cbn [intervals conf_writes]. rewrite It, Wt.
      split; [exact S'|]. now repeat split.
    + assert (Ee : emit P (signal_name x) no_arg w =
                   (Return tt, with_waiting (Some b') w,
                    [Emit (signal_name x) no_arg])).
      { unfold emit, emit_then, listeners, Js_bind, tell.
        now rewrite HW, E. }
      rewrite Ee. unfold keeps. cbn [world_of trace fst snd].
      assert (R1 : is_ready (with_waiting (Some b') w) = false)
        by (unfold is_ready; cbn [waiting with_waiting]; exact Rb').
      rewrite R0, R1.
      replace (ready_count [Emit (signal_name x) no_arg]) with 0
        by now destruct x.
      cbn [intervals conf_writes length repeat].
      split; [exact S'|]. split; [discriminate|].
      repeat split. now destruct (test_mode P).
Qed.

Lemma lookup_needs_swarm (w : World) (s : nat) (sw : Swarm) :
  started w -> swarms w !! s = Some sw -> Interplanetary (this w) <> None.
Proof.
  intros (_ & H2 & _) HS HN. rewrite (H2 HN) in HS. discriminate HS.
Qed.

Lemma invoke_keeps (P : Process) (cb : Callback) (args : list JsValue)
    (w : World) :
  Interplanetary (this w) <> None -> started w ->
  keeps P w (invoke P cb args w).
Proof.
  intros HI S. destruct cb as [|k]; cbn [invoke].
  - apply keeps_bind.
    + apply keeps_calm; [calm_tac|exact S].
    + intros a w1 t1 E S1.
      apply (emit_signal_keeps P discovery_ready w1); [|exact S1].
      intros _. destruct (truthy (hd JsUndefined args));
        injection E as _ <- _; exact HI.
  - apply keeps_calm; [calm_tac|exact S].
Qed.

Lemma on_error_keeps (P : Process) (s : nat) (e : JsValue) (w : World) :
  started w -> keeps P w (on_error P s e w).
Proof.
  intros S. unfold on_error.
  apply keeps_bind; [apply keeps_calm; [calm_tac|exact S]|].
  intros a w1 t1 [= <- <- <-] _.
  apply keeps_bind; [apply keeps_calm; [calm_tac|exact S]|].
  intros a1 w1 t1 [= <- <- <-] _.
  apply keeps_bind;
    [apply keeps_calm; [unfold print_message; calm_tac|exact S]|].
  intros a2 w1 t1 E _.
  assert (w1 = w) as ->
    by (destruct e; unfold print_message, throw, tell in E; congruence).
  destruct (swarms w !! s) as [sw|] eqn:HS;
    [|apply keeps_calm; [calm_tac|exact S]].
  destruct (on_cb sw) as [cb|]; [|apply keeps_calm; [calm_tac|exact S]].
  apply invoke_keeps; [|exact S]. now apply (lookup_needs_swarm w s sw).
Qed.

Lemma on_listening_keeps (P : Process) (s : nat) (w : World) :
  started w -> keeps P w (on_listening P s w).
Proof.
  intros S. unfold on_listening.
  apply keeps_bind; [apply keeps_calm; [calm_tac|exact S]|].
  intros a w1 t1 [= <- <- <-] _.
  destruct (Interplanetary (this w)) as [cur|] eqn:HI;
    [|apply keeps_calm; [calm_tac|exact S]].
  destruct (swarms w !! cur) as [C|];
    [|apply keeps_calm; [calm_tac|exact S]].
  destruct (tcp_port C) as [p|]; [|apply keeps_calm; [calm_tac|exact S]].
  apply keeps_bind; [apply keeps_calm; [calm_tac|exact S]|].
  intros a1 w1 t1 [= <- <- <-] S1.
  destruct (swarms w !! s) as [sw|];
    [|apply keeps_calm; [calm_tac|exact S1]].
  destruct (on_cb sw) as [cb|]; [|apply keeps_calm; [calm_tac|exact S1]].
  apply invoke_keeps; [|exact S1].
  cbn [this with_this Interplanetary set_network_port]. now rewrite HI.
Qed.

Lemma onNewPeer_keeps (P : Process) (sock : nat) (w : World) :
  started w -> keeps P w (onNewPeer P sock w).
Proof.
  intros S. unfold onNewPeer.
  apply keeps_bind; [apply keeps_calm; [calm_tac|exact S]|].
  intros r w1 t1 _ S1.
  apply keeps_bind; [now apply emit_other_keeps|].
  intros a w2 t2 _ S2.
  apply keeps_calm; [|exact S2]. unfold getLocalIdentity. calm_tac.
Qed.

Lemma askPeerToSync_keeps (P : Process) (r : nat) (w : World) :
  started w -> keeps P w (askPeerToSync P r w).
Proof.
  intros S. unfold askPeerToSync.
  apply keeps_bind; [now apply emit_other_keeps|].
  intros a w2 t2 _ S2.
  apply keeps_calm; [|exact S2]. calm_tac. apply calm_router_identity.
Qed.

Lemma interval_discovery_keeps (P : Process) (w : World) :
  started w -> keeps P w (interval_discovery w).
Proof.
  intros S. unfold interval_discovery.
  apply keeps_bind; [apply keeps_calm; [calm_tac|exact S]|].
  intros rs w1 t1 _ S1.
  destruct (length rs =? 0)%nat; [|apply keeps_calm; [calm_tac|exact S1]].
  apply keeps_bind; [apply keeps_calm; [calm_tac|exact S1]|].
  intros a w2 t2 _ S2.
  apply keeps_bind;
    [apply keeps_calm; [apply calm_Interplanetary_close|exact S2]|].
  intros a3 w3 t3 _ S3.
  apply keeps_bind; [apply keeps_calm; [calm_tac|exact S3]|].
  intros g w4 t4 _ S4. now apply startDiscovery_keeps.
Qed.

Lemma synchronize_done_keeps (P : Process) (data : SyncData.t)
    (err : JsValue) (meta : FileMeta) (w : World) :
  started w -> keeps P w (synchronize_done P data err meta w).
Proof.
  intros S. unfold synchronize_done.
  destruct (truthy err); [apply keeps_calm; [calm_tac|exact S]|].
  apply keeps_bind; [apply keeps_calm; [calm_tac|exact S]|].
  intros a w1 t1 _ S1.
  apply keeps_bind; [apply keeps_calm; [calm_tac|exact S1]|].
  intros g w2 t2 _ S2.
  apply keeps_bind; [now apply emit_other_keeps|].
  intros a3 w3 t3 _ S3.
  apply keeps_calm; [|exact S3].
  destruct (test_mode P); [apply calm_SocketPool_broadcast|calm_tac].
Qed.

Lemma handle_keeps (P : Process) (e : Event) (w : World) :
  started w -> keeps P w (handle P e w).
Proof.
  intros S. destruct e as [ip| |s ev|r m cb|r| |fm data err meta|data|cb err res];
    cbn [handle].
  - unfold public_ip_resolved.
    apply keeps_bind; [apply keeps_calm; [calm_tac|exact S]|].
    intros a w1 t1 _ S1.
    apply keeps_bind;
      [apply (emit_signal_keeps P ip_ready w1); [discriminate|exact S1]|].
    intros a2 w2 t2 _ S2.
    apply keeps_bind; [apply keeps_calm; [calm_tac|exact S2]|].
    intros g w3 t3 _ S3. now apply startDiscovery_keeps.
  - unfold api_started.
    apply keeps_bind; [apply keeps_calm; [calm_tac|exact S]|].
    intros a w1 t1 _ S1.
    apply (emit_signal_keeps P api_ready w1); [discriminate|exact S1].
  - destruct ev as [err|port|sock]; cbn [on_swarm].
    + now apply on_error_keeps.
    + apply keeps_bind; [apply keeps_calm; [calm_tac|exact S]|].
      intros a w1 t1 _ S1. now apply on_listening_keeps.
    + now apply onNewPeer_keeps.
  - apply keeps_calm; [apply calm_on_message|exact S].
  - now apply askPeerToSync_keeps.
  - now apply interval_discovery_keeps.
  - apply keeps_bind; [apply keeps_calm; [calm_tac|exact S]|].
    intros a w1 t1 _ S1. now apply synchronize_done_keeps.
  - apply keeps_calm; [apply calm_SocketPool_broadcast|exact S].
  - apply keeps_calm; [unfold trigger_done; calm_tac|exact S].
Qed.

Lemma run_keeps (P : Process) (es : list Event) :
  forall w, started w -> keeps P w (run P es w).
Proof.
  induction es as [|e es IH]; intros w S.
  - apply keeps_calm; [apply calm_ret|exact S].
  - rewrite run_cons. apply keeps_bind; [now apply handle_keeps|].
    intros a w1 t1 _ S1. now apply IH.
Qed.

Lemma start_started (w : World) :
  Interplanetary (this w) = None -> swarms w = [] ->
  started (world_of (start w)) /\ is_ready (world_of (start w)) = false.
Proof.
  intros HI HS. split; [|reflexivity]. split; [|split].
  - exists (Wait ready_signals). repeat split. discriminate.
  - intros _. exact HS.
  - cbn [start world_of]. intros s Hs. cbn in Hs. congruence.
Qed.

(** ** Ready, over any run of events *)

(** X13: On a node started right after its construction, whatever events are
    handled afterwards (signals, swarm events, messages, timers, callbacks
    of the collaborators, in any order and number), 'ready' is emitted at
    most once; the self-healing timer is armed once for it, with period
    10000, and never otherwise; and the configuration is written once for
    it unless NODE_ENV is 'test', and never otherwise. *)
Theorem ready_at_most_once_in_any_run (P : Process) (es : list Event)
    (w : World) :
  Interplanetary (this w) = None -> swarms w = [] ->
  let res := run P es (world_of (start w)) in
  ready_count (trace res) <= 1 /\
  intervals (trace res) = repeat timer (ready_count (trace res)) /\
  length (conf_writes (trace res)) =
    (if test_mode P then 0 else ready_count (trace res)).
Proof.
  intros HI HS. destruct (start_started w HI HS) as [S R0].
  destruct (run_keeps P es _ S) as (_ & _ & R & I & C).
  cbn zeta. rewrite R0 in R. cbv iota in R. split; [|split; assumption].
  rewrite R.
  match goal with |- context [if ?b then _ else _] => destruct b end; lia.
Qed.

Lemma ready_at_most_once_in_any_run_witness :
  Interplanetary (this fresh_world) = None /\
  swarms fresh_world = [] /\
  ready_count (trace (run live_process
    (startup ++ [E_api_started; E_swarm 0 (ev_listening 4000);
                 E_public_ip "1.2.3.4"])
    (world_of (start fresh_world)))) <= 1 /\
  intervals (trace (run live_process startup
                      (world_of (start fresh_world)))) = [timer].
Proof.
  split; [reflexivity|]. split; [reflexivity|]. split.
  - apply (ready_at_most_once_in_any_run live_process _ fresh_world);
      reflexivity.
  - pose proof (ready_at_most_once_in_any_run live_process startup
                  fresh_world eq_refl eq_refl) as (_ & I & _).
    rewrite I. reflexivity.
Defined.

(** X14: On a node started right after its construction, in every state reached
    after 'ready' was emitted the node has a discovery swarm, so a tick of
    the self-healing timer returns normally: the [close] it calls on
    [this.Interplanetary] always finds a swarm. *)
Theorem tick_after_ready_finds_swarm (P : Process) (es : list Event)
    (w : World) :
  Interplanetary (this w) = None -> swarms w = [] ->
  let res := run P es (world_of (start w)) in
  ready_count (trace res) = 1 ->
  (exists s sw, Interplanetary (this (world_of res)) = Some s /\
                swarms (world_of res) !! s = Some sw) /\
  outcome (handle P E_interval (world_of res)) = Return tt.
Proof.
  intros HI HS. destruct (start_started w HI HS) as [S R0].
  destruct (run_keeps P es _ S) as (S' & _ & R & _).
  cbn zeta. rewrite R0 in R. cbv iota in R. intros H1.
  set (w' := world_of (run P es (world_of (start w)))) in *.
  assert (Rd : is_ready w' = true).
  { destruct (is_ready w'); [reflexivity|]. rewrite R in H1. discriminate. }
  destruct S' as ((b & HW & HA & HC & HD) & H2 & H3).
  unfold is_ready in Rd. rewrite HW in Rd. rewrite Rd in HC.
  symmetry in HC. apply andb_prop in HC as [HC _].
  apply andb_prop in HC as [_ Hd]. specialize (HD Hd).
  destruct (Interplanetary (this w')) as [s|] eqn:EI; [|contradiction].
  destruct (lookup_lt_is_Some_2 (swarms w') s (H3 s eq_refl)) as [sw Hsw].
  split; [now exists s, sw|]. cbn [handle].
  destruct (SocketPool (this w')) as [|r rs] eqn:EP.
  - now rewrite (interval_discovery_isolated w' s sw EI Hsw EP).
  - rewrite interval_discovery_connected; [reflexivity|]. now rewrite EP.
Qed.

Lemma tick_after_ready_finds_swarm_witness :
  Interplanetary (this fresh_world) = None /\
  swarms fresh_world = [] /\
  ready_count (trace (run live_process startup
                        (world_of (start fresh_world)))) = 1 /\
  outcome (handle live_process E_interval
             (world_of (run live_process startup
                          (world_of (start fresh_world))))) = Return tt.
Proof.
  split; [reflexivity|]. split; [reflexivity|]. split; [reflexivity|].
  apply (tick_after_ready_finds_swarm live_process startup fresh_world);
    reflexivity.
Defined.

(** ** Ready without a listening swarm *)

(** X15: The function [start] gives to [startDiscovery] emits discovery:ready
    whether or not it is given an error: on a node whose address resolved
    and whose API is up, an 'error' event of the swarm that carries an
    error (a value other than undefined and null) completes the barrier,
    so 'ready' is emitted although the swarm never reported 'listening'
    and no network port is known. *)
Theorem ready_despite_discovery_error (P : Process) (ip : string)
    (e : JsValue) (w : World) :
  swarms w = [] -> nullish e = false ->
  let res := run P [E_public_ip ip; E_api_started; E_swarm 0 (ev_error e)]
               (world_of (start w)) in
  outcome res = Return tt /\
  ready_count (trace res) = 1 /\
  intervals (trace res) = [timer] /\
  swarms (world_of res) = [started_swarm (namespace (this w))
                             (Some cb_discovery_ready)] /\
  network_port (this (world_of res)) = network_port (this w).
Proof.
  intros HS He. destruct w as [g rs ss wt]. cbn [swarms] in HS. subst ss.
  cbn zeta. unfold run, forEach, handle, public_ip_resolved, api_started,
    on_swarm, on_error, print_message, invoke, startDiscovery, swarm_listen,
    swarm_join, modify_swarm, new_Interplanetary, emit, emit_then,
    then_ready, listeners, start, Js_bind, modify_this, get_this, get_world,
    tell, Js_ret.
  cbn [hd]. destruct (truthy e);
    destruct e as [| |b|z|str|json]; try discriminate He;
    destruct (test_mode P); cbn; repeat split.
Qed.

Lemma ready_despite_discovery_error_witness :
  swarms fresh_world = [] /\
  nullish (JsObject "Error: bind failed") = false /\
  ready_count (trace (run live_process
    [E_public_ip "1.2.3.4"; E_api_started;
     E_swarm 0 (ev_error (JsObject "Error: bind failed"))]
    (world_of (start fresh_world)))) = 1.
Proof.
  split; [reflexivity|]. split; [reflexivity|].
  apply (ready_despite_discovery_error live_process "1.2.3.4"
           (JsObject "Error: bind failed") fresh_world); reflexivity.
Defined.

(** ** Discovery started without a callback *)

(** X16: When [startDiscovery] is called without a callback, as the
    self-healing timer does, a 'listening' event of the swarm is handled
    normally and records the port, but an 'error' event raises a
    TypeError: when it carries an error (a value other than undefined and
    null), after printing it, because the error handler calls [cb] without
    the test the 'listening' handler makes; when it carries undefined or
    null, already on reading [e.message], after the first line is
    printed. *)
Theorem discovery_without_callback (P : Process) (ns : JsStr)
    (e : JsValue) (port : Z) (w : World) :
  let s := length (swarms w) in
  let w0 := world_of (startDiscovery ns None w) in
  (nullish e = false ->
   handle P (E_swarm s (ev_error e)) w0 =
     (Throw (TypeError "cb is not a function"), w0,
      [ConsoleError "Interplanetary got error" []; ConsoleError "%s" [e]])) /\
  (nullish e = true ->
   exists what,
     handle P (E_swarm s (ev_error e)) w0 =
       (Throw (TypeError what), w0,
        [ConsoleError "Interplanetary got error" []]) /\
     what <> "cb is not a function") /\
  outcome (handle P (E_swarm s (ev_listening port)) w0) = Return tt /\
  network_port (this (world_of
    (handle P (E_swarm s (ev_listening port)) w0))) = Some port /\
  (forall s0 sw, Interplanetary (this w) = Some s0 ->
     swarms w !! s0 = Some sw -> SocketPool (this w) = [] ->
     nullish e = false ->
     outcome (run P [E_interval; E_swarm s (ev_error e)] w) =
       Throw (TypeError "cb is not a function")).
Proof.
  cbn zeta. rewrite startDiscovery_run. cbn [world_of fst snd].
  assert (A : forall w1 : World,
            swarms w1 !! length (swarms w) = Some (started_swarm ns None) ->
            nullish e = false ->
            handle P (E_swarm (length (swarms w)) (ev_error e)) w1 =
              (Throw (TypeError "cb is not a function"), w1,
               [ConsoleError "Interplanetary got error" [];
                ConsoleError "%s" [e]])).
  { intros w1 H1 He. cbn [handle on_swarm]. unfold on_error.
    rewrite (Js_bind_Return get_world _ w1 w1 w1 [] eq_refl).
    rewrite (Js_bind_Return (tell _) _ w1 tt w1 _ eq_refl).
    rewrite (Js_bind_Return _ _ w1 tt w1 _ (print_message_run e w1 He)).
    now rewrite H1. }
  split; [apply A; apply lookup_snoc|].
  split; [|split; [|split]].
  - intros He. cbn [handle on_swarm]. unfold on_error.
    rewrite (Js_bind_Return get_world _ _ _ _ [] eq_refl).
    rewrite (Js_bind_Return (tell _) _ _ tt _ _ eq_refl).
    destruct e; try discriminate He; eexists;
      (split; [reflexivity|discriminate]).
  - cbn [handle on_swarm].
    unfold on_listening, modify_swarm, modify_this, Js_bind, get_world.
    cbn [swarms started_world]. rewrite lookup_snoc, insert_snoc.
    simpl. rewrite lookup_snoc. reflexivity.
  - cbn [handle on_swarm].
    unfold on_listening, modify_swarm, modify_this, Js_bind, get_world.
    cbn [swarms started_world]. rewrite lookup_snoc, insert_snoc.
    simpl. rewrite lookup_snoc. reflexivity.
  - intros s0 sw HI HS0 HP He. rewrite run_cons. cbn [handle].
    rewrite (Js_bind_Return _ _ w tt _ _
               (interval_discovery_isolated w s0 sw HI HS0 HP)).
    rewrite run_one.
    set (w1 := started_world _ None _).
    assert (H1 : swarms w1 !! length (swarms w) =
                 Some (started_swarm (namespace (this w)) None)).
    { subst w1. cbn [swarms started_world with_swarms].
      rewrite <- (length_insert (swarms w) s0 (close_swarm sw)).
      apply lookup_snoc. }
    cbn [handle on_swarm]. unfold on_error.
    rewrite (Js_bind_Return get_world _ w1 w1 w1 [] eq_refl).
    rewrite (Js_bind_Return (tell _) _ w1 tt w1 _ eq_refl).
    rewrite (Js_bind_Return _ _ w1 tt w1 _ (print_message_run e w1 He)).
    now rewrite H1.
Qed.

Lemma discovery_without_callback_witness :
  Interplanetary (this isolated_world) = Some 0 /\
  SocketPool (this isolated_world) = [] /\
  nullish (JsObject "Error: dht") = false /\
  outcome (run live_process
             [E_interval; E_swarm 1 (ev_error (JsObject "Error: dht"))]
             isolated_world) =
    Throw (TypeError "cb is not a function") /\
  nullish JsNull = true /\
  outcome (handle live_process (E_swarm 0 (ev_error JsNull))
             (world_of (startDiscovery "pm2:fs" None fresh_world))) <>
    Throw (TypeError "cb is not a function").
Proof.
  split; [reflexivity|]. split; [reflexivity|]. split; [reflexivity|].
  pose proof (discovery_without_callback live_process "pm2:fs"
                (JsObject "Error: dht") 0 isolated_world) as (_ & _ & _ & _ & H).
  split; [apply (H 0 _ eq_refl eq_refl eq_refl eq_refl)|].
  split; [reflexivity|].
  pose proof (discovery_without_callback live_process "pm2:fs" JsNull 0
                fresh_world) as (_ & N & _).
  destruct (N eq_refl) as (what & E & D).
  cbn zeta in E. change (length (swarms fresh_world)) with 0 in E.
  rewrite E. cbn [outcome fst]. congruence.
Defined.
